(** * Conversation state synchronizer of the Jhimki chat page

    A shallow embedding of [src/app/page.tsx]: the storage adapter
    ([loadMessagesFromStorage], [saveMessagesToStorage]) and the session
    controller that lives inside the [Chat] component (its three effects,
    [handleDurationChange], [onSubmit] and [clearChat]).

    The platform the page runs on is modelled next to it:
    - JavaScript values as far as [JSON.parse] can produce them, with
      property lookup, truthiness and the own-property order of objects;
    - [JSON.stringify] and [JSON.parse] as a printer and a recursive-descent
      parser for the JSON grammar;
    - the browser: [window], [localStorage] (a finite map from keys to
      strings, possibly unavailable or full), the clock, the console and the
      toast list;
    - React: one render of the component followed by the effects whose
      dependencies changed; an exception thrown by an effect tears the page
      down;
    - the chat engine behind [useChat]: it owns the transcript, replaces it
      when a message is sent or a reply grows, and takes a copy
      ([[...transcript]]) of what [setMessages] hands it.

    Conventions.  A JavaScript string is represented by its UTF-8 bytes (a
    Rocq [string]).  A number is an exact decimal [m * 10^e]; rounding to
    IEEE doubles, NaN and the infinities are outside the embedding. *)

From Stdlib Require Import ZArith NArith List String Ascii Lia Bool.
From Stdlib Require Import Decimal DecimalN DecimalFacts.
From stdpp Require Import base option gmap strings list fin_maps.
Import ListNotations.

Open Scope string_scope.
Open Scope list_scope.

(* ===================================================================== *)
(** * JavaScript values *)
(* ===================================================================== *)

Module Js.

(** The values [JSON.parse] produces.  [JNum m e] is the number
    [m * 10^e].  An object is its list of own properties in enumeration
    order. *)
#[warnings="-register-all"]
Inductive JsVal : Type :=
| JNull
| JBool (b : bool)
| JNum (m e : Z)
| JStr (s : string)
| JArr (items : list JsVal)
| JObj (props : list (string * JsVal)).

(** What a thrown exception is an instance of. *)
Inductive JsError : Type :=
| SyntaxError
| TypeError
| SecurityError
| QuotaExceededError.

(** The outcome of evaluating an expression or a statement list. *)
Inductive Completion (A : Type) : Type :=
| Normal (a : A)
| Throw (e : JsError).
Arguments Normal {A} a.
Arguments Throw {A} e.

(** ToBoolean. *)
Definition truthy (v : JsVal) : bool :=
  match v with
  | JNull => false
  | JBool b => b
  | JNum m _ => negb (m =? 0)%Z
  | JStr s => negb (String.eqb s "")
  | JArr _ => true
  | JObj _ => true
  end.

(** [x || d], where [None] stands for [undefined]. *)
Definition js_or (x : option JsVal) (d : JsVal) : JsVal :=
  match x with
  | Some v => if truthy v then v else d
  | None => d
  end.

(** ** Digits *)

Definition digit_of (c : ascii) : option (uint -> uint) :=
  match N_of_ascii c with
  | 48%N => Some D0 | 49%N => Some D1 | 50%N => Some D2 | 51%N => Some D3
  | 52%N => Some D4 | 53%N => Some D5 | 54%N => Some D6 | 55%N => Some D7
  | 56%N => Some D8 | 57%N => Some D9
  | _ => None
  end.

Definition is_digit (c : ascii) : bool :=
  match digit_of c with Some _ => true | None => false end.

(** The longest prefix of decimal digits, and what follows it. *)
Fixpoint lex_digits (s : list ascii) : uint * list ascii :=
  match s with
  | [] => (Nil, [])
  | c :: r =>
      match digit_of c with
      | Some d => let (u, r') := lex_digits r in (d u, r')
      | None => (Nil, s)
      end
  end.

Fixpoint uint_chars (u : uint) : list ascii :=
  match u with
  | Nil => []
  | D0 u => "0"%char :: uint_chars u
  | D1 u => "1"%char :: uint_chars u
  | D2 u => "2"%char :: uint_chars u
  | D3 u => "3"%char :: uint_chars u
  | D4 u => "4"%char :: uint_chars u
  | D5 u => "5"%char :: uint_chars u
  | D6 u => "6"%char :: uint_chars u
  | D7 u => "7"%char :: uint_chars u
  | D8 u => "8"%char :: uint_chars u
  | D9 u => "9"%char :: uint_chars u
  end.

(** Decimal numeral of a natural number, as [String(n)] gives it. *)
Definition N_chars (n : N) : list ascii := uint_chars (N.to_uint n).

Definition Z_chars (z : Z) : list ascii :=
  (if (z <? 0)%Z then ["-"%char] else []) ++ N_chars (Z.abs_N z).

(** ** Own properties of an object *)

(** An array index is a canonical numeral below [2^32 - 1]; such keys are
    enumerated first, in ascending order. *)
Definition array_index (k : string) : option N :=
  let cs := list_ascii_of_string k in
  match lex_digits cs with
  | (u, []) =>
      let n := N.of_uint u in
      if forallb is_digit cs && negb (String.eqb k "")
         && uint_beq (N.to_uint n) u && (n <? 4294967295)%N
      then Some n else None
  | _ => None
  end.

(** [precedes k k']: a property created under [k] is enumerated before an
    existing property [k']. *)
Definition precedes (k k' : string) : bool :=
  match array_index k, array_index k' with
  | Some i, Some i' => (i <? i')%N
  | Some _, None => true
  | None, _ => false
  end.

Fixpoint obj_get (k : string) (o : list (string * JsVal)) : option JsVal :=
  match o with
  | [] => None
  | (k', v) :: r => if String.eqb k' k then Some v else obj_get k r
  end.

Definition obj_has (k : string) (o : list (string * JsVal)) : bool :=
  match obj_get k o with Some _ => true | None => false end.

Fixpoint obj_replace (k : string) (v : JsVal) (o : list (string * JsVal))
  : list (string * JsVal) :=
  match o with
  | [] => []
  | (k', v') :: r =>
      if String.eqb k' k then (k', v) :: r else (k', v') :: obj_replace k v r
  end.

Fixpoint obj_insert (k : string) (v : JsVal) (o : list (string * JsVal))
  : list (string * JsVal) :=
  match o with
  | [] => [(k, v)]
  | (k', v') :: r =>
      if precedes k k' then (k, v) :: o else (k', v') :: obj_insert k v r
  end.

(** CreateDataProperty: an existing property keeps its place, a new one is
    put where the enumeration order wants it. *)
Definition obj_set (k : string) (v : JsVal) (o : list (string * JsVal))
  : list (string * JsVal) :=
  if obj_has k o then obj_replace k v o else obj_insert k v o.

(** The object a list of [key: value] definitions builds, left to right. *)
Definition obj_of_entries (es : list (string * JsVal)) : list (string * JsVal) :=
  fold_left (fun o p => obj_set (fst p) (snd p) o) es [].

(** A key list an object can have: no key twice, array indices first and
    ascending. *)
Fixpoint keys_canonical (ks : list string) : bool :=
  match ks with
  | [] => true
  | k :: r =>
      forallb (fun k' => negb (String.eqb k' k) && negb (precedes k' k)) r
      && keys_canonical r
  end.

(** [wf v]: every object inside [v] has a key list an object can have. *)
Fixpoint wf (v : JsVal) : bool :=
  match v with
  | JArr l => forallb wf l
  | JObj o => keys_canonical (map fst o) && forallb (fun p => wf (snd p)) o
  | _ => true
  end.

(** ** Strings as UTF-8 *)

Definition byte (n : N) : ascii := ascii_of_N n.

(** UTF-8 (generalised to lone surrogates) of a code point. *)
Definition utf8_encode (cp : N) : list ascii :=
  if (cp <? 128)%N then [byte cp]
  else if (cp <? 2048)%N then
    [byte (192 + cp / 64); byte (128 + cp mod 64)]
  else if (cp <? 65536)%N then
    [byte (224 + cp / 4096); byte (128 + (cp / 64) mod 64); byte (128 + cp mod 64)]
  else
    [byte (240 + cp / 262144); byte (128 + (cp / 4096) mod 64);
     byte (128 + (cp / 64) mod 64); byte (128 + cp mod 64)].

(** Number of UTF-16 code units of a string given by its UTF-8 bytes. *)
Definition utf16_units (c : ascii) : N :=
  let n := N_of_ascii c in
  if (n <? 128)%N then 1
  else if (n <? 192)%N then 0
  else if (n <? 240)%N then 1
  else 2.

Definition utf16_length (s : string) : N :=
  fold_right (fun c n => (utf16_units c + n)%N) 0%N (list_ascii_of_string s).

(** ** Property access *)

(** [v.name] for the names the page reads: [None] is [undefined]; reading
    a property of [null] throws.  Apart from [length] on arrays and strings
    the prototypes of the JSON values define none of the names [messages],
    [durations] or [length], so only own properties count. *)
Definition get_member (v : JsVal) (name : string) : Completion (option JsVal) :=
  match v with
  | JNull => Throw TypeError
  | JObj o => Normal (obj_get name o)
  | JArr l =>
      if String.eqb name "length" then Normal (Some (JNum (Z.of_nat (length l)) 0))
      else match array_index name with
           | Some i => Normal (nth_error l (N.to_nat i))
           | None => Normal None
           end
  | JStr s =>
      if String.eqb name "length" then Normal (Some (JNum (Z.of_N (utf16_length s)) 0))
      else Normal None
  | JBool _ => Normal None
  | JNum _ _ => Normal None
  end.

(** [x === 0]. *)
Definition strict_eq_zero (x : option JsVal) : bool :=
  match x with
  | Some (JNum m _) => (m =? 0)%Z
  | _ => false
  end.

(** The values of a list as properties named [i], [i + 1], and so on. *)
Fixpoint indexed (i : N) (l : list JsVal) : list (string * JsVal) :=
  match l with
  | [] => []
  | x :: r => (string_of_list_ascii (N_chars i), x) :: indexed (N.succ i) r
  end.

(** Own enumerable properties copied by an object spread [{...v}]: those
    of an object, the elements of an array under their indices, the
    characters of a string under theirs (one byte per character here), and
    nothing for the other values. *)
Definition spread (v : JsVal) : list (string * JsVal) :=
  match v with
  | JObj o => o
  | JArr l => indexed 0 l
  | JStr s => indexed 0 (map (fun c => JStr (String c "")) (list_ascii_of_string s))
  | _ => []
  end.

(** ** Iteration *)

(** A byte that continues a UTF-8 sequence. *)
Definition is_continuation (c : ascii) : bool :=
  (128 <=? N_of_ascii c)%N && (N_of_ascii c <? 192)%N.

Definition starts_with_continuation (cs : list ascii) : bool :=
  match cs with
  | c :: _ => is_continuation c
  | [] => false
  end.

(** The code points of a string, each with the bytes that encode it. *)
Fixpoint code_points (cs : list ascii) : list (list ascii) :=
  match cs with
  | [] => []
  | c :: r =>
      match code_points r with
      | p :: ps => if starts_with_continuation r then (c :: p) :: ps else [c] :: p :: ps
      | [] => [[c]]
      end
  end.

(** The elements of [[...v]]: an array yields its elements and a string
    its code points; the other values [JSON.parse] produces are not
    iterable, and spreading them throws. *)
Definition iterate (v : JsVal) : Completion (list JsVal) :=
  match v with
  | JArr l => Normal l
  | JStr s =>
      Normal (map (fun p => JStr (string_of_list_ascii p))
                (code_points (list_ascii_of_string s)))
  | _ => Throw TypeError
  end.

End Js.
Import Js.

(* ===================================================================== *)
(** * JSON.stringify and JSON.parse *)
(* ===================================================================== *)

Module Json.

Definition dquote : ascii := ascii_of_N 34.
Definition backslash : ascii := ascii_of_N 92.

Definition hex_char (n : N) : ascii :=
  if (n <? 10)%N then ascii_of_N (48 + n) else ascii_of_N (87 + n).

(** QuoteJSONString, one character. *)
Definition escape_char (c : ascii) : list ascii :=
  let n := N_of_ascii c in
  if (n =? 34)%N then [backslash; dquote]
  else if (n =? 92)%N then [backslash; backslash]
  else if (n =? 8)%N then [backslash; "b"%char]
  else if (n =? 12)%N then [backslash; "f"%char]
  else if (n =? 10)%N then [backslash; "n"%char]
  else if (n =? 13)%N then [backslash; "r"%char]
  else if (n =? 9)%N then [backslash; "t"%char]
  else if (n <? 32)%N then
    [backslash; "u"%char; "0"%char; "0"%char; hex_char (n / 16); hex_char (n mod 16)]
  else [c].

Definition quote_chars (s : string) : list ascii :=
  dquote :: flat_map escape_char (list_ascii_of_string s) ++ [dquote].

(** A number is printed as its mantissa, followed by its exponent when
    that is not zero.  An integer [JNum m 0] is printed as ECMAScript prints
    it; for other numbers the text differs from Number::toString in form,
    not in the number it denotes. *)
Definition number_chars (m e : Z) : list ascii :=
  Z_chars m ++ (if (e =? 0)%Z then [] else "e"%char :: Z_chars e).

(** Items separated by commas. *)
Fixpoint join_comma (parts : list (list ascii)) : list ascii :=
  match parts with
  | [] => []
  | [p] => p
  | p :: rest => p ++ ","%char :: join_comma rest
  end.

(** SerializeJSONProperty without indentation. *)
Fixpoint stringify_chars (v : JsVal) : list ascii :=
  match v with
  | JNull => list_ascii_of_string "null"
  | JBool true => list_ascii_of_string "true"
  | JBool false => list_ascii_of_string "false"
  | JNum m e => number_chars m e
  | JStr s => quote_chars s
  | JArr l => "["%char :: join_comma (map stringify_chars l) ++ ["]"%char]
  | JObj o =>
      "{"%char
      :: join_comma (map (fun p => quote_chars (fst p) ++ ":"%char :: stringify_chars (snd p)) o)
      ++ ["}"%char]
  end.

Definition JSON_stringify (v : JsVal) : string :=
  string_of_list_ascii (stringify_chars v).

(** ** Lexical grammar *)

Definition is_ws (c : ascii) : bool :=
  let n := N_of_ascii c in
  (n =? 32)%N || (n =? 9)%N || (n =? 10)%N || (n =? 13)%N.

Fixpoint skip_ws (s : list ascii) : list ascii :=
  match s with
  | [] => []
  | c :: r => if is_ws c then skip_ws r else s
  end.

Definition hex_val (c : ascii) : option N :=
  let n := N_of_ascii c in
  if (48 <=? n)%N && (n <=? 57)%N then Some (n - 48)%N
  else if (97 <=? n)%N && (n <=? 102)%N then Some (n - 87)%N
  else if (65 <=? n)%N && (n <=? 70)%N then Some (n - 55)%N
  else None.

Definition hex4 (a b c d : ascii) : option N :=
  match hex_val a, hex_val b, hex_val c, hex_val d with
  | Some x, Some y, Some z, Some w => Some (((x * 16 + y) * 16 + z) * 16 + w)%N
  | _, _, _, _ => None
  end.

Definition is_high_surrogate (n : N) : bool := (55296 <=? n)%N && (n <=? 56319)%N.
Definition is_low_surrogate (n : N) : bool := (56320 <=? n)%N && (n <=? 57343)%N.

(** The character a one-letter escape stands for. *)
Definition unescape (c : ascii) : option ascii :=
  let n := N_of_ascii c in
  if (n =? 34)%N then Some dquote
  else if (n =? 92)%N then Some backslash
  else if (n =? 47)%N then Some "/"%char
  else if (n =? 98)%N then Some (ascii_of_N 8)
  else if (n =? 102)%N then Some (ascii_of_N 12)
  else if (n =? 110)%N then Some (ascii_of_N 10)
  else if (n =? 114)%N then Some (ascii_of_N 13)
  else if (n =? 116)%N then Some (ascii_of_N 9)
  else None.

Definition prepend (p : list ascii) (x : option (list ascii * list ascii))
  : option (list ascii * list ascii) :=
  match x with
  | Some (s, r) => Some (p ++ s, r)
  | None => None
  end.

(** The rest of a string literal after its opening quote: the characters
    it denotes and what follows the closing quote. *)
Fixpoint lex_string (s : list ascii) : option (list ascii * list ascii) :=
  match s with
  | [] => None
  | c :: r =>
      if Ascii.eqb c dquote then Some ([], r)
      else if Ascii.eqb c backslash then
        match r with
        | [] => None
        | e :: r1 =>
            if Ascii.eqb e "u" then
              match r1 with
              | h1 :: h2 :: h3 :: h4 :: r2 =>
                  match hex4 h1 h2 h3 h4 with
                  | None => None
                  | Some hi =>
                      if is_high_surrogate hi then
                        match r2 with
                        | b :: u :: l1 :: l2 :: l3 :: l4 :: r3 =>
                            match hex4 l1 l2 l3 l4 with
                            | Some lo =>
                                if Ascii.eqb b backslash && Ascii.eqb u "u"
                                   && is_low_surrogate lo
                                then
                                  prepend
                                    (utf8_encode (65536 + (hi - 55296) * 1024 + (lo - 56320)))
                                    (lex_string r3)
                                else prepend (utf8_encode hi) (lex_string r2)
                            | None => prepend (utf8_encode hi) (lex_string r2)
                            end
                        | _ => prepend (utf8_encode hi) (lex_string r2)
                        end
                      else prepend (utf8_encode hi) (lex_string r2)
                  end
              | _ => None
              end
            else
              match unescape e with
              | Some d => prepend [d] (lex_string r1)
              | None => None
              end
        end
      else if (N_of_ascii c <? 32)%N then None
      else prepend [c] (lex_string r)
  end.

(** The integer part of a number: one digit, or several not starting
    with zero. *)
Definition int_part_ok (u : uint) : bool :=
  match u with
  | Nil => false
  | D0 Nil => true
  | D0 _ => false
  | _ => true
  end.

Definition lex_fraction (s : list ascii) : option (uint * list ascii) :=
  match s with
  | c :: r =>
      if Ascii.eqb c "." then
        match lex_digits r with
        | (Nil, _) => None
        | (f, r') => Some (f, r')
        end
      else Some (Nil, s)
  | [] => Some (Nil, [])
  end.

Definition lex_exponent (s : list ascii) : option (Z * list ascii) :=
  match s with
  | c :: r =>
      if Ascii.eqb c "e" || Ascii.eqb c "E" then
        let '(neg, r1) :=
          match r with
          | sg :: r' =>
              if Ascii.eqb sg "-" then (true, r')
              else if Ascii.eqb sg "+" then (false, r')
              else (false, r)
          | [] => (false, r)
          end in
        match lex_digits r1 with
        | (Nil, _) => None
        | (d, r2) =>
            let x := Z.of_N (N.of_uint d) in
            Some (if neg then (- x)%Z else x, r2)
        end
      else Some (0%Z, s)
  | [] => Some (0%Z, [])
  end.

(** A number literal after its sign: integer part, fraction, exponent. *)
Definition lex_unsigned (neg : bool) (s1 : list ascii) : option (JsVal * list ascii) :=
  let '(ip, s2) := lex_digits s1 in
  if int_part_ok ip then
    match lex_fraction s2 with
    | None => None
    | Some (fp, s3) =>
        match lex_exponent s3 with
        | None => None
        | Some (ex, s4) =>
            let m := Z.of_N (N.of_uint (Decimal.app ip fp)) in
            Some (JNum (if neg then (- m)%Z else m) (ex - Z.of_nat (nb_digits fp)), s4)
        end
    end
  else None.

Definition lex_number (s : list ascii) : option (JsVal * list ascii) :=
  match s with
  | c :: r => if Ascii.eqb c "-" then lex_unsigned true r else lex_unsigned false s
  | [] => None
  end.

(** A keyword after its first letter. *)
Fixpoint expect (w s : list ascii) : option (list ascii) :=
  match w with
  | [] => Some s
  | c :: w' =>
      match s with
      | c' :: s' => if Ascii.eqb c c' then expect w' s' else None
      | [] => None
      end
  end.

Definition keyword (w : string) (v : JsVal) (s : list ascii)
  : option (JsVal * list ascii) :=
  match expect (list_ascii_of_string w) s with
  | Some r => Some (v, r)
  | None => None
  end.

(** ** Syntactic grammar *)

(** [parse_value] reads one JSON value, [parse_elements] the elements of
    an array up to its closing bracket, [parse_members] the members of an
    object up to its closing brace.  [fuel] bounds the nesting of calls;
    the length of the text is always enough (see [parse_value_fuel]). *)
Fixpoint parse_value (fuel : nat) (s : list ascii) {struct fuel}
  : option (JsVal * list ascii) :=
  match fuel with
  | O => None
  | S fuel' =>
      match skip_ws s with
      | [] => None
      | c :: r =>
          if Ascii.eqb c "{" then
            match skip_ws r with
            | [] => None
            | c' :: r' =>
                if Ascii.eqb c' "}" then Some (JObj [], r')
                else
                  match parse_members fuel' (c' :: r') with
                  | Some (es, r'') => Some (JObj (obj_of_entries es), r'')
                  | None => None
                  end
            end
          else if Ascii.eqb c "[" then
            match skip_ws r with
            | [] => None
            | c' :: r' =>
                if Ascii.eqb c' "]" then Some (JArr [], r')
                else
                  match parse_elements fuel' (c' :: r') with
                  | Some (vs, r'') => Some (JArr vs, r'')
                  | None => None
                  end
            end
          else if Ascii.eqb c dquote then
            match lex_string r with
            | Some (cs, r') => Some (JStr (string_of_list_ascii cs), r')
            | None => None
            end
          else if Ascii.eqb c "t" then keyword "rue" (JBool true) r
          else if Ascii.eqb c "f" then keyword "alse" (JBool false) r
          else if Ascii.eqb c "n" then keyword "ull" JNull r
          else lex_number (c :: r)
      end
  end

with parse_elements (fuel : nat) (s : list ascii) {struct fuel}
  : option (list JsVal * list ascii) :=
  match fuel with
  | O => None
  | S fuel' =>
      match parse_value fuel' s with
      | None => None
      | Some (v, r) =>
          match skip_ws r with
          | [] => None
          | c :: r' =>
              if Ascii.eqb c "," then
                match parse_elements fuel' r' with
                | Some (vs, r'') => Some (v :: vs, r'')
                | None => None
                end
              else if Ascii.eqb c "]" then Some ([v], r')
              else None
          end
      end
  end

with parse_members (fuel : nat) (s : list ascii) {struct fuel}
  : option (list (string * JsVal) * list ascii) :=
  match fuel with
  | O => None
  | S fuel' =>
      match skip_ws s with
      | [] => None
      | q :: r =>
          if Ascii.eqb q dquote then
            match lex_string r with
            | None => None
            | Some (k, r1) =>
                match skip_ws r1 with
                | [] => None
                | c1 :: r2 =>
                    if Ascii.eqb c1 ":" then
                      match parse_value fuel' r2 with
                      | None => None
                      | Some (v, r3) =>
                          match skip_ws r3 with
                          | [] => None
                          | c3 :: r4 =>
                              if Ascii.eqb c3 "," then
                                match parse_members fuel' r4 with
                                | Some (es, r5) =>
                                    Some ((string_of_list_ascii k, v) :: es, r5)
                                | None => None
                                end
                              else if Ascii.eqb c3 "}" then
                                Some ([(string_of_list_ascii k, v)], r4)
                              else None
                          end
                      end
                    else None
                end
            end
          else None
      end
  end.

(** [JSON.parse]: one value, then nothing but white space.  [None] is a
    thrown SyntaxError. *)
Definition JSON_parse (text : string) : option JsVal :=
  let s := list_ascii_of_string text in
  match parse_value (length s) s with
  | Some (v, r) =>
      match skip_ws r with
      | [] => Some v
      | _ :: _ => None
      end
  | None => None
  end.

End Json.
Import Json.

(* ===================================================================== *)
(** * The browser *)
(* ===================================================================== *)

Module Browser.

(** What the page can observe of its surroundings.  [has_window] is
    [typeof window !== "undefined"]; [storage_denied] makes every access to
    [localStorage] throw; [storage_quota] bounds the bytes [localStorage]
    may hold. *)
Record Browser : Type := {
  has_window : bool;
  storage_denied : bool;
  storage_quota : option nat;
  localStorage : gmap string string;
  clock : N;
  console : list (string * JsError);
  toasts : list string;
}.

Definition set_localStorage (ls : gmap string string) (b : Browser) : Browser :=
  {| has_window := has_window b; storage_denied := storage_denied b;
     storage_quota := storage_quota b; localStorage := ls; clock := clock b;
     console := console b; toasts := toasts b |}.

Definition set_clock (t : N) (b : Browser) : Browser :=
  {| has_window := has_window b; storage_denied := storage_denied b;
     storage_quota := storage_quota b; localStorage := localStorage b; clock := t;
     console := console b; toasts := toasts b |}.

Definition log_console (line : string * JsError) (b : Browser) : Browser :=
  {| has_window := has_window b; storage_denied := storage_denied b;
     storage_quota := storage_quota b; localStorage := localStorage b;
     clock := clock b; console := console b ++ [line]; toasts := toasts b |}.

Definition push_toast (msg : string) (b : Browser) : Browser :=
  {| has_window := has_window b; storage_denied := storage_denied b;
     storage_quota := storage_quota b; localStorage := localStorage b;
     clock := clock b; console := console b; toasts := toasts b ++ [msg] |}.

(** Bytes held by a storage area. *)
Definition storage_size (ls : gmap string string) : nat :=
  map_fold (fun k v n => String.length k + String.length v + n) 0 ls.

Definition within_quota (q : option nat) (ls : gmap string string) : bool :=
  match q with
  | Some n => Nat.leb (storage_size ls) n
  | None => true
  end.

(** A computation of the page: it reads and changes the browser and
    either completes with a value or throws. *)
Definition JS (A : Type) : Type := Browser -> Completion A * Browser.

#[export] Instance JS_ret : MRet JS := fun A a b => (Normal a, b).

#[export] Instance JS_bind : MBind JS := fun A B f m b =>
  match m b with
  | (Normal a, b') => f a b'
  | (Throw e, b') => (Throw e, b')
  end.

Definition lift {A : Type} (c : Completion A) : JS A := fun b => (c, b).

(** [try { body } catch (error) { handler }]. *)
Definition try_catch {A : Type} (body : JS A) (handler : JsError -> JS A) : JS A :=
  fun b =>
    match body b with
    | (Normal a, b') => (Normal a, b')
    | (Throw e, b') => handler e b'
    end.

Definition typeof_window_undefined : JS bool :=
  fun b => (Normal (negb (has_window b)), b).

Definition localStorage_getItem (key : string) : JS (option string) :=
  fun b =>
    if storage_denied b then (Throw SecurityError, b)
    else (Normal (localStorage b !! key), b).

Definition localStorage_setItem (key value : string) : JS unit :=
  fun b =>
    if storage_denied b then (Throw SecurityError, b)
    else
      let ls := <[key := value]> (localStorage b) in
      if within_quota (storage_quota b) ls then (Normal tt, set_localStorage ls b)
      else (Throw QuotaExceededError, b).

Definition console_error (msg : string) (error : JsError) : JS unit :=
  fun b => (Normal tt, log_console (msg, error) b).

Definition toast_success (msg : string) : JS unit :=
  fun b => (Normal tt, push_toast msg b).

Definition Date_now : JS N := fun b => (Normal (clock b), b).

Definition JSON_parse_js (text : string) : JS JsVal :=
  match JSON_parse text with
  | Some v => mret v
  | None => lift (Throw SyntaxError)
  end.

End Browser.
Import Browser.

(* ===================================================================== *)
(** * Storage adapter (page.tsx, lines 26 to 62) *)
(* ===================================================================== *)

Module Storage.

Definition STORAGE_KEY : string := "chat-messages".

Record StorageData : Type := {
  messages : JsVal;
  durations : JsVal;
}.

(** [!stored] for what [getItem] returns: [null] or a string. *)
Definition not_stored (stored : option string) : bool :=
  match stored with
  | None => true
  | Some text => String.eqb text ""
  end.

Definition loadMessagesFromStorage : JS StorageData :=
  undef ← typeof_window_undefined;
  if (undef : bool) then mret {| messages := JArr []; durations := JObj [] |}
  else
    try_catch
      (stored ← localStorage_getItem STORAGE_KEY;
       match stored with
       | None => mret {| messages := JArr []; durations := JObj [] |}
       | Some text =>
           if not_stored stored then mret {| messages := JArr []; durations := JObj [] |}
           else
             parsed ← JSON_parse_js text;
             parsed_messages ← lift (get_member parsed "messages");
             parsed_durations ← lift (get_member parsed "durations");
             mret {| messages := js_or parsed_messages (JArr []);
                     durations := js_or parsed_durations (JObj []) |}
       end)
      (fun error =>
         console_error "Failed to load messages:" error;;
         mret {| messages := JArr []; durations := JObj [] |}).

Definition saveMessagesToStorage (messages durations : JsVal) : JS unit :=
  undef ← typeof_window_undefined;
  if (undef : bool) then mret tt
  else
    try_catch
      (let data := JObj [("messages", messages); ("durations", durations)] in
       localStorage_setItem STORAGE_KEY (JSON_stringify data))
      (fun error => console_error "Failed to save messages:" error).

End Storage.
Import Storage (STORAGE_KEY, StorageData, loadMessagesFromStorage, saveMessagesToStorage).

(* ===================================================================== *)
(** * The Chat component (page.tsx, lines 64 to 135) *)
(* ===================================================================== *)

(** [formSchema]: the message has between 1 and 2000 characters. *)
Definition formSchema (message : string) : bool :=
  (1 <=? utf16_length message)%N && (utf16_length message <=? 2000)%N.

Module Chat.

(** The state the hooks of one mounted [Chat] hold.  [messages] is the
    transcript of the chat engine ([useChat]); [form_message] is the text
    field of the form.  The last three fields are React's: the value of
    [isClient] at the last commit, and whether [messages] and [durations]
    were replaced by a new array or object since then (dependencies are
    compared with [Object.is]). *)
Record Chat : Type := {
  isClient : bool;
  durations : JsVal;
  welcomeShownRef : bool;
  initialMessages : JsVal;
  messages : JsVal;
  form_message : string;
  committed_isClient : bool;
  fresh_messages : bool;
  fresh_durations : bool;
}.

Definition setIsClient (x : bool) (c : Chat) : Chat :=
  {| isClient := x; durations := durations c; welcomeShownRef := welcomeShownRef c;
     initialMessages := initialMessages c; messages := messages c;
     form_message := form_message c; committed_isClient := committed_isClient c;
     fresh_messages := fresh_messages c; fresh_durations := fresh_durations c |}.

(** [setDurations(update)], [update] applied to the pending state. *)
Definition setDurations (update : JsVal -> JsVal) (c : Chat) : Chat :=
  {| isClient := isClient c; durations := update (durations c);
     welcomeShownRef := welcomeShownRef c; initialMessages := initialMessages c;
     messages := messages c; form_message := form_message c;
     committed_isClient := committed_isClient c;
     fresh_messages := fresh_messages c; fresh_durations := true |}.

(** The chat engine replaces its transcript: what [messages] is at the
    next render.  This is how the engine itself publishes a transcript
    (a message sent, a reply that grows). *)
Definition publish (transcript : JsVal) (c : Chat) : Chat :=
  {| isClient := isClient c; durations := durations c;
     welcomeShownRef := welcomeShownRef c; initialMessages := initialMessages c;
     messages := transcript; form_message := form_message c;
     committed_isClient := committed_isClient c;
     fresh_messages := true; fresh_durations := fresh_durations c |}.

Definition set_welcomeShownRef (x : bool) (c : Chat) : Chat :=
  {| isClient := isClient c; durations := durations c; welcomeShownRef := x;
     initialMessages := initialMessages c; messages := messages c;
     form_message := form_message c; committed_isClient := committed_isClient c;
     fresh_messages := fresh_messages c; fresh_durations := fresh_durations c |}.

Definition set_form_message (text : string) (c : Chat) : Chat :=
  {| isClient := isClient c; durations := durations c;
     welcomeShownRef := welcomeShownRef c; initialMessages := initialMessages c;
     messages := messages c; form_message := text;
     committed_isClient := committed_isClient c;
     fresh_messages := fresh_messages c; fresh_durations := fresh_durations c |}.

(** The dependencies as this commit leaves them. *)
Definition commit_deps (c : Chat) : Chat :=
  {| isClient := isClient c; durations := durations c;
     welcomeShownRef := welcomeShownRef c; initialMessages := initialMessages c;
     messages := messages c; form_message := form_message c;
     committed_isClient := isClient c;
     fresh_messages := false; fresh_durations := false |}.

(** What the closures of one render capture. *)
Record Render : Type := {
  r_isClient : bool;
  r_durations : JsVal;
  r_stored : StorageData;
  r_initialMessages : JsVal;
  r_messages : JsVal;
}.

Section Component.

(** [WELCOME_MESSAGE] comes from [@/config], and [sendMessage] from the
    chat engine: the transcript right after [sendMessage({ text })]. *)
Variable WELCOME_MESSAGE : string.
Variable sendMessage : string -> JsVal -> JsVal.

(** [const stored = typeof window !== "undefined" ? load() : empty]. *)
Definition read_stored : JS StorageData :=
  undef ← typeof_window_undefined;
  if (undef : bool)
  then mret {| Storage.messages := JArr []; Storage.durations := JObj [] |}
  else loadMessagesFromStorage.

(** The first render: the hooks take their initial values. *)
Definition first_render : JS (Chat * Render) :=
  stored ← read_stored;
  let c :=
    {| isClient := false; durations := JObj []; welcomeShownRef := false;
       initialMessages := Storage.messages stored;
       messages := Storage.messages stored;
       form_message := ""; committed_isClient := false;
       fresh_messages := false; fresh_durations := false |} in
  mret (c, {| r_isClient := false; r_durations := JObj []; r_stored := stored;
              r_initialMessages := Storage.messages stored;
              r_messages := Storage.messages stored |}).

(** [setMessages(transcript)] of [useChat]: the engine takes a copy of
    the transcript, [[...transcript]], as its own. *)
Definition setMessages (transcript : JsVal) (c : Chat) : JS Chat :=
  items ← lift (iterate transcript);
  mret (publish (JArr items) c).

(** A later render: the hooks return what they hold. *)
Definition render (c : Chat) : JS Render :=
  stored ← read_stored;
  mret {| r_isClient := isClient c; r_durations := durations c; r_stored := stored;
          r_initialMessages := initialMessages c; r_messages := messages c |}.

(** Load on mount (dependencies: none). *)
Definition mount_effect (r : Render) (c : Chat) : JS Chat :=
  let c := setIsClient true c in
  let c := setDurations (fun _ => Storage.durations (r_stored r)) c in
  setMessages (Storage.messages (r_stored r)) c.

(** Save to storage on change (dependencies: messages, durations, isClient). *)
Definition save_effect (r : Render) (c : Chat) : JS Chat :=
  if r_isClient r then
    saveMessagesToStorage (r_messages r) (r_durations r);;
    mret c
  else mret c.

Definition welcomeMessage (now : N) : JsVal :=
  JObj [("id", JStr ("welcome-" +:+ string_of_list_ascii (N_chars now)));
        ("role", JStr "assistant");
        ("parts", JArr [JObj [("type", JStr "text"); ("text", JStr WELCOME_MESSAGE)]])].

(** Show welcome message (dependencies: isClient, initialMessages,
    setMessages). *)
Definition welcome_effect (r : Render) (c : Chat) : JS Chat :=
  if r_isClient r then
    len ← lift (get_member (r_initialMessages r) "length");
    if strict_eq_zero len && negb (welcomeShownRef c) then
      now ← Date_now;
      c ← setMessages (JArr [welcomeMessage now]) c;
      saveMessagesToStorage (JArr [welcomeMessage now]) (JObj []);;
      mret (set_welcomeShownRef true c)
    else mret c
  else mret c.

(** Handle timings. *)
Definition handleDurationChange (key : string) (duration : JsVal) (c : Chat) : Chat :=
  setDurations (fun prev => JObj (obj_set key duration (spread prev))) c.

Definition onSubmit (message : string) (c : Chat) : Chat :=
  let c := publish (sendMessage message (messages c)) c in
  set_form_message "" c.

(** [form.handleSubmit(onSubmit)]: [onSubmit] runs when the form is valid. *)
Definition handleSubmit (c : Chat) : Chat :=
  if formSchema (form_message c) then onSubmit (form_message c) c else c.

(** Clear Chat. *)
Definition clearChat (c : Chat) : JS Chat :=
  c ← setMessages (JArr []) c;
  let c := setDurations (fun _ => JObj []) c in
  saveMessagesToStorage (JArr []) (JObj []);;
  toast_success "Chat cleared";;
  mret c.

(** ** React *)

(** The component is not mounted yet, mounted, or torn down by an
    exception thrown while rendering or in an effect. *)
Inductive Machine : Type :=
| NotMounted
| Mounted (c : Chat)
| Crashed (e : JsError).

Definition save_deps_changed (c : Chat) : bool :=
  fresh_messages c || fresh_durations c || xorb (isClient c) (committed_isClient c).

Definition welcome_deps_changed (c : Chat) : bool :=
  xorb (isClient c) (committed_isClient c).

(** One render and the effects it schedules, in the order the component
    declares them.  Effects see the values of their render; what they set
    is seen by the next one. *)
Definition commit (m : Machine) : JS Machine :=
  match m with
  | NotMounted =>
      '(c, r) ← first_render;
      c ← mount_effect r c;
      c ← save_effect r c;
      c ← welcome_effect r c;
      mret (Mounted c)
  | Mounted c =>
      r ← render c;
      let run_save := save_deps_changed c in
      let run_welcome := welcome_deps_changed c in
      let c := commit_deps c in
      c ← (if run_save then save_effect r c else mret c);
      c ← (if run_welcome then welcome_effect r c else mret c);
      mret (Mounted c)
  | Crashed e => mret (Crashed e)
  end.

(** What can happen to the page. *)
Inductive Event : Type :=
| EvRender
| EvType (text : string)
| EvSubmit
| EvEngine (transcript : JsVal)
| EvDuration (key : string) (duration : JsVal)
| EvClearChat
| EvTick (t : N).

Definition World : Type := Machine * Browser.

Definition settle (r : Completion Machine * Browser) : World :=
  match r with
  | (Normal m, b) => (m, b)
  | (Throw e, b) => (Crashed e, b)
  end.

Definition step (w : World) (ev : Event) : World :=
  let (m, b) := w in
  match ev, m with
  | EvRender, _ => settle (commit m b)
  | EvType text, Mounted c => (Mounted (set_form_message text c), b)
  | EvSubmit, Mounted c => (Mounted (handleSubmit c), b)
  | EvEngine transcript, Mounted c => (Mounted (publish transcript c), b)
  | EvDuration key duration, Mounted c => (Mounted (handleDurationChange key duration c), b)
  | EvClearChat, Mounted c =>
      match clearChat c b with
      | (Normal c', b') => (Mounted c', b')
      | (Throw _, b') => (Mounted c, b')
      end
  | EvTick t, _ => (m, set_clock t b)
  | _, _ => w
  end.

Definition run (w : World) (evs : list Event) : World := fold_left step evs w.

(** The welcome flag of a world; nothing is shown before the mount. *)
Definition welcome_shown (w : World) : bool :=
  match fst w with
  | Mounted c => welcomeShownRef c
  | _ => false
  end.

(** The step injects the welcome message: the flag goes up. *)
Definition injects (w : World) (ev : Event) : bool :=
  negb (welcome_shown w) && welcome_shown (step w ev).

Fixpoint injections (w : World) (evs : list Event) : nat :=
  match evs with
  | [] => 0
  | ev :: rest => (if injects w ev then 1 else 0) + injections (step w ev) rest
  end.

End Component.

End Chat.
Import Chat.

(** A double quote, to write JSON texts down. *)
Definition dq : string := String dquote "".

(* ===================================================================== *)
(** * Vocabulary of the proofs *)
(* ===================================================================== *)

(** The first character of a text, tested by [p]; false at the end. *)
Definition head_is (p : ascii -> bool) (s : list ascii) : bool :=
  match s with
  | c :: _ => p c
  | [] => false
  end.

Definition is_delimiter (c : ascii) : bool :=
  Ascii.eqb c "," || Ascii.eqb c "]" || Ascii.eqb c "}".

(** What may follow a value inside a text: the end, or a delimiter. *)
Definition delimited (s : list ascii) : bool :=
  match s with
  | [] => true
  | c :: _ => is_delimiter c
  end.

Fixpoint size (v : JsVal) : nat :=
  match v with
  | JArr l => S (list_sum (map (fun x => S (size x)) l))
  | JObj o => S (list_sum (map (fun p => S (size (snd p))) o))
  | _ => 1
  end.

(** The first character of a printed value starts no white space and
    closes nothing. *)
Definition opens_value (c : ascii) : bool :=
  negb (is_ws c) && negb (Ascii.eqb c "]") && negb (Ascii.eqb c "}").

Definition member_chars (p : string * JsVal) : list ascii :=
  quote_chars (fst p) ++ ":"%char :: stringify_chars (snd p).

(** What the round trip says of one value. *)
Definition reads_back (v : JsVal) : Prop :=
  wf v = true ->
  forall fuel rest, size v <= fuel -> delimited rest = true ->
  parse_value fuel (stringify_chars v ++ rest) = Some (v, rest).

(** Whatever a parser reads with some fuel, it reads with as much fuel
    as it consumes characters. *)
Definition value_fuel (fuel : nat) : Prop :=
  forall s v r, parse_value fuel s = Some (v, r) ->
    length r < length s
    /\ forall fuel', length s - length r <= fuel' -> parse_value fuel' s = Some (v, r).

Definition elements_fuel (fuel : nat) : Prop :=
  forall s vs r, parse_elements fuel s = Some (vs, r) ->
    length r < length s
    /\ forall fuel', length s - length r <= fuel' -> parse_elements fuel' s = Some (vs, r).

Definition members_fuel (fuel : nat) : Prop :=
  forall s es r, parse_members fuel s = Some (es, r) ->
    length r < length s
    /\ forall fuel', length s - length r <= fuel' -> parse_members fuel' s = Some (es, r).

(** ** Storage *)

(** The record both [load] and the component fall back to. *)
Definition empty_record : StorageData :=
  {| Storage.messages := JArr []; Storage.durations := JObj [] |}.

(** The text [save] writes for a record. *)
Definition blob (ms ds : JsVal) : string :=
  JSON_stringify (JObj [("messages", ms); ("durations", ds)]).

(** Storage can be read: there is a window and [localStorage] answers. *)
Definition readable (b : Browser) : bool :=
  has_window b && negb (storage_denied b).

(** [save] would succeed in writing [text]. *)
Definition writable (text : string) (b : Browser) : bool :=
  readable b
  && within_quota (storage_quota b) (<[STORAGE_KEY := text]> (localStorage b)).

(** The slot holds nothing [load] can use. *)
Definition slot_unusable (b : Browser) : bool :=
  negb (has_window b) || storage_denied b
  || match localStorage b !! STORAGE_KEY with
     | None => true
     | Some text => match JSON_parse text with None => true | Some _ => false end
     end.

(** The result of [load] for one field, from what the parsed blob holds
    under the field's name: a truthy value is returned as it is, anything
    else gives the field's empty form. *)
Definition field_of (parsed : JsVal) (name : string) (empty_form : JsVal) : JsVal :=
  match get_member parsed name with
  | Normal (Some x) => if truthy x then x else empty_form
  | _ => empty_form
  end.

(** What [load] returns, as a function of what it reads (see
    [load_returns]). *)
Definition load_outcome (b : Browser) : StorageData :=
  if negb (has_window b) || storage_denied b then empty_record
  else
    match localStorage b !! STORAGE_KEY with
    | None => empty_record
    | Some text =>
        match JSON_parse text with
        | None => empty_record
        | Some parsed =>
            {| Storage.messages := field_of parsed "messages" (JArr []);
               Storage.durations := field_of parsed "durations" (JObj []) |}
        end
    end.

(** C5 as the specification words it: in a parseable blob where one of
    the two fields is missing, the missing field gets its empty form and
    the other field is returned with the value stored for it. *)
Definition missing_field_keeps_other : Prop :=
  forall (b : Browser) (text : string) (parsed other : JsVal),
    readable b = true ->
    localStorage b !! STORAGE_KEY = Some text ->
    JSON_parse text = Some parsed ->
    (get_member parsed "messages" = Normal None ->
     get_member parsed "durations" = Normal (Some other) ->
     fst (loadMessagesFromStorage b)
     = Normal {| Storage.messages := JArr []; Storage.durations := other |})
    /\ (get_member parsed "durations" = Normal None ->
        get_member parsed "messages" = Normal (Some other) ->
        fst (loadMessagesFromStorage b)
        = Normal {| Storage.messages := other; Storage.durations := JObj [] |}).

(** C3 as the specification words it: after [save(R)], [load()] returns
    [R], whatever the browser. *)
Definition save_then_load_everywhere : Prop :=
  forall (b : Browser) (ms : list JsVal) (ds : list (string * JsVal)),
    wf (JArr ms) = true -> wf (JObj ds) = true ->
    fst (loadMessagesFromStorage (snd (saveMessagesToStorage (JArr ms) (JObj ds) b)))
    = Normal {| Storage.messages := JArr ms; Storage.durations := JObj ds |}.

(** C7 as the specification words it: whatever the state and the browser,
    [load] after [clearChat] returns the empty record. *)
Definition reset_then_load_empty : Prop :=
  forall (c : Chat) (b : Browser),
    fst (loadMessagesFromStorage (snd (clearChat c b))) = Normal empty_record.

(** ** The component *)

(** The hooks after the effects of the first commit, [d] being the record
    the first render read. *)
Definition mounted_chat (d : StorageData) : Chat :=
  {| isClient := true; durations := Storage.durations d; welcomeShownRef := false;
     initialMessages := Storage.messages d; messages := Storage.messages d;
     form_message := ""; committed_isClient := false;
     fresh_messages := true; fresh_durations := true |}.

(** [[...v]] does not throw. *)
Definition iterable (v : JsVal) : bool :=
  match iterate v with Normal _ => true | Throw _ => false end.

(** The machine after the first commit, [d] being the record the first
    render read: the mount effect hands the messages of [d] to
    [setMessages], which throws where they cannot be iterated. *)
Definition first_commit (d : StorageData) : Machine :=
  match iterate (Storage.messages d) with
  | Normal items => Mounted (publish (JArr items) (mounted_chat d))
  | Throw e => Crashed e
  end.

(** What a render of a mounted component captures. *)
Definition render_of (c : Chat) (b : Browser) : Render :=
  {| r_isClient := isClient c; r_durations := durations c; r_stored := load_outcome b;
     r_initialMessages := initialMessages c; r_messages := messages c |}.

(** The condition of the welcome effect. *)
Definition welcome_due (r : Render) (c : Chat) : bool :=
  r_isClient r
  && match get_member (r_initialMessages r) "length" with
     | Normal len => strict_eq_zero len
     | Throw _ => false
     end
  && negb (welcomeShownRef c).

(** The browser after the render and the save effect of a commit of [c]. *)
Definition after_save_effect (c : Chat) (b : Browser) : Browser :=
  if save_deps_changed c && isClient c
  then snd (saveMessagesToStorage (messages c) (durations c) (snd (read_stored b)))
  else snd (read_stored b).

(** The commit of [c] runs the welcome effect and its condition holds. *)
Definition welcome_fires (c : Chat) (b : Browser) : bool :=
  welcome_deps_changed c && welcome_due (render_of c b) (commit_deps c).

(** The [initialMessages] of a mounted component are a value whose
    properties can be read. *)
Definition sound (w : World) : Prop :=
  match fst w with
  | NotMounted => True
  | Mounted c => initialMessages c <> JNull
  | Crashed _ => True
  end.

(** The transcript [M] was restored and no welcome was shown: before the
    mount the slot still reads as [M]; after it the component remembers
    [M] as its initial messages. *)
Definition restored (M : JsVal) (w : World) : Prop :=
  match fst w with
  | NotMounted => Storage.messages (load_outcome (snd w)) = M
  | Mounted c => initialMessages c = M /\ welcomeShownRef c = false
  | Crashed _ => False
  end.

(** The browser in which the welcome effect of the second commit runs:
    two renders have read the storage, and the save effect has written the
    record [d] that was restored. *)
Definition browser_before_welcome (d : StorageData) (b0 : Browser) : Browser :=
  snd (saveMessagesToStorage (Storage.messages d) (Storage.durations d)
         (snd (read_stored (snd (read_stored b0))))).

(** The hooks after the welcome effect fired in the second commit. *)
Definition welcomed_chat (WELCOME_MESSAGE : string) (d : StorageData) (b0 : Browser) : Chat :=
  {| isClient := true; durations := Storage.durations d;
     welcomeShownRef := true; initialMessages := Storage.messages d;
     messages := JArr [welcomeMessage WELCOME_MESSAGE (clock b0)];
     form_message := ""; committed_isClient := true;
     fresh_messages := true; fresh_durations := false |}.

(** ** The session as a whole *)

(** [b'] is [b] up to the slot of the page, the clock, the console and
    the toasts: the window, the state of the storage and every other key
    are the same. *)
Definition same_outside_slot (b b' : Browser) : Prop :=
  has_window b' = has_window b
  /\ storage_denied b' = storage_denied b
  /\ storage_quota b' = storage_quota b
  /\ forall k, k <> STORAGE_KEY -> localStorage b' !! k = localStorage b !! k.

(** Storage that answers and has no quota to exceed. *)
Definition healthy (b : Browser) : bool :=
  readable b && match storage_quota b with None => true | Some _ => false end.

(** [initialMessages.length === 0] for the record the first render read. *)
Definition loaded_empty (d : StorageData) : bool :=
  match get_member (Storage.messages d) "length" with
  | Normal len => strict_eq_zero len
  | Throw _ => false
  end.

(** The number of commits among the events. *)
Fixpoint commits (evs : list Event) : nat :=
  match evs with
  | [] => 0
  | EvRender :: rest => S (commits rest)
  | _ :: rest => commits rest
  end.

(** The slot holds the text of what the component holds. *)
Definition slot_holds (c : Chat) (b : Browser) : Prop :=
  localStorage b !! STORAGE_KEY = Some (blob (messages c) (durations c)).

(** Storage is healthy, and the slot holds what the component holds unless
    a save is due at the next commit. *)
Definition in_sync (w : World) : Prop :=
  healthy (snd w) = true
  /\ match fst w with
     | NotMounted => True
     | Mounted c =>
         isClient c = true /\ initialMessages c <> JNull
         /\ (save_deps_changed c = true \/ slot_holds c (snd w))
     | Crashed _ => True
     end.

(** Where the page is in its life, [n] commits after the start in [b0]:
    not mounted, mounted once, mounted with the welcome effect behind it,
    or torn down by the mount effect. *)
Definition stage (b0 : Browser) (n : nat) (w : World) : Prop :=
  match n, fst w with
  | 0, NotMounted => load_outcome (snd w) = load_outcome b0
  | 1, Mounted c =>
      iterable (Storage.messages (load_outcome b0)) = true
      /\ isClient c = true /\ committed_isClient c = false
      /\ welcomeShownRef c = false
      /\ initialMessages c = Storage.messages (load_outcome b0)
  | S (S _), Mounted c =>
      iterable (Storage.messages (load_outcome b0)) = true
      /\ isClient c = true /\ committed_isClient c = true
      /\ welcomeShownRef c = loaded_empty (load_outcome b0)
      /\ initialMessages c = Storage.messages (load_outcome b0)
  | S _, Crashed e =>
      e = TypeError /\ iterable (Storage.messages (load_outcome b0)) = false
  | _, _ => False
  end.


(** ** Sample inputs *)

(** A browser with working storage whose slot holds [text]. *)
Definition browser_holding (text : string) : Browser :=
  {| has_window := true; storage_denied := false; storage_quota := None;
     localStorage := {[ STORAGE_KEY := text ]}; clock := 0;
     console := []; toasts := [] |}.

(** A page rendered where there is no window. *)
Definition browser_without_window : Browser :=
  {| has_window := false; storage_denied := false; storage_quota := None;
     localStorage := ∅; clock := 0; console := []; toasts := [] |}.

(** A browser with working storage and nothing stored. *)
Definition fresh_browser : Browser :=
  {| has_window := true; storage_denied := false; storage_quota := None;
     localStorage := ∅; clock := 1700000000000; console := []; toasts := [] |}.

(** The blob [{"durations":0}]: [messages] is missing and [durations] is
    stored as the number 0. *)
Definition blob_durations_zero : string :=
  "{" +:+ dq +:+ "durations" +:+ dq +:+ ":0}".

(** The blob [{"durations":{"a":10}}]. *)
Definition blob_durations_only : string :=
  "{" +:+ dq +:+ "durations" +:+ dq +:+ ":{" +:+ dq +:+ "a" +:+ dq +:+ ":10}}".

(** The blob [{"messages":[7]}]. *)
Definition blob_messages_only : string :=
  "{" +:+ dq +:+ "messages" +:+ dq +:+ ":[7]}".

(** The blob [{"messages":[1]}]. *)
Definition blob_one_message : string :=
  "{" +:+ dq +:+ "messages" +:+ dq +:+ ":[1]}".

(** A browser whose storage is full: the slot holds [{"messages":[1]}],
    and the quota is the 29 bytes in use. *)
Definition full_browser : Browser :=
  {| has_window := true; storage_denied := false; storage_quota := Some 29;
     localStorage := {[ STORAGE_KEY := blob_one_message ]}; clock := 0;
     console := []; toasts := [] |}.

(** A browser whose storage has room for 50 bytes and holds nothing. *)
Definition tight_browser : Browser :=
  {| has_window := true; storage_denied := false; storage_quota := Some 50;
     localStorage := ∅; clock := 0; console := []; toasts := [] |}.

(** The blob [{"messages":{"length":0}}]: the messages are no array, yet
    their [length] is 0. *)
Definition blob_length_zero : string :=
  "{" +:+ dq +:+ "messages" +:+ dq +:+ ":{" +:+ dq +:+ "length" +:+ dq +:+ ":0}}".

(** A browser whose storage holds a key of somebody else. *)
Definition browser_with_theme : Browser :=
  {| has_window := true; storage_denied := false; storage_quota := None;
     localStorage := {[ "theme" := "dark" ]}; clock := 0; console := []; toasts := [] |}.

(** The blob [{"messages":"hi"}]: the messages are a string. *)
Definition blob_messages_string : string :=
  "{" +:+ dq +:+ "messages" +:+ dq +:+ ":" +:+ dq +:+ "hi" +:+ dq +:+ "}".

(** A transcript of one user message and the time measured for it. *)
Definition sample_messages : list JsVal :=
  [JObj [("id", JStr "m1"); ("role", JStr "user");
         ("parts", JArr [JObj [("type", JStr "text"); ("text", JStr "red sarees")]])]].

Definition sample_durations : list (string * JsVal) := [("m1", JNum 1250 0)].

(** An engine that appends the user's message to the transcript. *)
Definition appending_engine (text : string) (transcript : JsVal) : JsVal :=
  match transcript with
  | JArr l =>
      JArr (l ++ [JObj [("role", JStr "user");
                        ("parts", JArr [JObj [("type", JStr "text"); ("text", JStr text)]])]])
  | _ => transcript
  end.

(** A mount, the welcome, one more render, then a message typed and
    sent. *)
Definition events_until_submit : list Event :=
  [EvRender; EvRender; EvRender; EvType "Show me red sarees"; EvSubmit].

(** The component after the welcome and a reset, with a duration
    recorded. *)
Definition chat_after_reset : Chat :=
  handleDurationChange "m1" (JNum 1250 0)
    (setDurations (fun _ => JObj [])
       (publish (JArr []) (welcomed_chat "Hello" empty_record fresh_browser))).

(** The component after the welcome, with a message typed and sent to
    [appending_engine]. *)
Definition chat_after_submit : Chat :=
  handleSubmit appending_engine
    (set_form_message "Show me red sarees"
       (commit_deps (welcomed_chat "Hello" empty_record fresh_browser))).


(* ===================================================================== *)
(** * JSON: printing and reading back *)
(* ===================================================================== *)

Lemma lex_digits_stop (rest : list ascii) :
  head_is is_digit rest = false -> lex_digits rest = (Nil, rest).
Proof.
  destruct rest as [|c r]; [reflexivity|].
  unfold head_is, is_digit. cbn [lex_digits].
  destruct (digit_of c); [discriminate | reflexivity].
Qed.

Lemma lex_digits_uint_chars (u : uint) (rest : list ascii) :
  head_is is_digit rest = false ->
  lex_digits (uint_chars u ++ rest) = (u, rest).
Proof.
  intros Hrest.
  induction u; [exact (lex_digits_stop rest Hrest) | ..];
    (change (uint_chars (?d u) ++ rest) with (hd "0"%char (uint_chars (d Nil)) :: (uint_chars u ++ rest));
     cbn [lex_digits hd uint_chars]; rewrite IHu; reflexivity).
Qed.

Lemma uint_chars_head (u : uint) :
  u <> Nil -> exists c r, uint_chars u = c :: r /\ is_digit c = true.
Proof.
  destruct u; [congruence | ..]; intros _; eexists _, _; split; reflexivity.
Qed.

Lemma to_uint_norm (n : N) : unorm (N.to_uint n) = N.to_uint n.
Proof.
  rewrite <- (DecimalN.Unsigned.of_to n) at 2.
  symmetry. apply DecimalN.Unsigned.to_of.
Qed.

Lemma to_uint_not_Nil (n : N) : N.to_uint n <> Nil.
Proof.
  rewrite <- to_uint_norm. unfold unorm.
  destruct (nzhead (N.to_uint n)); discriminate.
Qed.

Lemma to_uint_int_part_ok (n : N) : int_part_ok (N.to_uint n) = true.
Proof.
  rewrite <- to_uint_norm. unfold unorm.
  pose proof (nzhead_nonzero (N.to_uint n)) as Hnz.
  destruct (nzhead (N.to_uint n)) as [|u|u|u|u|u|u|u|u|u|u]; try reflexivity.
  exfalso. exact (Hnz u eq_refl).
Qed.

Ltac ascii_cases c := destruct c as [[|] [|] [|] [|] [|] [|] [|] [|]].

Lemma delimiter_class (c : ascii) :
  is_delimiter c = true ->
  is_digit c = false /\ Ascii.eqb c "." = false
  /\ (Ascii.eqb c "e" || Ascii.eqb c "E") = false /\ is_ws c = false.
Proof. ascii_cases c; vm_compute; intros H; try discriminate H; repeat split. Qed.

Lemma delimited_not_digit (rest : list ascii) :
  delimited rest = true -> head_is is_digit rest = false.
Proof.
  destruct rest as [|c r]; [reflexivity|]. cbn. intros H.
  apply delimiter_class in H. tauto.
Qed.

Lemma digit_class (c : ascii) :
  is_digit c = true ->
  Ascii.eqb c "-" = false /\ Ascii.eqb c "+" = false /\ is_ws c = false
  /\ Ascii.eqb c "{" = false /\ Ascii.eqb c "[" = false /\ Ascii.eqb c dquote = false
  /\ Ascii.eqb c "t" = false /\ Ascii.eqb c "f" = false /\ Ascii.eqb c "n" = false
  /\ Ascii.eqb c "]" = false /\ Ascii.eqb c "}" = false.
Proof. ascii_cases c; vm_compute; intros H; try discriminate H; repeat split. Qed.

Lemma N_chars_head (n : N) :
  exists c r, N_chars n = c :: r /\ is_digit c = true.
Proof. apply uint_chars_head, to_uint_not_Nil. Qed.

Lemma lex_digits_N_chars (n : N) (rest : list ascii) :
  head_is is_digit rest = false ->
  lex_digits (N_chars n ++ rest) = (N.to_uint n, rest).
Proof. apply lex_digits_uint_chars. Qed.

Lemma lex_exponent_chars (e : Z) (rest : list ascii) :
  delimited rest = true ->
  lex_exponent ((if (e =? 0)%Z then [] else "e"%char :: Z_chars e) ++ rest)
  = Some (e, rest).
Proof.
  intros Hrest. destruct (Z.eqb_spec e 0) as [->|Hne].
  - destruct rest as [|c r]; [reflexivity|].
    cbn in Hrest. apply delimiter_class in Hrest as (_ & _ & He & _).
    cbn [app lex_exponent]. rewrite He. reflexivity.
  - pose proof (delimited_not_digit rest Hrest) as Hnd.
    pose proof (to_uint_not_Nil (Z.abs_N e)) as Hnil.
    cbn [app lex_exponent]. change (Ascii.eqb "e" "e" || Ascii.eqb "e" "E") with true.
    cbv iota. unfold Z_chars.
    destruct (Z.ltb_spec e 0) as [Hneg|Hpos].
    + cbn [app]. change (Ascii.eqb "-" "-") with true. cbv iota.
      rewrite lex_digits_N_chars by exact Hnd.
      destruct (N.to_uint (Z.abs_N e)) eqn:Hu; [congruence | ..];
        rewrite <- Hu, DecimalN.Unsigned.of_to, N2Z.inj_abs_N;
        f_equal; f_equal; lia.
    + cbn [app].
      destruct (N_chars_head (Z.abs_N e)) as (c & r & Hc & Hdig).
      pose proof (lex_digits_N_chars (Z.abs_N e) rest Hnd) as Hlex.
      rewrite Hc in *. cbn [app] in *.
      apply digit_class in Hdig as (Hm & Hp & _).
      rewrite Hm, Hp, Hlex.
      destruct (N.to_uint (Z.abs_N e)) eqn:Hu; [congruence | ..];
        rewrite <- Hu, DecimalN.Unsigned.of_to, N2Z.inj_abs_N;
        f_equal; f_equal; lia.
Qed.

Lemma lex_fraction_none (s : list ascii) :
  head_is (fun c => Ascii.eqb c ".") s = false -> lex_fraction s = Some (Nil, s).
Proof.
  destruct s as [|c r]; [reflexivity|]. cbn. intros ->. reflexivity.
Qed.

Lemma lex_unsigned_chars (neg : bool) (m e : Z) (rest : list ascii) :
  delimited rest = true ->
  lex_unsigned neg
    (N_chars (Z.abs_N m) ++ (if (e =? 0)%Z then [] else "e"%char :: Z_chars e) ++ rest)
  = Some (JNum (if neg then (- Z.abs m)%Z else Z.abs m) e, rest).
Proof.
  intros Hrest.
  set (tail := (if (e =? 0)%Z then [] else "e"%char :: Z_chars e) ++ rest).
  assert (Htail : head_is is_digit tail = false
                  /\ head_is (fun c => Ascii.eqb c ".") tail = false).
  { subst tail. destruct (e =? 0)%Z.
    - destruct rest as [|c r]; [split; reflexivity|]. cbn in *.
      apply delimiter_class in Hrest. tauto.
    - split; reflexivity. }
  destruct Htail as [Hnd Hnf].
  unfold lex_unsigned. rewrite lex_digits_N_chars by exact Hnd.
  rewrite to_uint_int_part_ok, lex_fraction_none by exact Hnf.
  subst tail. rewrite lex_exponent_chars by exact Hrest.
  cbn [nb_digits Z.of_nat]. rewrite DecimalFacts.app_nil_r.
  rewrite DecimalN.Unsigned.of_to, N2Z.inj_abs_N, Z.sub_0_r. reflexivity.
Qed.

Lemma lex_number_chars (m e : Z) (rest : list ascii) :
  delimited rest = true ->
  lex_number (number_chars m e ++ rest) = Some (JNum m e, rest).
Proof.
  intros Hrest. unfold number_chars. unfold Z_chars at 1. rewrite <- !app_assoc.
  pose proof (lex_unsigned_chars true m e rest Hrest) as Hneg.
  pose proof (lex_unsigned_chars false m e rest Hrest) as Hpos.
  destruct (Z.ltb_spec m 0) as [Hlt|Hge].
  - cbn [app lex_number]. change (Ascii.eqb "-" "-") with true. cbv iota.
    rewrite Hneg. f_equal. f_equal. f_equal. lia.
  - cbn [app].
    destruct (N_chars_head (Z.abs_N m)) as (c & r & Hc & Hdig).
    rewrite Hc in *. cbn [app lex_number] in *.
    apply digit_class in Hdig as (Hm & _). rewrite Hm, Hpos.
    f_equal. f_equal. f_equal. lia.
Qed.

Lemma lex_string_escape_char (c : ascii) (tail : list ascii) :
  lex_string (escape_char c ++ tail) = prepend [c] (lex_string tail).
Proof. ascii_cases c; reflexivity. Qed.

Lemma lex_string_escaped (cs rest : list ascii) :
  lex_string (flat_map escape_char cs ++ dquote :: rest) = Some (cs, rest).
Proof.
  induction cs as [|c cs IH]; [reflexivity|].
  cbn [flat_map]. rewrite <- app_assoc, lex_string_escape_char, IH. reflexivity.
Qed.

Lemma quote_chars_app (s : string) (rest : list ascii) :
  quote_chars s ++ rest
  = dquote :: flat_map escape_char (list_ascii_of_string s) ++ dquote :: rest.
Proof. unfold quote_chars. cbn [app]. rewrite <- app_assoc. reflexivity. Qed.

(** ** Objects in enumeration order are rebuilt as they are *)

Lemma obj_set_fresh (k : string) (v : JsVal) (acc rest : list (string * JsVal)) :
  keys_canonical (map fst (acc ++ (k, v) :: rest)) = true ->
  obj_set k v acc = acc ++ [(k, v)].
Proof.
  intros Hc.
  assert (H : obj_get k acc = None /\ obj_insert k v acc = acc ++ [(k, v)]).
  { induction acc as [|[k0 v0] acc IH]; [split; reflexivity|].
    cbn [app map fst keys_canonical] in Hc.
    apply andb_prop in Hc as [Hall Hc].
    destruct (IH Hc) as [Hget Hins].
    rewrite forallb_forall in Hall.
    assert (Hk : In k (map fst (acc ++ (k, v) :: rest))).
    { rewrite map_app, in_app_iff. right. left. reflexivity. }
    apply Hall, andb_prop in Hk as [Hne Hpre].
    apply negb_true_iff in Hne, Hpre.
    cbn [obj_get obj_insert app]. rewrite String.eqb_sym, Hne, Hpre, Hget, Hins.
    split; reflexivity. }
  destruct H as [Hget Hins]. unfold obj_set, obj_has. rewrite Hget. exact Hins.
Qed.

Lemma fold_obj_set_canonical (o acc : list (string * JsVal)) :
  keys_canonical (map fst (acc ++ o)) = true ->
  fold_left (fun o p => obj_set (fst p) (snd p) o) o acc = acc ++ o.
Proof.
  revert acc. induction o as [|[k v] o IH]; intros acc Hc.
  - cbn. symmetry. apply app_nil_r.
  - cbn [fold_left fst snd]. rewrite (obj_set_fresh k v acc o Hc).
    rewrite IH; rewrite <- app_assoc; [reflexivity | exact Hc].
Qed.

Lemma obj_of_entries_canonical (o : list (string * JsVal)) :
  keys_canonical (map fst o) = true -> obj_of_entries o = o.
Proof. intros Hc. exact (fold_obj_set_canonical o [] Hc). Qed.

(** ** Values *)

Lemma JsVal_nested_ind (P : JsVal -> Prop) :
  P JNull -> (forall b, P (JBool b)) -> (forall m e, P (JNum m e)) ->
  (forall s, P (JStr s)) ->
  (forall l, Forall P l -> P (JArr l)) ->
  (forall o, Forall (fun p => P (snd p)) o -> P (JObj o)) ->
  forall v, P v.
Proof.
  intros Hnull Hbool Hnum Hstr Harr Hobj.
  fix IH 1. intros [ |b|m e|s|l|o].
  - exact Hnull.
  - apply Hbool.
  - apply Hnum.
  - apply Hstr.
  - apply Harr. induction l as [|x l IHl]; constructor; [apply IH | exact IHl].
  - apply Hobj. induction o as [|[k x] o IHo]; constructor; [apply IH | exact IHo].
Qed.

Lemma stringify_chars_head (v : JsVal) :
  exists c r, stringify_chars v = c :: r /\ opens_value c = true.
Proof.
  destruct v as [ |[|]|m e|s|l|o]; try (eexists _, _; split; reflexivity).
  cbn [stringify_chars]. unfold number_chars, Z_chars.
  destruct (m <? 0)%Z; [eexists _, _; split; reflexivity|].
  destruct (N_chars_head (Z.abs_N m)) as (c & r & Hc & Hdig).
  rewrite Hc. eexists _, _. split; [reflexivity|].
  apply digit_class in Hdig. unfold opens_value.
  destruct Hdig as (_ & _ & -> & _ & _ & _ & _ & _ & _ & -> & ->). reflexivity.
Qed.

Lemma opens_value_class (c : ascii) :
  opens_value c = true ->
  is_ws c = false /\ Ascii.eqb c "]" = false /\ Ascii.eqb c "}" = false.
Proof.
  unfold opens_value. intros H.
  apply andb_prop in H as [H H3]. apply andb_prop in H as [H1 H2].
  apply negb_true_iff in H1, H2, H3. tauto.
Qed.

Lemma skip_ws_opens (c : ascii) (r : list ascii) :
  is_ws c = false -> skip_ws (c :: r) = c :: r.
Proof. intros H. cbn [skip_ws]. rewrite H. reflexivity. Qed.

Lemma parse_elements_items (l : list JsVal) :
  Forall reads_back l -> forallb wf l = true -> l <> [] ->
  forall fuel rest,
    list_sum (map (fun x => S (size x)) l) <= fuel ->
    parse_elements fuel (join_comma (map stringify_chars l) ++ "]"%char :: rest)
    = Some (l, rest).
Proof.
  induction l as [|v l IH]; [congruence|].
  intros Hall Hwf _ fuel rest Hfuel.
  inversion Hall as [|? ? Hv Hl]; subst.
  cbn [forallb] in Hwf. apply andb_prop in Hwf as [Hwfv Hwfl].
  cbn [map list_sum fold_right] in Hfuel.
  destruct fuel as [|fuel]; [lia|].
  destruct l as [|v' l].
  - cbn [map list_sum fold_right] in Hfuel.
    cbn [map join_comma parse_elements].
    rewrite (Hv Hwfv fuel ("]"%char :: rest)); [reflexivity | lia | reflexivity].
  - change (join_comma (map stringify_chars (v :: v' :: l)))
      with (stringify_chars v ++ ","%char :: join_comma (map stringify_chars (v' :: l))).
    rewrite <- app_assoc. cbn [app parse_elements].
    rewrite (Hv Hwfv fuel); [ | lia | reflexivity].
    rewrite skip_ws_opens by reflexivity.
    change (Ascii.eqb "," ",") with true. cbv iota.
    rewrite (IH Hl Hwfl); [reflexivity | congruence | unfold list_sum in *; lia].
Qed.

Lemma parse_members_items (o : list (string * JsVal)) :
  Forall (fun p => reads_back (snd p)) o ->
  forallb (fun p => wf (snd p)) o = true -> o <> [] ->
  forall fuel rest,
    list_sum (map (fun p => S (size (snd p))) o) <= fuel ->
    parse_members fuel (join_comma (map member_chars o) ++ "}"%char :: rest)
    = Some (o, rest).
Proof.
  induction o as [|[k v] o IH]; [congruence|].
  intros Hall Hwf _ fuel rest Hfuel.
  inversion Hall as [|? ? Hv Ho]; subst. cbn [snd] in Hv.
  cbn [forallb snd] in Hwf. apply andb_prop in Hwf as [Hwfv Hwfo].
  cbn [map list_sum fold_right snd] in Hfuel.
  destruct fuel as [|fuel]; [lia|].
  destruct o as [|p o].
  - cbn [map list_sum fold_right] in Hfuel.
    cbn [map join_comma]. unfold member_chars at 1. cbn [fst snd].
    rewrite <- app_assoc, quote_chars_app.
    cbn [parse_members]. rewrite skip_ws_opens by reflexivity.
    change (Ascii.eqb dquote dquote) with true. cbv iota.
    rewrite lex_string_escaped. cbn [app].
    rewrite skip_ws_opens by reflexivity.
    change (Ascii.eqb ":" ":") with true. cbv iota.
    rewrite (Hv Hwfv fuel ("}"%char :: rest)); [ | lia | reflexivity].
    rewrite string_of_list_ascii_of_string. reflexivity.
  - change (join_comma (map member_chars ((k, v) :: p :: o)))
      with (member_chars (k, v) ++ ","%char :: join_comma (map member_chars (p :: o))).
    unfold member_chars at 1. cbn [fst snd].
    rewrite <- !app_assoc, quote_chars_app.
    cbn [parse_members]. rewrite skip_ws_opens by reflexivity.
    change (Ascii.eqb dquote dquote) with true. cbv iota.
    rewrite lex_string_escaped. cbn [app].
    rewrite skip_ws_opens by reflexivity.
    change (Ascii.eqb ":" ":") with true. cbv iota.
    rewrite (Hv Hwfv fuel); [ | lia | reflexivity].
    rewrite skip_ws_opens by reflexivity.
    change (Ascii.eqb "," ",") with true. cbv iota.
    rewrite (IH Ho Hwfo); [ | congruence | unfold list_sum in *; lia].
    rewrite string_of_list_ascii_of_string. reflexivity.
Qed.

Lemma join_comma_head {A : Type} (f : A -> list ascii) (l : list A) :
  (forall x, exists c r, f x = c :: r /\ opens_value c = true) -> l <> [] ->
  exists c r, join_comma (map f l) = c :: r /\ opens_value c = true.
Proof.
  intros Hf Hl. destruct l as [|x l]; [congruence|].
  destruct (Hf x) as (c & r & Hx & Hc).
  destruct l as [|y l]; cbn [map join_comma]; rewrite Hx; eexists _, _; split; eauto.
Qed.

Lemma member_chars_head (p : string * JsVal) :
  exists c r, member_chars p = c :: r /\ opens_value c = true.
Proof. eexists _, _. split; reflexivity. Qed.

Theorem parse_value_stringify (v : JsVal) : reads_back v.
Proof.
  induction v as [ |b|m e|s|l IH|o IH] using JsVal_nested_ind;
    intros Hwf fuel rest Hfuel Hrest;
    (destruct fuel as [|fuel]; [cbn in Hfuel; lia|]).
  - reflexivity.
  - destruct b; reflexivity.
  - destruct (stringify_chars_head (JNum m e)) as (c & r & Hc & Hopen).
    pose proof (lex_number_chars m e rest Hrest) as Hlex.
    cbn [stringify_chars] in *. rewrite Hc in *. cbn [app] in *.
    apply opens_value_class in Hopen as (Hws & _).
    cbn [parse_value]. rewrite skip_ws_opens by exact Hws.
    assert (Hd : is_digit c = true \/ c = "-"%char).
    { revert Hc. unfold number_chars, Z_chars.
      destruct (m <? 0)%Z; cbn [app]; [intros [= <- _]; right; reflexivity|].
      destruct (N_chars_head (Z.abs_N m)) as (c' & r' & -> & Hdig).
      cbn [app]. intros [= <- _]. left. exact Hdig. }
    destruct Hd as [Hd | ->].
    + apply digit_class in Hd as (_ & _ & _ & -> & -> & -> & -> & -> & -> & _).
      exact Hlex.
    + exact Hlex.
  - cbn [stringify_chars]. rewrite quote_chars_app.
    cbn [parse_value]. rewrite skip_ws_opens by reflexivity.
    change (Ascii.eqb dquote "{") with false.
    change (Ascii.eqb dquote "[") with false.
    change (Ascii.eqb dquote dquote) with true. cbv iota.
    rewrite lex_string_escaped, string_of_list_ascii_of_string. reflexivity.
  - cbn [wf] in Hwf. cbn [size] in Hfuel.
    cbn [stringify_chars app]. rewrite <- app_assoc. cbn [app].
    cbn [parse_value]. rewrite skip_ws_opens by reflexivity.
    change (Ascii.eqb "[" "{") with false. change (Ascii.eqb "[" "[") with true.
    cbv iota.
    destruct l as [|x l]; [reflexivity|].
    pose proof (parse_elements_items (x :: l) IH Hwf ltac:(congruence) fuel rest
                  ltac:(lia)) as Hitems.
    destruct (join_comma_head stringify_chars (x :: l) stringify_chars_head
                ltac:(congruence)) as (c & r & Hc & Hopen).
    rewrite Hc in *. cbn [app] in *.
    apply opens_value_class in Hopen as (Hws & Hclose & _).
    rewrite skip_ws_opens by exact Hws. rewrite Hclose, Hitems. reflexivity.
  - cbn [wf] in Hwf. apply andb_prop in Hwf as [Hkeys Hwf]. cbn [size] in Hfuel.
    cbn [stringify_chars app]. rewrite <- app_assoc. cbn [app].
    cbn [parse_value]. rewrite skip_ws_opens by reflexivity.
    change (Ascii.eqb "{" "{") with true. cbv iota.
    destruct o as [|p o]; [reflexivity|].
    pose proof (parse_members_items (p :: o) IH Hwf ltac:(congruence) fuel rest
                  ltac:(lia)) as Hitems.
    change (fun p0 : string * JsVal => quote_chars (fst p0) ++ ":"%char :: stringify_chars (snd p0))
      with member_chars.
    destruct (join_comma_head member_chars (p :: o) member_chars_head
                ltac:(congruence)) as (c & r & Hc & Hopen).
    rewrite Hc in *. cbn [app] in *.
    apply opens_value_class in Hopen as (Hws & _ & Hclose).
    rewrite skip_ws_opens by exact Hws. rewrite Hclose, Hitems.
    rewrite obj_of_entries_canonical by exact Hkeys. reflexivity.
Qed.

Lemma join_comma_length {A : Type} (f : A -> list ascii) (g : A -> nat) (l : list A) :
  Forall (fun x => g x <= length (f x)) l ->
  list_sum (map (fun x => S (g x)) l) <= length (join_comma (map f l)) + 1.
Proof.
  induction 1 as [|x l Hx Hl IH]; [cbn; lia|].
  destruct l as [|y l].
  - cbn. lia.
  - change (join_comma (map f (x :: y :: l)))
      with (f x ++ ","%char :: join_comma (map f (y :: l))).
    rewrite length_app. cbn [length].
    change (list_sum (map (fun x => S (g x)) (x :: y :: l)))
      with (S (g x) + list_sum (map (fun x => S (g x)) (y :: l))).
    lia.
Qed.

Lemma size_le_length (v : JsVal) : size v <= length (stringify_chars v).
Proof.
  induction v as [ |b|m e|s|l IH|o IH] using JsVal_nested_ind.
  - cbn. lia.
  - destruct b; cbn; lia.
  - destruct (stringify_chars_head (JNum m e)) as (c & r & -> & _). cbn. lia.
  - cbn. lia.
  - cbn [size stringify_chars length]. rewrite length_app. cbn [length].
    pose proof (join_comma_length stringify_chars size l IH). lia.
  - cbn [size stringify_chars length]. rewrite length_app. cbn [length].
    assert (H : Forall (fun p => size (snd p) <= length (member_chars p)) o).
    { eapply Forall_impl; [exact IH|]. intros [k x] Hx. cbn [snd] in *.
      unfold member_chars. rewrite length_app. cbn [length snd]. lia. }
    pose proof (join_comma_length member_chars (fun p => size (snd p)) o H).
    change (fun p : string * JsVal => quote_chars (fst p) ++ ":"%char :: stringify_chars (snd p))
      with member_chars.
    lia.
Qed.

(** Parsing what [JSON.stringify] printed gives the value back. *)
Theorem JSON_parse_stringify (v : JsVal) :
  wf v = true -> JSON_parse (JSON_stringify v) = Some v.
Proof.
  intros Hwf. unfold JSON_parse, JSON_stringify.
  rewrite list_ascii_of_string_of_list_ascii.
  pose proof (parse_value_stringify v Hwf (length (stringify_chars v)) []
                (size_le_length v) eq_refl) as H.
  rewrite app_nil_r in H. rewrite H. reflexivity.
Qed.

(** Texts and the values they denote. *)
Example JSON_parse_texts :
  JSON_parse " [1, 2.50e3, -0, true, null] "
  = Some (JArr [JNum 1 0; JNum 250 1; JNum 0 0; JBool true; JNull])
  /\ JSON_parse (dq +:+ "aé\n😀" +:+ dq)
     = Some (JStr ("a" +:+ string_of_list_ascii (utf8_encode 233)
                   +:+ String (ascii_of_N 10) ""
                   +:+ string_of_list_ascii (utf8_encode 128512)))
  /\ JSON_parse ("{" +:+ dq +:+ "b" +:+ dq +:+ ":[1], " +:+ dq +:+ "1" +:+ dq +:+ ":{}, "
                 +:+ dq +:+ "b" +:+ dq +:+ ":0}")
     = Some (JObj [("1", JObj []); ("b", JNum 0 0)])
  /\ JSON_parse (dq +:+ "\ud83d\ude00 \u00e9" +:+ dq)
     = Some (JStr (string_of_list_ascii (utf8_encode 128512) +:+ " "
                   +:+ string_of_list_ascii (utf8_encode 233)))
  /\ JSON_parse "not-json" = None
  /\ JSON_parse "" = None
  /\ JSON_parse "[1,]" = None
  /\ JSON_parse "01" = None
  /\ JSON_parse "1." = None
  /\ JSON_parse "true false" = None.
Proof. repeat split; vm_compute; reflexivity. Qed.

Example JSON_stringify_record :
  JSON_stringify (JObj [("messages", JArr [JObj [("id", JStr "m1")]]);
                        ("durations", JObj [("m1", JNum 1250 0)])])
  = "{" +:+ dq +:+ "messages" +:+ dq +:+ ":[{" +:+ dq +:+ "id" +:+ dq +:+ ":" +:+ dq
    +:+ "m1" +:+ dq +:+ "}]," +:+ dq +:+ "durations" +:+ dq +:+ ":{" +:+ dq +:+ "m1"
    +:+ dq +:+ ":1250}}".
Proof. vm_compute. reflexivity. Qed.

(** ** Fuel *)

Lemma skip_ws_length (s : list ascii) : length (skip_ws s) <= length s.
Proof.
  induction s as [|c s IH]; [reflexivity|].
  cbn [skip_ws]. destruct (is_ws c); cbn [length]; lia.
Qed.

Lemma lex_digits_length (s : list ascii) :
  length (snd (lex_digits s)) + nb_digits (fst (lex_digits s)) = length s.
Proof.
  induction s as [|c s IH]; [reflexivity|].
  cbn [lex_digits]. destruct (digit_of c) as [d|] eqn:Hd; [|cbn; lia].
  destruct (lex_digits s) as [u r]. cbn [fst snd length] in *.
  unfold digit_of in Hd.
  destruct (N_of_ascii c) as [|p]; [discriminate|].
  repeat (destruct p as [p|p|]; try discriminate Hd);
    injection Hd as <-; cbn [nb_digits]; lia.
Qed.

Lemma lex_string_length (s cs r : list ascii) :
  lex_string s = Some (cs, r) -> length r < length s.
Proof.
  revert cs r. induction s as [s IH] using (induction_ltof1 _ (@length ascii)).
  unfold ltof in IH. intros cs r H.
  destruct s as [|c s]; [discriminate|]. cbn [lex_string] in H.
  assert (Hpre : forall p t, length t < S (length s) ->
                   prepend p (lex_string t) = Some (cs, r) -> length r < S (length s)).
  { intros p t Ht Hp. unfold prepend in Hp.
    destruct (lex_string t) as [[cs' r']|] eqn:Hl; [|discriminate].
    injection Hp as _ <-. apply IH in Hl; cbn [length]; lia. }
  cbn [length].
  repeat match type of H with
  | Some _ = Some _ => injection H as _ <-; lia
  | None = Some _ => discriminate H
  | prepend _ (lex_string ?t) = Some _ => apply Hpre in H; [exact H | cbn [length]; lia]
  | (if ?b then _ else _) = Some _ => destruct b
  | match ?x with _ => _ end = Some _ => destruct x
  end.
Qed.

Lemma lex_fraction_length (s : list ascii) (f : uint) (r : list ascii) :
  lex_fraction s = Some (f, r) -> length r <= length s.
Proof.
  destruct s as [|c s]; cbn [lex_fraction]; [intros [= _ <-]; reflexivity|].
  destruct (Ascii.eqb c "."); [|intros [= _ <-]; reflexivity].
  pose proof (lex_digits_length s) as Hl.
  destruct (lex_digits s) as [[ | | | | | | | | | | ] r']; cbn [fst snd] in Hl;
    intros H; try discriminate H; injection H as _ <-; cbn [length]; lia.
Qed.

Lemma lex_exponent_length (s : list ascii) (e : Z) (r : list ascii) :
  lex_exponent s = Some (e, r) -> length r <= length s.
Proof.
  destruct s as [|c s]; cbn [lex_exponent]; [intros [= _ <-]; reflexivity|].
  destruct (Ascii.eqb c "e" || Ascii.eqb c "E"); [|intros [= _ <-]; reflexivity].
  assert (Hd : forall neg t, length t <= length s ->
            match lex_digits t with
            | (Nil, _) => None
            | (d, r2) =>
                Some (if neg : bool then (- Z.of_N (N.of_uint d))%Z else Z.of_N (N.of_uint d), r2)
            end = Some (e, r) -> length r <= length (c :: s)).
  { intros neg t Ht. pose proof (lex_digits_length t) as Hl.
    destruct (lex_digits t) as [[ | | | | | | | | | | ] r']; cbn [fst snd] in Hl;
      intros H; try discriminate H; injection H as _ <-; cbn [length]; lia. }
  destruct s as [|sg s']; [apply (Hd false); reflexivity|].
  destruct (Ascii.eqb sg "-"); [apply (Hd true); cbn [length]; lia|].
  destruct (Ascii.eqb sg "+"); apply (Hd false); cbn [length]; lia.
Qed.

Lemma lex_unsigned_length (neg : bool) (s : list ascii) (v : JsVal) (r : list ascii) :
  lex_unsigned neg s = Some (v, r) -> length r < length s.
Proof.
  unfold lex_unsigned. pose proof (lex_digits_length s) as Hl.
  destruct (lex_digits s) as [ip s2]. cbn [fst snd] in Hl.
  destruct (int_part_ok ip) eqn:Hip; [|discriminate].
  assert (0 < nb_digits ip) by (destruct ip; cbn in *; (discriminate || lia)).
  destruct (lex_fraction s2) as [[fp s3]|] eqn:Hf; [|discriminate].
  destruct (lex_exponent s3) as [[ex s4]|] eqn:He; [|discriminate].
  intros [= _ <-].
  apply lex_fraction_length in Hf. apply lex_exponent_length in He. lia.
Qed.

Lemma lex_number_length (s : list ascii) (v : JsVal) (r : list ascii) :
  lex_number s = Some (v, r) -> length r < length s.
Proof.
  destruct s as [|c s]; [discriminate|]. cbn [lex_number].
  destruct (Ascii.eqb c "-"); intros H; apply lex_unsigned_length in H;
    cbn [length] in *; lia.
Qed.

Lemma expect_length (w s r : list ascii) :
  expect w s = Some r -> length r <= length s.
Proof.
  revert s. induction w as [|c w IH]; intros s; cbn [expect].
  - intros [= <-]. reflexivity.
  - destruct s as [|c' s]; [discriminate|].
    destruct (Ascii.eqb c c'); [|discriminate].
    intros H. apply IH in H. cbn [length]. lia.
Qed.

Lemma keyword_length (w : string) (v v' : JsVal) (s r : list ascii) :
  keyword w v s = Some (v', r) -> length r <= length s.
Proof.
  unfold keyword. destruct (expect _ s) as [r'|] eqn:He; [|discriminate].
  intros [= _ <-]. exact (expect_length _ _ _ He).
Qed.

Lemma parse_fuel (fuel : nat) :
  value_fuel fuel /\ elements_fuel fuel /\ members_fuel fuel.
Proof.
  induction fuel as [|fuel (IHv & IHe & IHm)];
    [split; [|split]; intros s x r H; discriminate H|].
  split; [|split].
  - intros s v r H. cbn [parse_value] in H.
    pose proof (skip_ws_length s) as Hs.
    destruct (skip_ws s) as [|c r1] eqn:E1; [discriminate|]. cbn [length] in Hs.
    destruct (Ascii.eqb c "{") eqn:Eobj.
    { pose proof (skip_ws_length r1) as Hs1.
      destruct (skip_ws r1) as [|c' r'] eqn:E2; [discriminate|]. cbn [length] in Hs1.
      destruct (Ascii.eqb c' "}") eqn:Eclose.
      - injection H as <- <-. split; [lia|]. intros [|fuel'] Hf; [lia|].
        cbn [parse_value]. rewrite E1, Eobj, E2, Eclose. reflexivity.
      - destruct (parse_members fuel (c' :: r')) as [[es r'']|] eqn:Em; [|discriminate].
        injection H as <- <-. destruct (IHm _ _ _ Em) as [Hlen Hmono].
        cbn [length] in *. split; [lia|]. intros [|fuel'] Hf; [lia|].
        cbn [parse_value]. rewrite E1, Eobj, E2, Eclose, Hmono by (cbn [length]; lia).
        reflexivity. }
    destruct (Ascii.eqb c "[") eqn:Earr.
    { pose proof (skip_ws_length r1) as Hs1.
      destruct (skip_ws r1) as [|c' r'] eqn:E2; [discriminate|]. cbn [length] in Hs1.
      destruct (Ascii.eqb c' "]") eqn:Eclose.
      - injection H as <- <-. split; [lia|]. intros [|fuel'] Hf; [lia|].
        cbn [parse_value]. rewrite E1, Eobj, Earr, E2, Eclose. reflexivity.
      - destruct (parse_elements fuel (c' :: r')) as [[vs r'']|] eqn:Em; [|discriminate].
        injection H as <- <-. destruct (IHe _ _ _ Em) as [Hlen Hmono].
        cbn [length] in *. split; [lia|]. intros [|fuel'] Hf; [lia|].
        cbn [parse_value].
        rewrite E1, Eobj, Earr, E2, Eclose, Hmono by (cbn [length]; lia).
        reflexivity. }
    assert (Hlt : length r < length (c :: r1)).
    { cbn [length].
      destruct (Ascii.eqb c dquote).
      { destruct (lex_string r1) as [[cs r']|] eqn:El; [|discriminate].
        injection H as _ <-. apply lex_string_length in El. lia. }
      destruct (Ascii.eqb c "t"); [apply keyword_length in H; lia|].
      destruct (Ascii.eqb c "f"); [apply keyword_length in H; lia|].
      destruct (Ascii.eqb c "n"); [apply keyword_length in H; lia|].
      apply lex_number_length in H. exact H. }
    cbn [length] in Hlt. split; [lia|]. intros [|fuel'] Hf; [lia|].
    cbn [parse_value]. rewrite E1, Eobj, Earr. exact H.
  - intros s vs r H. cbn [parse_elements] in H.
    destruct (parse_value fuel s) as [[v r1]|] eqn:Ev; [|discriminate].
    destruct (IHv _ _ _ Ev) as [Hlen Hmono].
    pose proof (skip_ws_length r1) as Hs1.
    destruct (skip_ws r1) as [|c r'] eqn:E1; [discriminate|]. cbn [length] in Hs1.
    destruct (Ascii.eqb c ",") eqn:Ecomma.
    + destruct (parse_elements fuel r') as [[vs' r'']|] eqn:Ee; [|discriminate].
      injection H as <- <-. destruct (IHe _ _ _ Ee) as [Hlen' Hmono'].
      split; [lia|]. intros [|fuel'] Hf; [lia|].
      cbn [parse_elements]. rewrite Hmono, E1, Ecomma, Hmono' by lia. reflexivity.
    + destruct (Ascii.eqb c "]") eqn:Eclose; [|discriminate].
      injection H as <- <-. split; [lia|]. intros [|fuel'] Hf; [lia|].
      cbn [parse_elements]. rewrite Hmono, E1, Ecomma, Eclose by lia. reflexivity.
  - intros s es r H. cbn [parse_members] in H.
    pose proof (skip_ws_length s) as Hs.
    destruct (skip_ws s) as [|q r0] eqn:E0; [discriminate|]. cbn [length] in Hs.
    destruct (Ascii.eqb q dquote) eqn:Eq; [|discriminate].
    destruct (lex_string r0) as [[k r1]|] eqn:Ek; [|discriminate].
    pose proof (lex_string_length _ _ _ Ek) as Hk.
    pose proof (skip_ws_length r1) as Hs1.
    destruct (skip_ws r1) as [|c1 r2] eqn:E1; [discriminate|]. cbn [length] in Hs1.
    destruct (Ascii.eqb c1 ":") eqn:Ecolon; [|discriminate].
    destruct (parse_value fuel r2) as [[v r3]|] eqn:Ev; [|discriminate].
    destruct (IHv _ _ _ Ev) as [Hlen Hmono].
    pose proof (skip_ws_length r3) as Hs3.
    destruct (skip_ws r3) as [|c3 r4] eqn:E3; [discriminate|]. cbn [length] in Hs3.
    destruct (Ascii.eqb c3 ",") eqn:Ecomma.
    + destruct (parse_members fuel r4) as [[es' r5]|] eqn:Em; [|discriminate].
      injection H as <- <-. destruct (IHm _ _ _ Em) as [Hlen' Hmono'].
      split; [lia|]. intros [|fuel'] Hf; [lia|].
      cbn [parse_members].
      rewrite E0, Eq, Ek, E1, Ecolon, Hmono, E3, Ecomma, Hmono' by lia. reflexivity.
    + destruct (Ascii.eqb c3 "}") eqn:Eclose; [|discriminate].
      injection H as <- <-. split; [lia|]. intros [|fuel'] Hf; [lia|].
      cbn [parse_members].
      rewrite E0, Eq, Ek, E1, Ecolon, Hmono, E3, Ecomma, Eclose by lia. reflexivity.
Qed.

(** The fuel [JSON_parse] gives is enough for every text. *)
Theorem parse_value_fuel (fuel : nat) (s : list ascii) (v : JsVal) (r : list ascii) :
  parse_value fuel s = Some (v, r) -> parse_value (length s) s = Some (v, r).
Proof.
  intros H. destruct (parse_fuel fuel) as (Hv & _).
  destruct (Hv s v r H) as [_ Hmono]. apply Hmono. lia.
Qed.

(* ===================================================================== *)
(** * The storage adapter *)
(* ===================================================================== *)

Ltac js_unfold :=
  unfold read_stored in *;
  unfold loadMessagesFromStorage, saveMessagesToStorage,
    typeof_window_undefined, localStorage_getItem, localStorage_setItem,
    console_error, toast_success, Date_now, JSON_parse_js, try_catch, lift,
    mbind, JS_bind, mret, JS_ret in *;
  cbv beta in *.

Lemma save_writes (ms ds : JsVal) (b : Browser) :
  writable (blob ms ds) b = true ->
  saveMessagesToStorage ms ds b
  = (Normal tt, set_localStorage (<[STORAGE_KEY := blob ms ds]> (localStorage b)) b).
Proof.
  unfold writable, readable. intros H.
  apply andb_prop in H as [H Hq]. apply andb_prop in H as [Hw Hd].
  apply negb_true_iff in Hd. js_unfold. unfold blob in Hq.
  rewrite Hw. cbn [negb]. cbv beta iota. rewrite Hd, Hq. reflexivity.
Qed.

(** [save] leaves the browser as it is, or with the record written, or
    with one more line on the console. *)
Lemma save_shape (ms ds : JsVal) (b : Browser) :
  saveMessagesToStorage ms ds b = (Normal tt, b)
  \/ saveMessagesToStorage ms ds b
     = (Normal tt, set_localStorage (<[STORAGE_KEY := blob ms ds]> (localStorage b)) b)
  \/ exists e, saveMessagesToStorage ms ds b
               = (Normal tt, log_console ("Failed to save messages:", e) b).
Proof.
  js_unfold. destruct (has_window b); cbn [negb]; cbv beta iota; [|left; reflexivity].
  destruct (storage_denied b); [right; right; eexists; reflexivity|].
  destruct (within_quota _ _); [right; left; reflexivity|].
  right; right; eexists; reflexivity.
Qed.

Lemma save_total (ms ds : JsVal) (b : Browser) :
  fst (saveMessagesToStorage ms ds b) = Normal tt.
Proof. destruct (save_shape ms ds b) as [-> | [-> | [e ->]]]; reflexivity. Qed.

(** [save] touches the storage area and the console only. *)
Lemma save_frame (ms ds : JsVal) (b : Browser) :
  clock (snd (saveMessagesToStorage ms ds b)) = clock b
  /\ toasts (snd (saveMessagesToStorage ms ds b)) = toasts b
  /\ has_window (snd (saveMessagesToStorage ms ds b)) = has_window b
  /\ storage_denied (snd (saveMessagesToStorage ms ds b)) = storage_denied b.
Proof.
  destruct (save_shape ms ds b) as [-> | [-> | [e ->]]]; repeat split.
Qed.

Lemma blob_parses (ms ds : JsVal) :
  wf ms = true -> wf ds = true ->
  JSON_parse (blob ms ds) = Some (JObj [("messages", ms); ("durations", ds)]).
Proof.
  intros Hm Hd. apply JSON_parse_stringify.
  cbn [wf map fst snd forallb]. rewrite Hm, Hd. reflexivity.
Qed.

Lemma get_member_total (v : JsVal) (name : string) :
  v <> JNull -> exists x, get_member v name = Normal x.
Proof.
  intros Hv. destruct v; cbn [get_member]; try (eexists; reflexivity).
  - congruence.
  - destruct (String.eqb name "length"); eexists; reflexivity.
  - destruct (String.eqb name "length"); [eexists; reflexivity|].
    destruct (array_index name); eexists; reflexivity.
Qed.

Lemma JsVal_null_or_not (v : JsVal) : v = JNull \/ v <> JNull.
Proof. destruct v; (left; reflexivity) || (right; discriminate). Qed.

Lemma parsed_text_not_empty (text : string) (parsed : JsVal) :
  JSON_parse text = Some parsed -> String.eqb text "" = false.
Proof. destruct text; [discriminate | reflexivity]. Qed.

(** [load] on a slot that parses to [null]: reading [parsed.messages]
    throws, and the handler returns the empty record. *)
Lemma load_null (b : Browser) (text : string) :
  readable b = true ->
  localStorage b !! STORAGE_KEY = Some text ->
  JSON_parse text = Some JNull ->
  loadMessagesFromStorage b
  = (Normal empty_record, log_console ("Failed to load messages:", TypeError) b).
Proof.
  unfold readable. intros H Hslot Hparse.
  apply andb_prop in H as [Hw Hd]. apply negb_true_iff in Hd.
  pose proof (parsed_text_not_empty text JNull Hparse) as Htext.
  js_unfold. rewrite Hw. cbn [negb]. cbv beta iota. rewrite Hd, Hslot.
  cbn [Storage.not_stored]. rewrite Htext, Hparse. reflexivity.
Qed.

(** [load] on a slot that parses to anything else: both fields are read
    and defaulted, and the browser is left as it is. *)
Lemma load_parsed (b : Browser) (text : string) (parsed : JsVal) :
  readable b = true ->
  localStorage b !! STORAGE_KEY = Some text ->
  JSON_parse text = Some parsed ->
  parsed <> JNull ->
  exists ms ds,
    get_member parsed "messages" = Normal ms
    /\ get_member parsed "durations" = Normal ds
    /\ loadMessagesFromStorage b
       = (Normal {| Storage.messages := js_or ms (JArr []);
                    Storage.durations := js_or ds (JObj []) |}, b).
Proof.
  unfold readable. intros H Hslot Hparse Hnull.
  apply andb_prop in H as [Hw Hd]. apply negb_true_iff in Hd.
  pose proof (parsed_text_not_empty text parsed Hparse) as Htext.
  destruct (get_member_total parsed "messages" Hnull) as [ms Hms].
  destruct (get_member_total parsed "durations" Hnull) as [ds Hds].
  exists ms, ds. split; [exact Hms|]. split; [exact Hds|].
  js_unfold. rewrite Hw. cbn [negb]. cbv beta iota. rewrite Hd, Hslot.
  cbn [Storage.not_stored]. rewrite Htext, Hparse. cbv beta iota.
  rewrite Hms, Hds. reflexivity.
Qed.

Lemma load_unusable (b : Browser) :
  slot_unusable b = true ->
  exists b', loadMessagesFromStorage b = (Normal empty_record, b')
             /\ localStorage b' = localStorage b.
Proof.
  unfold slot_unusable. intros H. js_unfold.
  destruct (has_window b); [|eexists; split; reflexivity]. cbn [negb].
  cbv beta iota.
  destruct (storage_denied b); [eexists; split; reflexivity|].
  cbn [orb] in H.
  destruct (localStorage b !! STORAGE_KEY) as [text|]; [|eexists; split; reflexivity].
  cbn [Storage.not_stored].
  destruct (String.eqb text ""); [eexists; split; reflexivity|].
  destruct (JSON_parse text); [discriminate H|]. eexists; split; reflexivity.
Qed.

(** The result of [load], whatever the browser. *)
Lemma load_returns (b : Browser) :
  fst (loadMessagesFromStorage b) = Normal (load_outcome b).
Proof.
  unfold load_outcome.
  destruct (slot_unusable b) eqn:Hu.
  - destruct (load_unusable b Hu) as (b' & -> & _). cbn [fst]. f_equal.
    unfold slot_unusable in Hu.
    destruct (negb (has_window b) || storage_denied b); [reflexivity|].
    cbn [orb] in Hu.
    destruct (localStorage b !! STORAGE_KEY) as [text|]; [|reflexivity].
    destruct (JSON_parse text); [discriminate Hu | reflexivity].
  - unfold slot_unusable in Hu. apply orb_false_elim in Hu as [Hu Hslot].
    rewrite Hu.
    apply orb_false_elim in Hu as [Hw Hd]. apply negb_false_iff in Hw.
    assert (Hr : readable b = true) by (unfold readable; rewrite Hw, Hd; reflexivity).
    destruct (localStorage b !! STORAGE_KEY) as [text|] eqn:Hs; [|discriminate].
    destruct (JSON_parse text) as [parsed|] eqn:Hp; [|discriminate].
    destruct (JsVal_null_or_not parsed) as [->|Hnn].
    + rewrite (load_null b text Hr Hs Hp). reflexivity.
    + destruct (load_parsed b text parsed Hr Hs Hp Hnn) as (ms & ds & Hms & Hds & ->).
      unfold field_of. rewrite Hms, Hds. cbn [fst]. unfold js_or.
      destruct ms, ds; reflexivity.
Qed.

(** [load] leaves the browser as it is, or with one more line on the
    console and the empty record as its result. *)
Lemma load_shape (b : Browser) :
  (exists d, loadMessagesFromStorage b = (Normal d, b))
  \/ exists e, loadMessagesFromStorage b
               = (Normal empty_record, log_console ("Failed to load messages:", e) b).
Proof.
  js_unfold. destruct (has_window b); cbn [negb]; cbv beta iota;
    [|left; eexists; reflexivity].
  destruct (storage_denied b); [right; eexists; reflexivity|].
  destruct (localStorage b !! STORAGE_KEY) as [text|]; [|left; eexists; reflexivity].
  cbn [Storage.not_stored]. destruct (String.eqb text ""); [left; eexists; reflexivity|].
  destruct (JSON_parse text) as [parsed|]; [|right; eexists; reflexivity].
  cbv beta iota.
  destruct (get_member parsed "messages"); [|right; eexists; reflexivity].
  destruct (get_member parsed "durations"); [left|right]; eexists; reflexivity.
Qed.

(** What [load] returns depends on the window, on whether storage
    answers, and on the slot; on nothing else. *)
Lemma load_outcome_ext (b1 b2 : Browser) :
  has_window b1 = has_window b2 ->
  storage_denied b1 = storage_denied b2 ->
  localStorage b1 !! STORAGE_KEY = localStorage b2 !! STORAGE_KEY ->
  load_outcome b1 = load_outcome b2.
Proof. intros Hw Hd Hs. unfold load_outcome. rewrite Hw, Hd, Hs. reflexivity. Qed.

Lemma field_of_not_null (parsed : JsVal) (name : string) (d : JsVal) :
  d <> JNull -> field_of parsed name d <> JNull.
Proof.
  intros Hd. unfold field_of. destruct (get_member parsed name) as [[x|]|]; try exact Hd.
  destruct (truthy x) eqn:Ht; [|exact Hd]. intros ->. discriminate Ht.
Qed.

(** The messages [load] returns are never [null]. *)
Lemma load_outcome_messages (b : Browser) : Storage.messages (load_outcome b) <> JNull.
Proof.
  unfold load_outcome.
  destruct (negb (has_window b) || storage_denied b); [discriminate|].
  destruct (localStorage b !! STORAGE_KEY) as [text|]; [|discriminate].
  destruct (JSON_parse text); [|discriminate].
  apply field_of_not_null. discriminate.
Qed.

(** After a write that succeeds, the slot holds the text of the record
    and [load] returns the record. *)
Lemma load_after_write (ms ds : JsVal) (b : Browser) :
  wf ms = true -> wf ds = true -> truthy ms = true -> truthy ds = true ->
  writable (blob ms ds) b = true ->
  localStorage (snd (saveMessagesToStorage ms ds b)) !! STORAGE_KEY = Some (blob ms ds)
  /\ load_outcome (snd (saveMessagesToStorage ms ds b))
     = {| Storage.messages := ms; Storage.durations := ds |}.
Proof.
  intros Hms Hds Htm Htd Hw. rewrite save_writes by exact Hw. cbn [snd].
  unfold writable, readable in Hw. apply andb_prop in Hw as [Hr _].
  apply andb_prop in Hr as [Hwin Hden]. apply negb_true_iff in Hden.
  assert (Hslot : localStorage (set_localStorage (<[STORAGE_KEY := blob ms ds]> (localStorage b)) b)
                  !! STORAGE_KEY = Some (blob ms ds))
    by (cbn [localStorage set_localStorage]; apply lookup_insert_eq).
  split; [exact Hslot|].
  unfold load_outcome. rewrite Hslot.
  cbn [has_window storage_denied set_localStorage]. rewrite Hwin, Hden. cbn [negb orb].
  rewrite (blob_parses ms ds Hms Hds). unfold field_of. cbn [get_member obj_get].
  change (String.eqb "messages" "messages") with true.
  change (String.eqb "messages" "durations") with false.
  change (String.eqb "durations" "durations") with true.
  cbv iota. rewrite Htm, Htd. reflexivity.
Qed.

(** ** Fail-soft load *)

(** C4.  [loadMessagesFromStorage] is total and fail-soft.  Whatever the
    browser, it completes normally, with some record, and leaves the
    storage as it was: it never throws.  And where there is no window,
    where reading [localStorage] throws, where the key is absent, where the
    stored text is not JSON, and where it is JSON for something that is no
    object ([null], whose [messages] cannot be read, included), the record
    is the empty record [{messages: [], durations: {}}]. *)
Theorem load_fail_soft (b : Browser) :
  (exists d b', loadMessagesFromStorage b = (Normal d, b')
                /\ localStorage b' = localStorage b)
  /\ (has_window b = false
      \/ storage_denied b = true
      \/ localStorage b !! STORAGE_KEY = None
      \/ (exists text, localStorage b !! STORAGE_KEY = Some text
                       /\ (JSON_parse text = None
                           \/ exists parsed, JSON_parse text = Some parsed
                                             /\ forall o, parsed <> JObj o)) ->
      exists b', loadMessagesFromStorage b = (Normal empty_record, b')
                 /\ localStorage b' = localStorage b).
Proof.
  split.
  - destruct (load_shape b) as [[d ->] | [e ->]]; eexists _, _; split; reflexivity.
  - intros H.
    assert (Hunusable : slot_unusable b = true ->
              exists b', loadMessagesFromStorage b = (Normal empty_record, b')
                         /\ localStorage b' = localStorage b) by apply load_unusable.
    destruct H as [Hw | [Hd | [Hk | (text & Hk & [Hp | (parsed & Hp & Hno)])]]].
    + apply Hunusable. unfold slot_unusable. rewrite Hw. reflexivity.
    + apply Hunusable. unfold slot_unusable. rewrite Hd.
      apply orb_true_iff. left. apply orb_true_r.
    + apply Hunusable. unfold slot_unusable. rewrite Hk. apply orb_true_r.
    + apply Hunusable. unfold slot_unusable. rewrite Hk, Hp. apply orb_true_r.
    + pose proof (load_returns b) as Hret.
      assert (Hout : load_outcome b = empty_record).
      { unfold load_outcome. destruct (negb (has_window b) || storage_denied b);
          [reflexivity|].
        rewrite Hk, Hp. unfold field_of.
        destruct parsed as [ |x|m e|t|l|o]; try reflexivity.
        exfalso. exact (Hno o eq_refl). }
      rewrite Hout in Hret.
      destruct (load_shape b) as [[d Hd] | [e He]].
      * rewrite Hd in Hret. injection Hret as ->. exists b. split; [exact Hd | reflexivity].
      * eexists. split; [exact He | reflexivity].
Qed.

(** The slot holds the text not-json, which is no JSON value; and the
    slot holds the text null, whose [messages] cannot be read. *)
Lemma load_fail_soft_witness :
  JSON_parse "not-json" = None
  /\ (exists b', loadMessagesFromStorage (browser_holding "not-json")
                 = (Normal empty_record, b')
                 /\ localStorage b' = localStorage (browser_holding "not-json"))
  /\ JSON_parse "null" = Some JNull
  /\ (exists b', loadMessagesFromStorage (browser_holding "null")
                 = (Normal empty_record, b')
                 /\ localStorage b' = localStorage (browser_holding "null")).
Proof.
  split; [vm_compute; reflexivity|]. split; [|split; [vm_compute; reflexivity|]].
  - apply (load_fail_soft (browser_holding "not-json")).
    right. right. right. exists "not-json". split; [|left]; vm_compute; reflexivity.
  - apply (load_fail_soft (browser_holding "null")).
    right. right. right. exists "null". split; [vm_compute; reflexivity|].
    right. exists JNull. split; [vm_compute; reflexivity | discriminate].
Defined.

(** The same text between double quotes is a JSON string; it has neither
    field, and [load] returns the empty record all the same. *)
Example load_quoted_not_json :
  JSON_parse (dq +:+ "not-json" +:+ dq) = Some (JStr "not-json")
  /\ loadMessagesFromStorage (browser_holding (dq +:+ "not-json" +:+ dq))
     = (Normal empty_record, browser_holding (dq +:+ "not-json" +:+ dq)).
Proof. split; vm_compute; reflexivity. Qed.

(** ** Defaults of the two fields *)

(** C5, counterexample.  For the blob [{"durations":0}] the field
    [messages] is missing and the stored value of [durations] is 0;
    [load] returns the empty map in its place, not the stored value. *)
Lemma missing_field_keeps_other_fails :
  JSON_parse blob_durations_zero = Some (JObj [("durations", JNum 0 0)])
  /\ fst (loadMessagesFromStorage (browser_holding blob_durations_zero))
     = Normal {| Storage.messages := JArr []; Storage.durations := JObj [] |}
  /\ ~ missing_field_keeps_other.
Proof.
  split; [vm_compute; reflexivity|]. split; [vm_compute; reflexivity|].
  intros H.
  destruct (H (browser_holding blob_durations_zero) blob_durations_zero
              (JObj [("durations", JNum 0 0)]) (JNum 0 0)) as [Hm _];
    try (vm_compute; reflexivity).
  specialize (Hm eq_refl eq_refl). vm_compute in Hm. discriminate Hm.
Qed.

(** C5, amended.  For every parseable stored blob, [load] fills the two
    fields independently of each other: a field whose stored value is
    truthy (every array and every object is) is returned unchanged, and a
    field that is missing, or stored as [null], [false], [0] or the empty
    string, gets its empty form, [[]] for [messages] and [{}] for
    [durations].  The record is never discarded because of the other
    field. *)
Theorem load_defaults_each_field (b : Browser) (text : string) (parsed : JsVal) :
  readable b = true ->
  localStorage b !! STORAGE_KEY = Some text ->
  JSON_parse text = Some parsed ->
  fst (loadMessagesFromStorage b)
  = Normal {| Storage.messages := field_of parsed "messages" (JArr []);
              Storage.durations := field_of parsed "durations" (JObj []) |}.
Proof.
  intros Hr Hslot Hparse. rewrite load_returns. unfold load_outcome.
  unfold readable in Hr. apply andb_prop in Hr as [Hw Hd].
  apply negb_true_iff in Hd. rewrite Hw, Hd, Hslot, Hparse. reflexivity.
Qed.

(** Three blobs: [durations] missing next to a stored transcript,
    [messages] missing next to stored durations, and a falsy field. *)
Lemma load_defaults_each_field_witness :
  fst (loadMessagesFromStorage (browser_holding blob_messages_only))
  = Normal {| Storage.messages := JArr [JNum 7 0]; Storage.durations := JObj [] |}
  /\ fst (loadMessagesFromStorage (browser_holding blob_durations_only))
     = Normal {| Storage.messages := JArr [];
                 Storage.durations := JObj [("a", JNum 10 0)] |}
  /\ fst (loadMessagesFromStorage (browser_holding blob_durations_zero))
     = Normal {| Storage.messages := JArr []; Storage.durations := JObj [] |}.
Proof.
  split; [|split].
  - apply (load_defaults_each_field (browser_holding blob_messages_only)
             blob_messages_only (JObj [("messages", JArr [JNum 7 0])]));
      vm_compute; reflexivity.
  - apply (load_defaults_each_field (browser_holding blob_durations_only)
             blob_durations_only (JObj [("durations", JObj [("a", JNum 10 0)])]));
      vm_compute; reflexivity.
  - apply (load_defaults_each_field (browser_holding blob_durations_zero)
             blob_durations_zero (JObj [("durations", JNum 0 0)]));
      vm_compute; reflexivity.
Defined.

(** ** Round trip *)

(** A save that cannot be written leaves the storage as it was, and
    [load] returns afterwards what it returned before. *)
Lemma save_refused (ms ds : JsVal) (b : Browser) :
  writable (blob ms ds) b = false ->
  localStorage (snd (saveMessagesToStorage ms ds b)) = localStorage b
  /\ load_outcome (snd (saveMessagesToStorage ms ds b)) = load_outcome b.
Proof.
  intros Hw.
  assert (Hls : localStorage (snd (saveMessagesToStorage ms ds b)) = localStorage b).
  { unfold writable, readable, blob in Hw. js_unfold.
    destruct (has_window b); cbn [negb]; cbv beta iota; [|reflexivity].
    destruct (storage_denied b); [reflexivity|]. cbn [negb andb] in Hw.
    rewrite Hw. reflexivity. }
  split; [exact Hls|].
  destruct (save_frame ms ds b) as (_ & _ & Hwin & Hden).
  apply load_outcome_ext; [exact Hwin | exact Hden | rewrite Hls; reflexivity].
Qed.

(** C3, counterexample.  Where there is no window, [save] returns at its
    guard and [load] returns the empty record: a record with one message
    does not come back. *)
Lemma save_then_load_everywhere_fails :
  fst (loadMessagesFromStorage
         (snd (saveMessagesToStorage (JArr [JStr "hello"]) (JObj [])
                 browser_without_window)))
  = Normal empty_record
  /\ ~ save_then_load_everywhere.
Proof.
  split; [reflexivity|]. intros H.
  specialize (H browser_without_window [JStr "hello"] [] eq_refl eq_refl).
  vm_compute in H. discriminate H.
Qed.

(** The same happens where the write exceeds the quota: [save] swallows
    the exception and the slot keeps what it held. *)
Example save_over_quota :
  loadMessagesFromStorage
    (snd (saveMessagesToStorage (JArr sample_messages) (JObj sample_durations) full_browser))
  = (Normal {| Storage.messages := JArr [JNum 1 0]; Storage.durations := JObj [] |},
     log_console ("Failed to save messages:", QuotaExceededError) full_browser).
Proof. vm_compute. reflexivity. Qed.

(** C3, amended.  Where storage is available (there is a window and
    [localStorage] answers) and the text of the record fits the quota,
    [save(R)] followed by [load()] returns [R]: the same messages in the
    same order and the same duration entries, and [load] leaves the browser
    as [save] left it.  Where storage is not available or the write is
    refused, [save] leaves the storage as it was, and [load] returns what
    it returned before the save. *)
Theorem save_then_load (b : Browser) (ms : list JsVal) (ds : list (string * JsVal)) :
  wf (JArr ms) = true -> wf (JObj ds) = true ->
  (writable (blob (JArr ms) (JObj ds)) b = true ->
   loadMessagesFromStorage (snd (saveMessagesToStorage (JArr ms) (JObj ds) b))
   = (Normal {| Storage.messages := JArr ms; Storage.durations := JObj ds |},
      snd (saveMessagesToStorage (JArr ms) (JObj ds) b)))
  /\ (writable (blob (JArr ms) (JObj ds)) b = false ->
      localStorage (snd (saveMessagesToStorage (JArr ms) (JObj ds) b)) = localStorage b
      /\ fst (loadMessagesFromStorage (snd (saveMessagesToStorage (JArr ms) (JObj ds) b)))
         = fst (loadMessagesFromStorage b)).
Proof.
  intros Hms Hds. split; [|intros Hw; rewrite !load_returns;
    destruct (save_refused (JArr ms) (JObj ds) b Hw) as [Hls Hout];
    split; [exact Hls | rewrite Hout; reflexivity]].
  intros Hw.
  destruct (load_after_write (JArr ms) (JObj ds) b Hms Hds eq_refl eq_refl Hw)
    as [Hslot _].
  assert (Hr : readable (snd (saveMessagesToStorage (JArr ms) (JObj ds) b)) = true).
  { unfold readable.
    destruct (save_frame (JArr ms) (JObj ds) b) as (_ & _ & -> & ->).
    unfold writable in Hw. apply andb_prop in Hw as [Hr _]. exact Hr. }
  destruct (load_parsed _ _ _ Hr Hslot (blob_parses _ _ Hms Hds))
    as (xm & xd & Hxm & Hxd & ->); [discriminate|].
  cbn [get_member obj_get] in Hxm, Hxd.
  change (String.eqb "messages" "messages") with true in Hxm.
  change (String.eqb "messages" "durations") with false in Hxd.
  change (String.eqb "durations" "durations") with true in Hxd.
  cbv iota in Hxm, Hxd.
  injection Hxm as <-. injection Hxd as <-. reflexivity.
Qed.

(** A record written over a slot that held no JSON comes back; a record
    that does not fit a full storage leaves the slot, and what [load]
    returns, as they were. *)
Lemma save_then_load_witness :
  loadMessagesFromStorage
    (snd (saveMessagesToStorage (JArr sample_messages) (JObj sample_durations)
            (browser_holding "not-json")))
  = (Normal {| Storage.messages := JArr sample_messages;
               Storage.durations := JObj sample_durations |},
     snd (saveMessagesToStorage (JArr sample_messages) (JObj sample_durations)
            (browser_holding "not-json")))
  /\ writable (blob (JArr sample_messages) (JObj sample_durations)) full_browser = false
  /\ localStorage
       (snd (saveMessagesToStorage (JArr sample_messages) (JObj sample_durations)
               full_browser))
     = localStorage full_browser
  /\ fst (loadMessagesFromStorage
            (snd (saveMessagesToStorage (JArr sample_messages) (JObj sample_durations)
                    full_browser)))
     = fst (loadMessagesFromStorage full_browser).
Proof.
  split; [|split; [vm_compute; reflexivity|]].
  - apply (save_then_load (browser_holding "not-json") sample_messages sample_durations);
      vm_compute; reflexivity.
  - apply (save_then_load full_browser sample_messages sample_durations);
      vm_compute; reflexivity.
Defined.

(* ===================================================================== *)
(** * The session controller *)
(* ===================================================================== *)

(** ** Renders *)

Lemma read_stored_returns (b : Browser) :
  fst (read_stored b) = Normal (load_outcome b).
Proof.
  unfold read_stored, typeof_window_undefined, mbind, JS_bind, mret, JS_ret.
  destruct (has_window b) eqn:Hw; cbn [negb]; cbv beta iota.
  - apply load_returns.
  - unfold load_outcome. rewrite Hw. reflexivity.
Qed.

Lemma read_stored_total (b : Browser) :
  read_stored b = (Normal (load_outcome b), snd (read_stored b)).
Proof.
  pose proof (read_stored_returns b) as Hr.
  destruct (read_stored b) as [r b']. cbn [fst snd] in *. rewrite Hr. reflexivity.
Qed.

Lemma read_stored_shape (b : Browser) :
  (exists d, read_stored b = (Normal d, b))
  \/ exists e, read_stored b
               = (Normal empty_record, log_console ("Failed to load messages:", e) b).
Proof.
  unfold read_stored, typeof_window_undefined, mbind, JS_bind, mret, JS_ret.
  destruct (has_window b); cbn [negb]; cbv beta iota; [apply load_shape|].
  left. eexists. reflexivity.
Qed.

(** A render reads; it touches the console only. *)
Lemma read_stored_frame (b : Browser) :
  clock (snd (read_stored b)) = clock b
  /\ toasts (snd (read_stored b)) = toasts b
  /\ has_window (snd (read_stored b)) = has_window b
  /\ storage_denied (snd (read_stored b)) = storage_denied b
  /\ storage_quota (snd (read_stored b)) = storage_quota b
  /\ localStorage (snd (read_stored b)) = localStorage b.
Proof.
  destruct (read_stored_shape b) as [[d ->] | [e ->]]; repeat split.
Qed.

(** [setMessages] copies an array and a string, and throws on anything
    else. *)
Lemma setMessages_result (transcript : JsVal) (c : Chat) (b : Browser) :
  setMessages transcript c b
  = match iterate transcript with
    | Normal items => (Normal (publish (JArr items) c), b)
    | Throw e => (Throw e, b)
    end.
Proof.
  unfold setMessages, mbind, JS_bind, lift, mret, JS_ret.
  destruct (iterate transcript); reflexivity.
Qed.

Lemma setMessages_array (items : list JsVal) (c : Chat) (b : Browser) :
  setMessages (JArr items) c b = (Normal (publish (JArr items) c), b).
Proof. reflexivity. Qed.

(** For messages that are an array the first commit leaves the hooks of
    [mounted_chat]. *)
Lemma first_commit_array (d : StorageData) (items : list JsVal) :
  Storage.messages d = JArr items -> first_commit d = Mounted (mounted_chat d).
Proof.
  intros Hd. unfold first_commit, mounted_chat, publish. rewrite Hd. reflexivity.
Qed.

Section Session.

Variable W : string.
Variable send : string -> JsVal -> JsVal.

(** ** Effects *)

Lemma save_effect_total (r : Render) (c : Chat) (b : Browser) :
  save_effect r c b
  = (Normal c, if r_isClient r
               then snd (saveMessagesToStorage (r_messages r) (r_durations r) b)
               else b).
Proof.
  unfold save_effect. destruct (r_isClient r); [|reflexivity].
  unfold mbind, JS_bind, mret, JS_ret.
  pose proof (save_total (r_messages r) (r_durations r) b) as Hs.
  destruct (saveMessagesToStorage _ _ b) as [[[]|e] b']; [reflexivity | discriminate Hs].
Qed.

(** The welcome effect: when its condition holds it sets the transcript,
    saves it and raises the flag; otherwise it does nothing. *)
Lemma welcome_effect_cases (r : Render) (c : Chat) (b : Browser) :
  r_initialMessages r <> JNull ->
  welcome_effect W r c b
  = if welcome_due r c
    then (Normal (set_welcomeShownRef true
                    (publish (JArr [welcomeMessage W (clock b)]) c)),
          snd (saveMessagesToStorage (JArr [welcomeMessage W (clock b)]) (JObj []) b))
    else (Normal c, b).
Proof.
  intros Hnn. unfold welcome_effect, welcome_due.
  destruct (r_isClient r); [|reflexivity]. cbn [andb].
  destruct (get_member_total _ "length" Hnn) as [len Hlen]. rewrite Hlen.
  unfold mbind, JS_bind, mret, JS_ret, lift, Date_now. cbv beta iota.
  destruct (strict_eq_zero len && negb (welcomeShownRef c)); [|reflexivity].
  rewrite setMessages_array.
  pose proof (save_total (JArr [welcomeMessage W (clock b)]) (JObj []) b) as Hs.
  destruct (saveMessagesToStorage _ _ b) as [[[]|e] b']; [reflexivity | discriminate Hs].
Qed.

Lemma clearChat_result (c : Chat) (b : Browser) :
  clearChat c b
  = (Normal (setDurations (fun _ => JObj []) (publish (JArr []) c)),
     push_toast "Chat cleared" (snd (saveMessagesToStorage (JArr []) (JObj []) b))).
Proof.
  unfold clearChat, mbind, JS_bind, toast_success, mret, JS_ret.
  rewrite setMessages_array.
  pose proof (save_total (JArr []) (JObj []) b) as Hs.
  destruct (saveMessagesToStorage _ _ b) as [[[]|e] b']; [reflexivity | discriminate Hs].
Qed.

(** ** Commits *)

Lemma commit_first (b : Browser) :
  settle (commit W NotMounted b) = (first_commit (load_outcome b), snd (read_stored b)).
Proof.
  pose proof (read_stored_total b) as Hread.
  remember (snd (read_stored b)) as b1 eqn:Hb1. clear Hb1.
  unfold commit, first_render, mount_effect.
  unfold mbind at 1, JS_bind. unfold mbind at 1, JS_bind. rewrite Hread.
  unfold mret at 1, JS_ret. cbv beta iota.
  unfold mbind at 1, JS_bind. rewrite setMessages_result. unfold first_commit.
  cbn [r_stored].
  destruct (iterate (Storage.messages (load_outcome b))) as [items|e]; reflexivity.
Qed.

Lemma commit_mounted (c : Chat) (b : Browser) :
  initialMessages c <> JNull ->
  commit W (Mounted c) b
  = if welcome_fires c b
    then
      (Normal (Mounted (set_welcomeShownRef true
                 (publish (JArr [welcomeMessage W (clock (after_save_effect c b))])
                    (commit_deps c)))),
       snd (saveMessagesToStorage
              (JArr [welcomeMessage W (clock (after_save_effect c b))]) (JObj [])
              (after_save_effect c b)))
    else (Normal (Mounted (commit_deps c)), after_save_effect c b).
Proof.
  intros Hnn.
  assert (Hrender : render c b = (Normal (render_of c b), snd (read_stored b))).
  { pose proof (read_stored_total b) as Hread.
    remember (snd (read_stored b)) as b1 eqn:Hb1. clear Hb1.
    unfold render, mbind, JS_bind. rewrite Hread. reflexivity. }
  unfold commit. unfold mbind at 1, JS_bind. rewrite Hrender.
  unfold welcome_fires, after_save_effect.
  assert (Hsave : (if save_deps_changed c
                   then save_effect (render_of c b) (commit_deps c)
                   else mret (commit_deps c)) (snd (read_stored b))
                  = (Normal (commit_deps c),
                     if save_deps_changed c && isClient c
                     then snd (saveMessagesToStorage (messages c) (durations c)
                                 (snd (read_stored b)))
                     else snd (read_stored b))).
  { destruct (save_deps_changed c); [|reflexivity].
    rewrite save_effect_total. cbn [render_of r_isClient r_messages r_durations andb].
    reflexivity. }
  unfold mbind at 1, JS_bind. rewrite Hsave.
  set (b2 := if save_deps_changed c && isClient c then _ else _).
  unfold mbind, JS_bind.
  destruct (welcome_deps_changed c); cbn [andb].
  - rewrite welcome_effect_cases by exact Hnn.
    destruct (welcome_due (render_of c b) (commit_deps c)); reflexivity.
  - reflexivity.
Qed.

(** ** Steps *)

(** A mounted component stays mounted; its [initialMessages] never
    change; its welcome flag changes only when a commit fires the welcome
    effect, which raises it and replaces the transcript. *)
Lemma step_mounted (c : Chat) (b : Browser) (ev : Event) :
  initialMessages c <> JNull ->
  exists c' b',
    step W send (Mounted c, b) ev = (Mounted c', b')
    /\ initialMessages c' = initialMessages c
    /\ (welcomeShownRef c' = welcomeShownRef c
        \/ (ev = EvRender /\ welcome_fires c b = true
            /\ welcomeShownRef c = false /\ welcomeShownRef c' = true
            /\ messages c'
               = JArr [welcomeMessage W (clock (after_save_effect c b))])).
Proof.
  intros Hnn. destruct ev as [ |text| |transcript|key duration| |t]; cbn [step].
  - rewrite commit_mounted by exact Hnn.
    destruct (welcome_fires c b) eqn:Hf; cbn [settle]; eexists _, _;
      (split; [reflexivity|]); (split; [reflexivity|]).
    + right. repeat split.
      unfold welcome_fires, welcome_due in Hf.
      apply andb_prop in Hf as [_ Hf]. apply andb_prop in Hf as [_ Hf].
      apply negb_true_iff in Hf. exact Hf.
    + left. reflexivity.
  - eexists _, _. repeat split. left. reflexivity.
  - eexists _, _. split; [reflexivity|]. unfold handleSubmit, onSubmit.
    destruct (formSchema (form_message c)); split; try reflexivity; left; reflexivity.
  - eexists _, _. repeat split. left. reflexivity.
  - eexists _, _. repeat split. left. reflexivity.
  - rewrite clearChat_result. eexists _, _. repeat split. left. reflexivity.
  - eexists _, _. repeat split. left. reflexivity.
Qed.

(** Before the mount only a render changes the machine; the clock may
    advance. *)
Lemma step_not_mounted (b : Browser) (ev : Event) :
  step W send (NotMounted, b) ev
  = match ev with
    | EvRender => (first_commit (load_outcome b), snd (read_stored b))
    | EvTick t => (NotMounted, set_clock t b)
    | _ => (NotMounted, b)
    end.
Proof. destruct ev; cbn [step]; try reflexivity. apply commit_first. Qed.

(** A page that was torn down stays so. *)
Lemma step_crashed (e : JsError) (b : Browser) (ev : Event) :
  step W send (Crashed e, b) ev
  = match ev with
    | EvTick t => (Crashed e, set_clock t b)
    | _ => (Crashed e, b)
    end.
Proof. destruct ev; reflexivity. Qed.

Lemma step_sound (w : World) (ev : Event) : sound w -> sound (step W send w ev).
Proof.
  destruct w as [[ |c|e] b]; unfold sound; cbn [fst]; intros Hs.
  - rewrite step_not_mounted. destruct ev; cbn [fst]; try exact I.
    unfold first_commit. destruct (iterate _); [|exact I].
    cbn [publish mounted_chat initialMessages]. apply load_outcome_messages.
  - destruct (step_mounted c b ev Hs) as (c' & b' & -> & Hi & _).
    cbn [fst]. rewrite Hi. exact Hs.
  - rewrite step_crashed. destruct ev; exact I.
Qed.

Lemma run_sound (evs : list Event) (w : World) : sound w -> sound (run W send w evs).
Proof.
  revert w. induction evs as [|ev evs IH]; intros w Hs; [exact Hs|].
  cbn [run fold_left]. apply IH, step_sound, Hs.
Qed.

Lemma run_app (w : World) (evs1 evs2 : list Event) :
  run W send w (evs1 ++ evs2) = run W send (run W send w evs1) evs2.
Proof. unfold run. apply fold_left_app. Qed.

(** A step raises the flag exactly when it is a commit whose welcome
    effect fires. *)
Lemma injects_iff_fires (c : Chat) (b : Browser) (ev : Event) :
  initialMessages c <> JNull ->
  injects W send (Mounted c, b) ev = true <-> ev = EvRender /\ welcome_fires c b = true.
Proof.
  intros Hnn. unfold injects, welcome_shown. cbn [fst]. split.
  - intros H. apply andb_prop in H as [Hold Hnew]. apply negb_true_iff in Hold.
    destruct (step_mounted c b ev Hnn) as (c' & b' & Hstep & _ & [Heq | (He & Hf & _)]).
    + rewrite Hstep in Hnew. cbn [fst] in Hnew. congruence.
    + split; assumption.
  - intros [-> Hf]. cbn [step]. rewrite commit_mounted by exact Hnn.
    rewrite Hf. cbn [settle fst welcomeShownRef set_welcomeShownRef].
    unfold welcome_fires, welcome_due in Hf.
    apply andb_prop in Hf as [_ Hf]. apply andb_prop in Hf as [_ Hf].
    cbn [commit_deps welcomeShownRef] in Hf. rewrite Hf. reflexivity.
Qed.

(** Once shown, the welcome stays shown. *)
Lemma step_keeps_shown (w : World) (ev : Event) :
  sound w -> welcome_shown w = true -> welcome_shown (step W send w ev) = true.
Proof.
  destruct w as [[ |c|e] b]; unfold sound, welcome_shown; cbn [fst];
    intros Hs Hshown; try discriminate.
  destruct (step_mounted c b ev Hs) as (c' & b' & -> & _ & [Heq | (_ & _ & Hf & _)]).
  - cbn [fst]. rewrite Heq. exact Hshown.
  - congruence.
Qed.

Lemma shown_no_injection (evs : list Event) (w : World) :
  sound w -> welcome_shown w = true ->
  injections W send w evs = 0 /\ welcome_shown (run W send w evs) = true.
Proof.
  revert w. induction evs as [|ev evs IH]; intros w Hs Hshown;
    [split; [reflexivity | exact Hshown]|].
  cbn [injections run fold_left]. unfold injects. rewrite Hshown. cbn [negb andb].
  apply IH; [apply step_sound, Hs | apply step_keeps_shown; assumption].
Qed.

Lemma injections_at_most_one (evs : list Event) (w : World) :
  sound w -> injections W send w evs <= 1.
Proof.
  revert w. induction evs as [|ev evs IH]; intros w Hs; [cbn; lia|].
  cbn [injections]. destruct (injects W send w ev) eqn:Hi.
  - unfold injects in Hi. apply andb_prop in Hi as [_ Hshown].
    destruct (shown_no_injection evs (step W send w ev)) as [-> _];
      [apply step_sound, Hs | exact Hshown | lia].
  - specialize (IH (step W send w ev) (step_sound w ev Hs)). lia.
Qed.

(** ** The welcome flag *)

(** A commit whose welcome effect does not fire is the render and the
    save effect, and nothing more. *)
Lemma quiet_commit (c : Chat) (b : Browser) :
  initialMessages c <> JNull ->
  injects W send (Mounted c, b) EvRender = false ->
  step W send (Mounted c, b) EvRender = (Mounted (commit_deps c), after_save_effect c b).
Proof.
  intros Hnn Hinj. cbn [step]. rewrite commit_mounted by exact Hnn.
  destruct (welcome_fires c b) eqn:Hf; [|reflexivity].
  assert (Hyes : injects W send (Mounted c, b) EvRender = true)
    by (apply injects_iff_fires; [exact Hnn | split; [reflexivity | exact Hf]]).
  congruence.
Qed.

(** With the flag up, the welcome effect does nothing, and a commit is the
    render and the save effect. *)
Lemma shown_commit (c : Chat) (b : Browser) :
  initialMessages c <> JNull -> welcomeShownRef c = true ->
  (forall r, r_initialMessages r = initialMessages c ->
             welcome_effect W r c b = (Normal c, b))
  /\ step W send (Mounted c, b) EvRender = (Mounted (commit_deps c), after_save_effect c b).
Proof.
  intros Hnn Hflag. split.
  - intros r Hr. rewrite welcome_effect_cases by (rewrite Hr; exact Hnn).
    unfold welcome_due. rewrite Hflag. cbn [negb]. rewrite andb_false_r. reflexivity.
  - apply quiet_commit; [exact Hnn|].
    unfold injects, welcome_shown. cbn [fst]. rewrite Hflag. reflexivity.
Qed.

(** C8.  The welcome message is injected at most once, and a reset does
    not bring it back.  From the mount on, whatever happens to the page, the
    flag is raised at most once, and the flag is what every injection
    raises: a commit that does not raise it is the render and the save
    effect and nothing more (the transcript is the one the component held),
    and with the flag up the welcome effect changes neither the component
    nor the browser.  [clearChat] empties the transcript and leaves the flag
    as it is.  So once the welcome was shown, a reset keeps it shown, and in
    every state reached after the reset the welcome effect does nothing and
    a commit leaves the transcript as it is. *)
Theorem welcome_at_most_once (b0 : Browser) (evs : list Event) :
  injections W send (NotMounted, b0) evs <= 1
  /\ (forall c b, exists c' b',
        clearChat c b = (Normal c', b') /\ welcomeShownRef c' = welcomeShownRef c
        /\ messages c' = JArr [])
  /\ (forall c b, run W send (NotMounted, b0) evs = (Mounted c, b) ->
        (injects W send (Mounted c, b) EvRender = false ->
         step W send (Mounted c, b) EvRender
         = (Mounted (commit_deps c), after_save_effect c b)
         /\ messages (commit_deps c) = messages c)
        /\ (welcomeShownRef c = true ->
            forall r, r_initialMessages r = initialMessages c ->
                      welcome_effect W r c b = (Normal c, b)))
  /\ (forall evs' : list Event,
        welcome_shown (run W send (NotMounted, b0) evs) = true ->
        welcome_shown (run W send (NotMounted, b0) (evs ++ [EvClearChat])) = true
        /\ injections W send (run W send (NotMounted, b0) (evs ++ [EvClearChat])) evs' = 0
        /\ forall c b,
             run W send (run W send (NotMounted, b0) (evs ++ [EvClearChat])) evs'
             = (Mounted c, b) ->
             (forall r, r_initialMessages r = initialMessages c ->
                        welcome_effect W r c b = (Normal c, b))
             /\ step W send (Mounted c, b) EvRender
                = (Mounted (commit_deps c), after_save_effect c b)
             /\ messages (commit_deps c) = messages c).
Proof.
  assert (Hs0 : sound (NotMounted, b0)) by exact I.
  split; [apply injections_at_most_one, Hs0|]. split; [|split].
  - intros c b. rewrite clearChat_result. eexists _, _. repeat split.
  - intros c b Hrun. pose proof (run_sound evs _ Hs0) as Hs.
    rewrite Hrun in Hs. unfold sound in Hs. cbn [fst] in Hs. split.
    + intros Hinj. split; [apply quiet_commit; assumption | reflexivity].
    + intros Hflag. apply (shown_commit c b Hs Hflag).
  - intros evs' Hshown. rewrite run_app.
    pose proof (run_sound evs _ Hs0) as Hs.
    assert (Hreset : welcome_shown (run W send (run W send (NotMounted, b0) evs) [EvClearChat])
                     = true)
      by (apply step_keeps_shown; assumption).
    split; [exact Hreset|].
    assert (Hs1 : sound (run W send (run W send (NotMounted, b0) evs) [EvClearChat]))
      by (apply run_sound, Hs).
    destruct (shown_no_injection evs' _ Hs1 Hreset) as [Hn Hshown'].
    split; [exact Hn|]. intros c b Hrun.
    pose proof (run_sound evs' _ Hs1) as Hs2.
    rewrite Hrun in Hs2, Hshown'. unfold sound in Hs2. unfold welcome_shown in Hshown'.
    cbn [fst] in Hs2, Hshown'.
    destruct (shown_commit c b Hs2 Hshown') as [Heff Hstep].
    split; [exact Heff|]. split; [exact Hstep | reflexivity].
Qed.

(** ** A restored transcript *)

Lemma welcome_due_nonempty (r : Render) (c : Chat) (x : JsVal) (xs : list JsVal) :
  r_initialMessages r = JArr (x :: xs) -> welcome_due r c = false.
Proof.
  intros Hr. unfold welcome_due. rewrite Hr. cbn [get_member].
  change (String.eqb "length" "length") with true. cbv iota.
  cbn [strict_eq_zero length]. rewrite Nat2Z.inj_succ.
  destruct (Z.eqb_spec (Z.succ (Z.of_nat (length xs))) 0) as [H0|_]; [lia|].
  rewrite andb_false_r. reflexivity.
Qed.

Lemma welcome_fires_nonempty (c : Chat) (b : Browser) (x : JsVal) (xs : list JsVal) :
  initialMessages c = JArr (x :: xs) -> welcome_fires c b = false.
Proof.
  intros Hc. unfold welcome_fires.
  rewrite (welcome_due_nonempty (render_of c b) (commit_deps c) x xs Hc).
  apply andb_false_r.
Qed.

Lemma step_restored (x : JsVal) (xs : list JsVal) (w : World) (ev : Event) :
  restored (JArr (x :: xs)) w ->
  restored (JArr (x :: xs)) (step W send w ev) /\ injects W send w ev = false.
Proof.
  destruct w as [[ |c|e] b]; unfold restored, injects, welcome_shown; cbn [fst snd];
    [intros HM | intros [HM Hflag] | contradiction].
  - rewrite step_not_mounted.
    destruct ev; try rewrite (first_commit_array _ _ HM);
      cbn [fst snd mounted_chat initialMessages welcomeShownRef];
      try (split; [exact HM | reflexivity]).
    split; [split; [exact HM | reflexivity] | reflexivity].
  - assert (Hnn : initialMessages c <> JNull) by (rewrite HM; discriminate).
    destruct (step_mounted c b ev Hnn) as (c' & b' & -> & Hi & [Heq | (_ & Hf & _)]).
    + cbn [fst]. rewrite Hi, Heq, Hflag. repeat split. exact HM.
    + rewrite (welcome_fires_nonempty c b x xs HM) in Hf. discriminate Hf.
Qed.

Lemma run_restored (x : JsVal) (xs : list JsVal) (evs : list Event) (w : World) :
  restored (JArr (x :: xs)) w ->
  restored (JArr (x :: xs)) (run W send w evs) /\ injections W send w evs = 0.
Proof.
  revert w. induction evs as [|ev evs IH]; intros w Hw; [split; [exact Hw | reflexivity]|].
  destruct (step_restored x xs w ev Hw) as [Hw' Hinj].
  cbn [run fold_left injections]. rewrite Hinj.
  destruct (IH _ Hw') as [Hr Hn]. split; [exact Hr | rewrite Hn; reflexivity].
Qed.

(** Renders alone, with the restored transcript still in place. *)
Lemma renders_keep_restored (x : JsVal) (xs : list JsVal) (n : nat) (c : Chat) (b : Browser) :
  initialMessages c = JArr (x :: xs) -> messages c = JArr (x :: xs) ->
  exists c' b', run W send (Mounted c, b) (repeat EvRender n) = (Mounted c', b')
                /\ initialMessages c' = JArr (x :: xs) /\ messages c' = JArr (x :: xs).
Proof.
  revert c b. induction n as [|n IH]; intros c b Hi Hm.
  - exists c, b. repeat split; assumption.
  - cbn [repeat run fold_left step].
    rewrite commit_mounted by (rewrite Hi; discriminate).
    rewrite (welcome_fires_nonempty c b x xs Hi). cbn [settle].
    apply IH; assumption.
Qed.

(** C2.  When the record loaded at the mount has a non-empty list of
    messages, the welcome message is never injected, whatever happens to the
    page afterwards: no step injects, the flag stays down, the welcome
    effect run on any state that is reached changes neither the component
    nor the browser, and renders alone leave the restored transcript in
    place. *)
Theorem restored_transcript_never_welcomed
    (b0 : Browser) (d : StorageData) (x : JsVal) (xs : list JsVal) (evs : list Event) :
  fst (loadMessagesFromStorage b0) = Normal d ->
  Storage.messages d = JArr (x :: xs) ->
  injections W send (NotMounted, b0) evs = 0
  /\ welcome_shown (run W send (NotMounted, b0) evs) = false
  /\ (forall c b, run W send (NotMounted, b0) evs = (Mounted c, b) ->
        initialMessages c = JArr (x :: xs)
        /\ forall r, r_initialMessages r = initialMessages c ->
             welcome_effect W r c b = (Normal c, b))
  /\ (forall n, exists c b,
        run W send (NotMounted, b0) (repeat EvRender (S n)) = (Mounted c, b)
        /\ messages c = JArr (x :: xs)).
Proof.
  intros Hload HM. rewrite load_returns in Hload. injection Hload as <-.
  assert (H0 : restored (JArr (x :: xs)) (NotMounted, b0)) by exact HM.
  destruct (run_restored x xs evs _ H0) as [Hr Hn].
  split; [exact Hn|]. split; [|split].
  - unfold restored in Hr. unfold welcome_shown.
    destruct (fst (run W send (NotMounted, b0) evs)) as [ |c|e];
      [reflexivity | tauto | reflexivity].
  - intros c b Hrun. rewrite Hrun in Hr. destruct Hr as [Hi _].
    split; [exact Hi|]. intros r Hri.
    rewrite welcome_effect_cases by (rewrite Hri, Hi; discriminate).
    rewrite (welcome_due_nonempty r c x xs) by (rewrite Hri; exact Hi).
    reflexivity.
  - intros n. cbn [repeat run fold_left].
    rewrite step_not_mounted, (first_commit_array _ _ HM).
    destruct (renders_keep_restored x xs n (mounted_chat (load_outcome b0))
                (snd (read_stored b0))) as (c & b & Hrun & _ & Hm); try exact HM.
    exists c, b. split; assumption.
Qed.

(** ** An empty transcript *)

Lemma clock_before_welcome (d : StorageData) (b0 : Browser) :
  clock (browser_before_welcome d b0) = clock b0.
Proof.
  unfold browser_before_welcome.
  destruct (save_frame (Storage.messages d) (Storage.durations d)
              (snd (read_stored (snd (read_stored b0))))) as (-> & _).
  destruct (read_stored_frame (snd (read_stored b0))) as (-> & _).
  destruct (read_stored_frame b0) as (-> & _). reflexivity.
Qed.

(** Mount, then one more render: with an empty restored transcript the
    second commit fires the welcome effect. *)
Lemma two_renders_welcome (b0 : Browser) :
  Storage.messages (load_outcome b0) = JArr [] ->
  run W send (NotMounted, b0) [EvRender; EvRender]
  = (Mounted (welcomed_chat W (load_outcome b0) b0),
     snd (saveMessagesToStorage (JArr [welcomeMessage W (clock b0)]) (JObj [])
            (browser_before_welcome (load_outcome b0) b0))).
Proof.
  intros HM. cbn [run fold_left].
  rewrite step_not_mounted, (first_commit_array _ _ HM). cbn [step].
  rewrite commit_mounted by (cbn [mounted_chat initialMessages]; rewrite HM; discriminate).
  assert (Hfires : welcome_fires (mounted_chat (load_outcome b0)) (snd (read_stored b0))
                   = true).
  { unfold welcome_fires, welcome_due.
    cbn [render_of mounted_chat r_isClient r_initialMessages initialMessages isClient
           commit_deps welcomeShownRef welcome_deps_changed committed_isClient].
    rewrite HM. reflexivity. }
  rewrite Hfires. cbn [settle].
  assert (Hb : after_save_effect (mounted_chat (load_outcome b0)) (snd (read_stored b0))
               = browser_before_welcome (load_outcome b0) b0) by reflexivity.
  rewrite Hb, clock_before_welcome. reflexivity.
Qed.

(** C1.  When the record loaded at the mount has an empty list of
    messages, the welcome effect of the second commit (the first one that
    sees [isClient]) sets the transcript to one assistant message whose
    single text part is [WELCOME_MESSAGE], saves that transcript at once
    with [saveMessagesToStorage], and raises the flag: where the storage
    takes the write, the slot holds the text of the welcome transcript with
    the empty map as soon as that commit is done, and [load] reads the
    welcome transcript back.  This is the one injection of the life time:
    no later step injects, and the welcome effect run on any state reached
    later changes neither the component nor the browser. *)
Theorem welcome_once (b0 : Browser) (d : StorageData) :
  fst (loadMessagesFromStorage b0) = Normal d ->
  Storage.messages d = JArr [] ->
  exists c2,
    run W send (NotMounted, b0) [EvRender; EvRender]
    = (Mounted c2,
       snd (saveMessagesToStorage (JArr [welcomeMessage W (clock b0)]) (JObj [])
              (browser_before_welcome d b0)))
    /\ messages c2
       = JArr [JObj [("id", JStr ("welcome-" +:+ string_of_list_ascii (N_chars (clock b0))));
                     ("role", JStr "assistant");
                     ("parts", JArr [JObj [("type", JStr "text"); ("text", JStr W)]])]]
    /\ welcomeShownRef c2 = true
    /\ (writable (blob (JArr [welcomeMessage W (clock b0)]) (JObj []))
          (browser_before_welcome d b0) = true ->
        localStorage (snd (run W send (NotMounted, b0) [EvRender; EvRender])) !! STORAGE_KEY
        = Some (JSON_stringify
                  (JObj [("messages", JArr [welcomeMessage W (clock b0)]);
                         ("durations", JObj [])]))
        /\ fst (loadMessagesFromStorage
                  (snd (run W send (NotMounted, b0) [EvRender; EvRender])))
           = Normal {| Storage.messages := JArr [welcomeMessage W (clock b0)];
                       Storage.durations := JObj [] |})
    /\ injections W send (NotMounted, b0) [EvRender; EvRender] = 1
    /\ forall evs : list Event,
         injections W send (run W send (NotMounted, b0) [EvRender; EvRender]) evs = 0
         /\ forall c b r,
              run W send (run W send (NotMounted, b0) [EvRender; EvRender]) evs
              = (Mounted c, b) ->
              r_initialMessages r = initialMessages c ->
              welcome_effect W r c b = (Normal c, b).
Proof.
  intros Hload HM. rewrite load_returns in Hload. injection Hload as <-.
  pose proof (two_renders_welcome b0 HM) as Hrun.
  exists (welcomed_chat W (load_outcome b0) b0). split; [exact Hrun|].
  split; [reflexivity|]. split; [reflexivity|]. split; [|split].
  - intros Hw. rewrite Hrun. cbn [snd]. rewrite load_returns.
    destruct (load_after_write (JArr [welcomeMessage W (clock b0)]) (JObj [])
                (browser_before_welcome (load_outcome b0) b0)) as [Hslot Hback];
      try reflexivity; [exact Hw|].
    split; [exact Hslot | rewrite Hback; reflexivity].
  - cbn [injections]. unfold injects.
    change (step W send (step W send (NotMounted, b0) EvRender) EvRender)
      with (run W send (NotMounted, b0) [EvRender; EvRender]).
    rewrite Hrun, step_not_mounted, (first_commit_array _ _ HM). reflexivity.
  - intros evs.
    assert (Hs : sound (run W send (NotMounted, b0) [EvRender; EvRender]))
      by (apply run_sound; exact I).
    assert (Hshown : welcome_shown (run W send (NotMounted, b0) [EvRender; EvRender]) = true)
      by (rewrite Hrun; reflexivity).
    destruct (shown_no_injection evs _ Hs Hshown) as [Hn Hshown'].
    split; [exact Hn|]. intros c b r Hc Hr.
    pose proof (run_sound evs _ Hs) as Hs'.
    rewrite Hc in Hs', Hshown'. unfold sound in Hs'. unfold welcome_shown in Hshown'.
    cbn [fst] in Hs', Hshown'.
    rewrite welcome_effect_cases by (rewrite Hr; exact Hs').
    unfold welcome_due. rewrite Hshown'. cbn [negb]. rewrite andb_false_r. reflexivity.
Qed.

(** C10.  When the slot held an empty list of messages next to a map of
    durations [D], the save the welcome effect performs is
    [saveMessagesToStorage([welcomeMessage], {})]: the component still
    holds [D], yet where that write succeeds the slot then holds the welcome
    transcript with the empty map, and [load] reads [{}] for the
    durations. *)
Theorem welcome_save_drops_durations
    (b0 : Browser) (d : StorageData) (D : list (string * JsVal)) :
  fst (loadMessagesFromStorage b0) = Normal d ->
  Storage.messages d = JArr [] ->
  Storage.durations d = JObj D ->
  snd (run W send (NotMounted, b0) [EvRender; EvRender])
  = snd (saveMessagesToStorage (JArr [welcomeMessage W (clock b0)]) (JObj [])
           (browser_before_welcome d b0))
  /\ (exists c2, fst (run W send (NotMounted, b0) [EvRender; EvRender]) = Mounted c2
                 /\ durations c2 = JObj D)
  /\ (writable (blob (JArr [welcomeMessage W (clock b0)]) (JObj []))
        (browser_before_welcome d b0) = true ->
      localStorage (snd (run W send (NotMounted, b0) [EvRender; EvRender])) !! STORAGE_KEY
      = Some (JSON_stringify
                (JObj [("messages", JArr [welcomeMessage W (clock b0)]);
                       ("durations", JObj [])]))
      /\ fst (loadMessagesFromStorage
                (snd (run W send (NotMounted, b0) [EvRender; EvRender])))
         = Normal {| Storage.messages := JArr [welcomeMessage W (clock b0)];
                     Storage.durations := JObj [] |}).
Proof.
  intros Hload HM HD. rewrite load_returns in Hload. injection Hload as <-.
  rewrite (two_renders_welcome b0 HM). cbn [fst snd].
  split; [reflexivity|]. split.
  - exists (welcomed_chat W (load_outcome b0) b0). split; [reflexivity | exact HD].
  - intros Hw. rewrite load_returns.
    destruct (load_after_write (JArr [welcomeMessage W (clock b0)]) (JObj [])
                (browser_before_welcome (load_outcome b0) b0)) as [Hslot Hload];
      try reflexivity; [exact Hw|].
    split; [exact Hslot | rewrite Hload; reflexivity].
Qed.

(** ** Reset *)

(** C7, amended.  [clearChat] sets the transcript to the empty list and
    the duration map to the empty map, calls
    [saveMessagesToStorage([], {})], and shows the toast; the welcome flag
    and the initial messages stay as they were.  Where storage cannot be
    read, or where the write of the empty record succeeds, [load] after the
    reset returns the empty record.  Where the write is refused, the
    storage keeps what it held and [load] after the reset returns what it
    returned before. *)
Theorem clearChat_resets (c : Chat) (b : Browser) :
  exists c',
    clearChat c b
    = (Normal c',
       push_toast "Chat cleared" (snd (saveMessagesToStorage (JArr []) (JObj []) b)))
    /\ messages c' = JArr [] /\ durations c' = JObj []
    /\ welcomeShownRef c' = welcomeShownRef c
    /\ initialMessages c' = initialMessages c
    /\ toasts (snd (clearChat c b)) = toasts b ++ ["Chat cleared"]
    /\ (readable b = false \/ writable (blob (JArr []) (JObj [])) b = true ->
        fst (loadMessagesFromStorage (snd (clearChat c b))) = Normal empty_record)
    /\ (writable (blob (JArr []) (JObj [])) b = false ->
        localStorage (snd (clearChat c b)) = localStorage b
        /\ fst (loadMessagesFromStorage (snd (clearChat c b)))
           = fst (loadMessagesFromStorage b)).
Proof.
  rewrite clearChat_result. eexists. split; [reflexivity|].
  repeat (split; [reflexivity|]). cbn [snd]. split; [|split].
  - cbn [toasts push_toast].
    destruct (save_frame (JArr []) (JObj []) b) as (_ & -> & _). reflexivity.
  - intros Hcase. rewrite load_returns. f_equal.
    destruct (save_frame (JArr []) (JObj []) b) as (_ & _ & Hwin & Hden).
    destruct Hcase as [Hr | Hw].
    + unfold load_outcome. cbn [has_window storage_denied push_toast].
      rewrite Hwin, Hden. unfold readable in Hr.
      destruct (has_window b); [|reflexivity]. cbn [andb negb orb] in *.
      apply negb_false_iff in Hr. rewrite Hr. reflexivity.
    + destruct (load_after_write (JArr []) (JObj []) b) as [_ Hload]; try reflexivity;
        [exact Hw|].
      transitivity (load_outcome (snd (saveMessagesToStorage (JArr []) (JObj []) b)));
        [apply load_outcome_ext; reflexivity | exact Hload].
  - intros Hw. destruct (save_refused (JArr []) (JObj []) b Hw) as [Hls Hout].
    split; [exact Hls|]. rewrite !load_returns. f_equal.
    transitivity (load_outcome (snd (saveMessagesToStorage (JArr []) (JObj []) b)));
      [apply load_outcome_ext; reflexivity | exact Hout].
Qed.

End Session.

(** ** Concrete runs *)

(** A browser with nothing stored: the second commit leaves the welcome
    message in the component and its text in the slot. *)
Lemma welcome_once_witness :
  fst (loadMessagesFromStorage fresh_browser) = Normal empty_record
  /\ writable (blob (JArr [welcomeMessage "Hello" (clock fresh_browser)]) (JObj []))
       (browser_before_welcome empty_record fresh_browser)
     = true
  /\ exists c2,
    run "Hello" appending_engine (NotMounted, fresh_browser) [EvRender; EvRender]
    = (Mounted c2,
       snd (saveMessagesToStorage (JArr [welcomeMessage "Hello" (clock fresh_browser)])
              (JObj []) (browser_before_welcome empty_record fresh_browser)))
    /\ messages c2
       = JArr [JObj [("id", JStr ("welcome-"
                                   +:+ string_of_list_ascii (N_chars (clock fresh_browser))));
                     ("role", JStr "assistant");
                     ("parts", JArr [JObj [("type", JStr "text"); ("text", JStr "Hello")]])]]
    /\ welcomeShownRef c2 = true
    /\ localStorage
         (snd (run "Hello" appending_engine (NotMounted, fresh_browser) [EvRender; EvRender]))
       !! STORAGE_KEY
       = Some (JSON_stringify
                 (JObj [("messages", JArr [welcomeMessage "Hello" (clock fresh_browser)]);
                        ("durations", JObj [])]))
    /\ fst (loadMessagesFromStorage
              (snd (run "Hello" appending_engine (NotMounted, fresh_browser)
                      [EvRender; EvRender])))
       = Normal {| Storage.messages := JArr [welcomeMessage "Hello" (clock fresh_browser)];
                   Storage.durations := JObj [] |}
    /\ injections "Hello" appending_engine (NotMounted, fresh_browser) [EvRender; EvRender] = 1.
Proof.
  split; [vm_compute; reflexivity|]. split; [vm_compute; reflexivity|].
  destruct (welcome_once "Hello" appending_engine fresh_browser empty_record)
    as (c2 & Hrun & Hm & Hf & Hsaved & Hone & _);
    [vm_compute; reflexivity | reflexivity |].
  destruct Hsaved as [Hslot Hback]; [vm_compute; reflexivity|].
  exists c2. repeat split; assumption.
Defined.

(** The welcome run, step by step: after the mount nothing is stored; the
    second commit stores the welcome transcript; a reset empties the slot,
    and renders after it inject nothing. *)
Example welcome_run :
  localStorage (snd (run "Hello" appending_engine (NotMounted, fresh_browser) [EvRender]))
  !! STORAGE_KEY = None
  /\ localStorage
       (snd (run "Hello" appending_engine (NotMounted, fresh_browser) [EvRender; EvRender]))
     !! STORAGE_KEY
     = Some (blob (JArr [welcomeMessage "Hello" 1700000000000]) (JObj []))
  /\ fst (run "Hello" appending_engine (NotMounted, fresh_browser)
            [EvRender; EvRender; EvRender; EvClearChat; EvRender; EvRender])
     = Mounted {| isClient := true; durations := JObj []; welcomeShownRef := true;
                  initialMessages := JArr []; messages := JArr [];
                  form_message := ""; committed_isClient := true;
                  fresh_messages := false; fresh_durations := false |}
  /\ localStorage
       (snd (run "Hello" appending_engine (NotMounted, fresh_browser)
               [EvRender; EvRender; EvRender; EvClearChat; EvRender; EvRender]))
     !! STORAGE_KEY
     = Some (blob (JArr []) (JObj [])).
Proof. repeat split; vm_compute; reflexivity. Qed.

(** The scenario of the specification: empty storage, mount, welcome,
    then a submitted message; the engine appends it and the next commit
    saves the transcript of both messages. *)
Example red_sarees_scenario :
  exists c b,
    run "Hello" appending_engine (NotMounted, fresh_browser)
      [EvRender; EvRender; EvRender; EvType "Show me red sarees"; EvSubmit; EvRender]
    = (Mounted c, b)
    /\ messages c
       = JArr [welcomeMessage "Hello" 1700000000000;
               JObj [("role", JStr "user");
                     ("parts", JArr [JObj [("type", JStr "text");
                                           ("text", JStr "Show me red sarees")]])]]
    /\ form_message c = ""
    /\ localStorage b !! STORAGE_KEY = Some (blob (messages c) (JObj [])).
Proof. eexists _, _. split; [reflexivity|]. repeat split; vm_compute; reflexivity. Qed.

(** The page has no guard of its own against an early submit: were one
    handled between the mount and the second commit, the welcome effect of
    that commit would replace the transcript that holds the user's
    message. *)
Example early_submit_is_overwritten :
  exists c b,
    run "Hello" appending_engine (NotMounted, fresh_browser)
      [EvRender; EvType "Show me red sarees"; EvSubmit; EvRender]
    = (Mounted c, b)
    /\ messages c = JArr [welcomeMessage "Hello" 1700000000000].
Proof. eexists _, _. split; reflexivity. Qed.

(** Messages stored as a string: the mount effect hands them to
    [setMessages], whose copy has one element for each character, while
    [initialMessages] keeps the string. *)
Example string_messages_are_spread :
  exists c b,
    run "Hello" appending_engine (NotMounted, browser_holding blob_messages_string)
      [EvRender]
    = (Mounted c, b)
    /\ initialMessages c = JStr "hi"
    /\ messages c = JArr [JStr "h"; JStr "i"].
Proof. eexists _, _. split; [reflexivity|]. split; reflexivity. Qed.

Lemma restored_transcript_never_welcomed_witness :
  fst (loadMessagesFromStorage (browser_holding blob_messages_only))
  = Normal {| Storage.messages := JArr [JNum 7 0]; Storage.durations := JObj [] |}
  /\ injections "Hello" appending_engine (NotMounted, browser_holding blob_messages_only)
       [EvRender; EvRender; EvClearChat; EvRender; EvRender]
     = 0
  /\ welcome_shown
       (run "Hello" appending_engine (NotMounted, browser_holding blob_messages_only)
          [EvRender; EvRender; EvClearChat; EvRender; EvRender])
     = false.
Proof.
  split; [vm_compute; reflexivity|].
  destruct (restored_transcript_never_welcomed "Hello" appending_engine
              (browser_holding blob_messages_only)
              {| Storage.messages := JArr [JNum 7 0]; Storage.durations := JObj [] |}
              (JNum 7 0) [] [EvRender; EvRender; EvClearChat; EvRender; EvRender])
    as (Hn & Hs & _); [vm_compute; reflexivity | reflexivity |].
  split; [exact Hn | exact Hs].
Defined.

Lemma welcome_save_drops_durations_witness :
  fst (loadMessagesFromStorage (browser_holding blob_durations_only))
  = Normal {| Storage.messages := JArr []; Storage.durations := JObj [("a", JNum 10 0)] |}
  /\ localStorage
       (snd (run "Hello" appending_engine
               (NotMounted, browser_holding blob_durations_only) [EvRender; EvRender]))
     !! STORAGE_KEY
     = Some (JSON_stringify
               (JObj [("messages", JArr [welcomeMessage "Hello" 0]); ("durations", JObj [])])).
Proof.
  split; [vm_compute; reflexivity|].
  apply (welcome_save_drops_durations "Hello" appending_engine
           (browser_holding blob_durations_only)
           {| Storage.messages := JArr []; Storage.durations := JObj [("a", JNum 10 0)] |}
           [("a", JNum 10 0)]);
    vm_compute; reflexivity.
Defined.

(** The commit after the welcome saves again, this time with the
    durations the component holds. *)
Example durations_saved_again :
  localStorage
    (snd (run "Hello" appending_engine
            (NotMounted, browser_holding blob_durations_only)
            [EvRender; EvRender; EvRender]))
  !! STORAGE_KEY
  = Some (blob (JArr [welcomeMessage "Hello" 0]) (JObj [("a", JNum 10 0)])).
Proof. vm_compute. reflexivity. Qed.

(** Mount, welcome, reset, then a duration recorded: the flag is still
    up, the transcript is empty, and the commit that follows leaves it
    empty. *)
Lemma welcome_at_most_once_witness :
  welcome_shown (run "Hello" appending_engine (NotMounted, fresh_browser) [EvRender; EvRender])
  = true
  /\ run "Hello" appending_engine
       (run "Hello" appending_engine (NotMounted, fresh_browser)
          ([EvRender; EvRender] ++ [EvClearChat]))
       [EvDuration "m1" (JNum 1250 0)]
     = (Mounted chat_after_reset,
        snd (run "Hello" appending_engine (NotMounted, fresh_browser)
               [EvRender; EvRender; EvClearChat]))
  /\ messages chat_after_reset = JArr []
  /\ step "Hello" appending_engine
       (Mounted chat_after_reset,
        snd (run "Hello" appending_engine (NotMounted, fresh_browser)
               [EvRender; EvRender; EvClearChat]))
       EvRender
     = (Mounted (commit_deps chat_after_reset),
        after_save_effect chat_after_reset
          (snd (run "Hello" appending_engine (NotMounted, fresh_browser)
                  [EvRender; EvRender; EvClearChat])))
  /\ messages (commit_deps chat_after_reset) = JArr [].
Proof.
  assert (Hshown : welcome_shown
                     (run "Hello" appending_engine (NotMounted, fresh_browser)
                        [EvRender; EvRender]) = true)
    by (vm_compute; reflexivity).
  assert (Hrun : run "Hello" appending_engine
                   (run "Hello" appending_engine (NotMounted, fresh_browser)
                      ([EvRender; EvRender] ++ [EvClearChat]))
                   [EvDuration "m1" (JNum 1250 0)]
                 = (Mounted chat_after_reset,
                    snd (run "Hello" appending_engine (NotMounted, fresh_browser)
                           [EvRender; EvRender; EvClearChat])))
    by (vm_compute; reflexivity).
  split; [exact Hshown|]. split; [exact Hrun|]. split; [reflexivity|].
  destruct (welcome_at_most_once "Hello" appending_engine fresh_browser [EvRender; EvRender])
    as (_ & _ & _ & Hafter).
  destruct (Hafter [EvDuration "m1" (JNum 1250 0)] Hshown) as (_ & _ & Hquiet).
  destruct (Hquiet _ _ Hrun) as (_ & Hstep & _).
  split; [exact Hstep | reflexivity].
Defined.

(** A reset where the write succeeds: [load] then returns the empty
    record.  A reset where the storage is full: the slot and what [load]
    returns are as before. *)
Lemma clearChat_resets_witness :
  writable (blob (JArr []) (JObj [])) (browser_holding blob_one_message) = true
  /\ fst (loadMessagesFromStorage
            (snd (clearChat (mounted_chat empty_record) (browser_holding blob_one_message))))
     = Normal empty_record
  /\ writable (blob (JArr []) (JObj [])) full_browser = false
  /\ localStorage (snd (clearChat (mounted_chat empty_record) full_browser))
     = localStorage full_browser
  /\ fst (loadMessagesFromStorage (snd (clearChat (mounted_chat empty_record) full_browser)))
     = fst (loadMessagesFromStorage full_browser).
Proof.
  split; [vm_compute; reflexivity|]. split; [|split; [vm_compute; reflexivity|]].
  - destruct (clearChat_resets (mounted_chat empty_record)
                (browser_holding blob_one_message))
      as (c' & _ & _ & _ & _ & _ & _ & Hload & _).
    apply Hload. right. vm_compute. reflexivity.
  - destruct (clearChat_resets (mounted_chat empty_record) full_browser)
      as (c' & _ & _ & _ & _ & _ & _ & _ & Hkept).
    apply Hkept. vm_compute. reflexivity.
Defined.

(** C7, counterexample.  With the storage full, the write of the empty
    record throws and is swallowed; [load] then returns the record that was
    in the slot. *)
Lemma reset_then_load_empty_fails :
  fst (loadMessagesFromStorage
         (snd (clearChat (mounted_chat empty_record) full_browser)))
  = Normal {| Storage.messages := JArr [JNum 1 0]; Storage.durations := JObj [] |}
  /\ console (snd (clearChat (mounted_chat empty_record) full_browser))
     = [("Failed to save messages:", QuotaExceededError)]
  /\ ~ reset_then_load_empty.
Proof.
  split; [vm_compute; reflexivity|]. split; [vm_compute; reflexivity|].
  intros H. specialize (H (mounted_chat empty_record) full_browser).
  vm_compute in H. discriminate H.
Qed.

(** ** Durations *)

Lemma obj_get_replace (k k' : string) (v : JsVal) (o : list (string * JsVal)) :
  obj_get k' (obj_replace k v o)
  = if String.eqb k k' then (if obj_has k o then Some v else None) else obj_get k' o.
Proof.
  unfold obj_has. induction o as [|[k0 v0] o IH]; cbn [obj_replace obj_get].
  - destruct (String.eqb k k'); reflexivity.
  - destruct (String.eqb_spec k0 k) as [->|Hne].
    + cbn [obj_get]. destruct (String.eqb_spec k k'); reflexivity.
    + cbn [obj_get]. rewrite IH.
      destruct (String.eqb_spec k0 k') as [->|Hne'].
      * destruct (String.eqb_spec k k'); [congruence | reflexivity].
      * reflexivity.
Qed.

Lemma obj_get_insert (k k' : string) (v : JsVal) (o : list (string * JsVal)) :
  obj_get k o = None ->
  obj_get k' (obj_insert k v o) = if String.eqb k k' then Some v else obj_get k' o.
Proof.
  induction o as [|[k0 v0] o IH]; cbn [obj_insert obj_get]; intros Hk.
  - reflexivity.
  - destruct (String.eqb_spec k0 k) as [->|Hne]; [discriminate|].
    destruct (precedes k k0); cbn [obj_get].
    + destruct (String.eqb_spec k k'); reflexivity.
    + rewrite (IH Hk).
      destruct (String.eqb_spec k0 k') as [->|Hne'].
      * destruct (String.eqb_spec k k'); [congruence | reflexivity].
      * reflexivity.
Qed.

(** Reading an object after [obj_set]. *)
Lemma obj_get_set (k k' : string) (v : JsVal) (o : list (string * JsVal)) :
  obj_get k' (obj_set k v o) = if String.eqb k k' then Some v else obj_get k' o.
Proof.
  unfold obj_set. destruct (obj_has k o) eqn:Hh.
  - rewrite obj_get_replace, Hh. reflexivity.
  - apply obj_get_insert. unfold obj_has in Hh.
    destruct (obj_get k o); [discriminate | reflexivity].
Qed.

(** C6.  [handleDurationChange(key, duration)] on a duration map [D]
    gives [D] with [key] bound to [duration]: the new map reads [duration]
    at [key] and what [D] read at every other key, and nothing else of the
    component changes. *)
Theorem duration_upsert (c : Chat) (D : list (string * JsVal)) (k : string) (v : JsVal) :
  durations c = JObj D ->
  durations (handleDurationChange k v c) = JObj (obj_set k v D)
  /\ obj_get k (obj_set k v D) = Some v
  /\ (forall k', k' <> k -> obj_get k' (obj_set k v D) = obj_get k' D)
  /\ messages (handleDurationChange k v c) = messages c
  /\ initialMessages (handleDurationChange k v c) = initialMessages c
  /\ welcomeShownRef (handleDurationChange k v c) = welcomeShownRef c.
Proof.
  intros HD. unfold handleDurationChange.
  cbn [durations setDurations messages initialMessages welcomeShownRef].
  rewrite HD. cbn [spread]. split; [reflexivity|]. split; [|split].
  - rewrite obj_get_set, String.eqb_refl. reflexivity.
  - intros k' Hne. rewrite obj_get_set.
    destruct (String.eqb_spec k k'); [congruence | reflexivity].
  - repeat split.
Qed.

(** From [{a: 10}], recording 20 under [b] gives [{a: 10, b: 20}]. *)
Lemma duration_upsert_witness :
  durations
    (handleDurationChange "b" (JNum 20 0)
       (mounted_chat {| Storage.messages := JArr [];
                        Storage.durations := JObj [("a", JNum 10 0)] |}))
  = JObj [("a", JNum 10 0); ("b", JNum 20 0)].
Proof.
  apply (duration_upsert
           (mounted_chat {| Storage.messages := JArr [];
                            Storage.durations := JObj [("a", JNum 10 0)] |})
           [("a", JNum 10 0)] "b" (JNum 20 0)).
  reflexivity.
Defined.

(** Keys that are array indices are enumerated first, in ascending
    order, wherever they are recorded. *)
Example duration_upsert_index_keys :
  obj_set "2" (JNum 3 0) (obj_set "b" (JNum 2 0) (obj_set "10" (JNum 1 0) []))
  = [("2", JNum 3 0); ("10", JNum 1 0); ("b", JNum 2 0)].
Proof. reflexivity. Qed.

(* ===================================================================== *)
(** * Further properties *)
(* ===================================================================== *)

(** [load] never throws and never writes: it returns some record and
    leaves the browser as it was, up to one line on the console. *)
Theorem load_never_throws (b : Browser) :
  exists d b',
    loadMessagesFromStorage b = (Normal d, b')
    /\ d = load_outcome b
    /\ localStorage b' = localStorage b
    /\ (b' = b \/ exists e, b' = log_console ("Failed to load messages:", e) b).
Proof.
  pose proof (load_returns b) as Hret.
  destruct (load_shape b) as [[d Hd] | [e He]].
  - rewrite Hd in Hret. injection Hret as ->.
    exists (load_outcome b), b. repeat split; [exact Hd | left; reflexivity].
  - rewrite He in Hret. injection Hret as Hempty.
    exists empty_record, (log_console ("Failed to load messages:", e) b).
    repeat split; [exact He | exact Hempty | right; exists e; reflexivity].
Qed.

(** [save] never throws: it writes the text of the record, or gives up
    with one line on the console, or does nothing where there is no
    window. *)
Theorem save_never_throws (ms ds : JsVal) (b : Browser) :
  exists b',
    saveMessagesToStorage ms ds b = (Normal tt, b')
    /\ (b' = b
        \/ b' = set_localStorage
                  (<[STORAGE_KEY := JSON_stringify (JObj [("messages", ms); ("durations", ds)])]>
                     (localStorage b)) b
        \/ exists e, b' = log_console ("Failed to save messages:", e) b).
Proof.
  destruct (save_shape ms ds b) as [H | [H | [e H]]]; rewrite H; eexists; split;
    try reflexivity.
  - left. reflexivity.
  - right. left. reflexivity.
  - right. right. exists e. reflexivity.
Qed.

Section Further.

Variable W : string.
Variable send : string -> JsVal -> JsVal.

(** The welcome message is only injected by a commit of a mounted
    component whose [isClient] is set, that is after the mount effect has
    seeded the durations and the transcript; the first commit itself seeds
    them (for messages that are an array it leaves the hooks of
    [mounted_chat]; messages that cannot be iterated tear the page down)
    and injects nothing. *)
Theorem welcome_after_bootstrap (b0 : Browser) (evs : list Event) (ev : Event) :
  step W send (NotMounted, b0) EvRender
  = (first_commit (load_outcome b0), snd (read_stored b0))
  /\ (forall items, Storage.messages (load_outcome b0) = JArr items ->
      step W send (NotMounted, b0) EvRender
      = (Mounted (mounted_chat (load_outcome b0)), snd (read_stored b0)))
  /\ injects W send (NotMounted, b0) EvRender = false
  /\ (injects W send (run W send (NotMounted, b0) evs) ev = true ->
      ev = EvRender
      /\ exists c b, run W send (NotMounted, b0) evs = (Mounted c, b) /\ isClient c = true).
Proof.
  split; [apply step_not_mounted|]. split; [|split].
  - intros items HM. rewrite step_not_mounted, (first_commit_array _ _ HM). reflexivity.
  - unfold injects. rewrite step_not_mounted. unfold first_commit.
    destruct (iterate _); reflexivity.
  - pose proof (run_sound W send evs (NotMounted, b0) I) as Hs.
    destruct (run W send (NotMounted, b0) evs) as [[ |c|e] b]; unfold sound in Hs;
      cbn [fst] in Hs;
      [ | |intros Hi; unfold injects in Hi; rewrite step_crashed in Hi;
           destruct ev; discriminate Hi].
    + unfold injects. rewrite step_not_mounted. unfold first_commit.
      destruct ev; try discriminate. destruct (iterate _); discriminate.
    + intros Hi. apply (injects_iff_fires W send c b ev Hs) in Hi as [-> Hf].
      split; [reflexivity|]. exists c, b. split; [reflexivity|].
      unfold welcome_fires, welcome_due in Hf.
      apply andb_prop in Hf as [_ Hf]. apply andb_prop in Hf as [Hf _].
      apply andb_prop in Hf as [Hf _]. exact Hf.
Qed.

(** Autosave: once the component is bootstrapped, the commit that follows
    a change of the durations saves the transcript with the new
    durations. *)
Theorem autosave_after_duration (c : Chat) (b : Browser) (k : string) (v : JsVal) :
  initialMessages c <> JNull ->
  isClient c = true ->
  committed_isClient c = true ->
  run W send (Mounted c, b) [EvDuration k v; EvRender]
  = (Mounted (commit_deps (handleDurationChange k v c)),
     snd (saveMessagesToStorage (messages c) (durations (handleDurationChange k v c))
            (snd (read_stored b)))).
Proof.
  intros Hnn Hclient Hcommitted. cbn [run fold_left step].
  rewrite commit_mounted by exact Hnn.
  unfold welcome_fires, welcome_deps_changed, after_save_effect, save_deps_changed.
  cbn [handleDurationChange setDurations isClient committed_isClient fresh_durations
         fresh_messages messages].
  rewrite Hclient, Hcommitted. cbn [xorb andb]. rewrite orb_true_r. reflexivity.
Qed.

End Further.

Lemma autosave_after_duration_witness :
  localStorage
    (snd (run "Hello" appending_engine
            (Mounted (welcomed_chat "Hello" empty_record fresh_browser), fresh_browser)
            [EvDuration "m1" (JNum 1250 0); EvRender]))
  !! STORAGE_KEY
  = Some (blob (JArr [welcomeMessage "Hello" 1700000000000]) (JObj [("m1", JNum 1250 0)])).
Proof.
  rewrite (autosave_after_duration "Hello" appending_engine
             (welcomed_chat "Hello" empty_record fresh_browser) fresh_browser
             "m1" (JNum 1250 0));
    [vm_compute; reflexivity | discriminate | reflexivity | reflexivity].
Defined.

(* ===================================================================== *)
(** * The storage adapter, case by case *)
(* ===================================================================== *)

(** What [load] logs.  Without a window it does nothing; where storage
    does not answer it logs the [SecurityError]; an absent key and the
    empty string are taken for [no record] in silence; a text that is not
    JSON is logged as a [SyntaxError], and the text [null] as the
    [TypeError] of reading [null.messages]; every other JSON text is read
    in silence. *)
Theorem load_logs (b : Browser) :
  (has_window b = false -> loadMessagesFromStorage b = (Normal empty_record, b))
  /\ (has_window b = true -> storage_denied b = true ->
      loadMessagesFromStorage b
      = (Normal empty_record, log_console ("Failed to load messages:", SecurityError) b))
  /\ (readable b = true ->
      localStorage b !! STORAGE_KEY = None \/ localStorage b !! STORAGE_KEY = Some "" ->
      loadMessagesFromStorage b = (Normal empty_record, b))
  /\ (forall text, readable b = true ->
      localStorage b !! STORAGE_KEY = Some text -> text <> "" -> JSON_parse text = None ->
      loadMessagesFromStorage b
      = (Normal empty_record, log_console ("Failed to load messages:", SyntaxError) b))
  /\ (forall text, readable b = true ->
      localStorage b !! STORAGE_KEY = Some text -> JSON_parse text = Some JNull ->
      loadMessagesFromStorage b
      = (Normal empty_record, log_console ("Failed to load messages:", TypeError) b))
  /\ (forall text parsed, readable b = true ->
      localStorage b !! STORAGE_KEY = Some text -> JSON_parse text = Some parsed ->
      parsed <> JNull ->
      snd (loadMessagesFromStorage b) = b).
Proof.
  split; [|split; [|split; [|split; [|split]]]].
  - intros Hw. js_unfold. rewrite Hw. reflexivity.
  - intros Hw Hd. js_unfold. rewrite Hw. cbn [negb]. cbv beta iota. rewrite Hd. reflexivity.
  - intros Hr Hslot. unfold readable in Hr. apply andb_prop in Hr as [Hw Hd].
    apply negb_true_iff in Hd. js_unfold. rewrite Hw. cbn [negb]. cbv beta iota.
    rewrite Hd. destruct Hslot as [-> | ->]; reflexivity.
  - intros text Hr Hslot Hne Hp. unfold readable in Hr. apply andb_prop in Hr as [Hw Hd].
    apply negb_true_iff in Hd. js_unfold. rewrite Hw. cbn [negb]. cbv beta iota.
    rewrite Hd, Hslot. cbn [Storage.not_stored].
    destruct (String.eqb_spec text ""); [contradiction|]. rewrite Hp. reflexivity.
  - intros text Hr Hslot Hp. apply (load_null b text Hr Hslot Hp).
  - intros text parsed Hr Hslot Hp Hnn.
    destruct (load_parsed b text parsed Hr Hslot Hp Hnn) as (ms & ds & _ & _ & ->).
    reflexivity.
Qed.

(** The text [null] is logged as a [TypeError], the empty string is not
    logged at all. *)
Lemma load_logs_witness :
  loadMessagesFromStorage (browser_holding "null")
  = (Normal empty_record,
     log_console ("Failed to load messages:", TypeError) (browser_holding "null"))
  /\ loadMessagesFromStorage (browser_holding "") = (Normal empty_record, browser_holding "").
Proof.
  split.
  - destruct (load_logs (browser_holding "null")) as (_ & _ & _ & _ & Hnull & _).
    apply (Hnull "null"); vm_compute; reflexivity.
  - destruct (load_logs (browser_holding "")) as (_ & _ & Hempty & _).
    apply Hempty; [vm_compute; reflexivity | right; vm_compute; reflexivity].
Defined.

Lemma writable_after_save (text : string) (ms ds : JsVal) (b : Browser) :
  writable text b = true ->
  writable text (snd (saveMessagesToStorage ms ds b)) = true.
Proof.
  intros Hw. destruct (save_shape ms ds b) as [-> | [-> | [e ->]]]; cbn [snd];
    try exact Hw.
  unfold writable, readable in *.
  cbn [has_window storage_denied storage_quota localStorage set_localStorage].
  rewrite insert_insert_eq. exact Hw.
Qed.

(** [save] writes the slot of the page and nothing else of the storage. *)
Lemma save_outside_slot (ms ds : JsVal) (b : Browser) :
  same_outside_slot b (snd (saveMessagesToStorage ms ds b)).
Proof.
  destruct (save_shape ms ds b) as [-> | [-> | [e ->]]]; cbn [snd]; unfold same_outside_slot;
    cbn [has_window storage_denied storage_quota localStorage set_localStorage log_console];
    repeat (split; [reflexivity|]); intros k Hk; [reflexivity | | reflexivity].
  apply lookup_insert_ne. congruence.
Qed.

(** Saving is an overwrite.  The storage after two saves of the same
    record is the storage after one; and a save that can be written leaves
    the storage as if the save before it had not happened: the slot holds
    the text of the last record, and [load] returns that record. *)
Theorem save_last_write_wins (ms1 ds1 ms2 ds2 : JsVal) (b : Browser) :
  localStorage (snd (saveMessagesToStorage ms1 ds1 (snd (saveMessagesToStorage ms1 ds1 b))))
  = localStorage (snd (saveMessagesToStorage ms1 ds1 b))
  /\ (writable (blob ms2 ds2) b = true ->
      localStorage (snd (saveMessagesToStorage ms2 ds2 (snd (saveMessagesToStorage ms1 ds1 b))))
      = <[STORAGE_KEY := blob ms2 ds2]> (localStorage b)
      /\ (wf ms2 = true -> wf ds2 = true -> truthy ms2 = true -> truthy ds2 = true ->
          fst (loadMessagesFromStorage
                 (snd (saveMessagesToStorage ms2 ds2 (snd (saveMessagesToStorage ms1 ds1 b)))))
          = Normal {| Storage.messages := ms2; Storage.durations := ds2 |})).
Proof.
  split.
  - destruct (writable (blob ms1 ds1) b) eqn:Hw.
    + rewrite (save_writes ms1 ds1 _ (writable_after_save _ ms1 ds1 b Hw)).
      rewrite (save_writes ms1 ds1 b Hw). cbn [snd localStorage set_localStorage].
      apply insert_insert_eq.
    + assert (Hsame : forall b', has_window b' = has_window b ->
                storage_denied b' = storage_denied b -> storage_quota b' = storage_quota b ->
                localStorage b' = localStorage b ->
                localStorage (snd (saveMessagesToStorage ms1 ds1 b')) = localStorage b).
      { intros b' H1 H2 H3 H4. unfold writable, readable in Hw. js_unfold.
        rewrite H1. destruct (has_window b); cbn [negb]; cbv beta iota; [|exact H4].
        rewrite H2. destruct (storage_denied b); [exact H4|]. cbn [negb andb] in Hw.
        rewrite H3, H4. unfold blob in Hw. rewrite Hw. exact H4. }
      rewrite (Hsame b) by reflexivity.
      apply Hsame; try apply save_frame; try apply save_outside_slot.
      apply Hsame; reflexivity.
  - intros Hw.
    pose proof (writable_after_save _ ms1 ds1 b Hw) as Hw'.
    assert (Hslot : localStorage
                      (snd (saveMessagesToStorage ms2 ds2 (snd (saveMessagesToStorage ms1 ds1 b))))
                    = <[STORAGE_KEY := blob ms2 ds2]> (localStorage b)).
    { rewrite (save_writes ms2 ds2 _ Hw'). cbn [snd localStorage set_localStorage].
      destruct (save_shape ms1 ds1 b) as [-> | [-> | [e ->]]];
        cbn [snd localStorage set_localStorage log_console]; try reflexivity.
      apply insert_insert_eq. }
    split; [exact Hslot|]. intros Hwf1 Hwf2 Ht1 Ht2. rewrite load_returns. f_equal.
    apply (load_after_write ms2 ds2 _ Hwf1 Hwf2 Ht1 Ht2 Hw').
Qed.

(** A save that is refused by the quota, then one that fits: the slot
    holds the second record. *)
Lemma save_last_write_wins_witness :
  writable (blob (JArr sample_messages) (JObj sample_durations)) tight_browser = false
  /\ writable (blob (JArr []) (JObj [])) tight_browser = true
  /\ localStorage
       (snd (saveMessagesToStorage (JArr []) (JObj [])
               (snd (saveMessagesToStorage (JArr sample_messages) (JObj sample_durations)
                       tight_browser))))
     = <[STORAGE_KEY := blob (JArr []) (JObj [])]> (localStorage tight_browser).
Proof.
  split; [vm_compute; reflexivity|]. split; [vm_compute; reflexivity|].
  destruct (save_last_write_wins (JArr sample_messages) (JObj sample_durations)
              (JArr []) (JObj []) tight_browser) as [_ Hlast].
  apply Hlast. vm_compute. reflexivity.
Defined.

(* ===================================================================== *)
(** * The life of the page *)
(* ===================================================================== *)

Lemma same_outside_slot_refl (b : Browser) : same_outside_slot b b.
Proof. unfold same_outside_slot. repeat split. Qed.

Lemma same_outside_slot_trans (b1 b2 b3 : Browser) :
  same_outside_slot b1 b2 -> same_outside_slot b2 b3 -> same_outside_slot b1 b3.
Proof.
  intros (H1 & H2 & H3 & H4) (G1 & G2 & G3 & G4). unfold same_outside_slot.
  rewrite G1, G2, G3. repeat (split; [assumption|]).
  intros k Hk. rewrite (G4 k Hk). apply H4, Hk.
Qed.

Lemma read_stored_outside_slot (b : Browser) : same_outside_slot b (snd (read_stored b)).
Proof.
  destruct (read_stored_frame b) as (_ & _ & H1 & H2 & H3 & H4).
  unfold same_outside_slot. rewrite H1, H2, H3, H4. repeat split.
Qed.

Lemma healthy_outside_slot (b b' : Browser) :
  same_outside_slot b b' -> healthy b' = healthy b.
Proof.
  intros (H1 & H2 & H3 & _). unfold healthy, readable. rewrite H1, H2, H3. reflexivity.
Qed.

Lemma healthy_writable (text : string) (b : Browser) :
  healthy b = true -> writable text b = true.
Proof.
  unfold healthy, writable. intros H. apply andb_prop in H as [-> Hq].
  destruct (storage_quota b); [discriminate|]. reflexivity.
Qed.

(** With healthy storage a save leaves its text in the slot. *)
Lemma healthy_save_slot (ms ds : JsVal) (b : Browser) :
  healthy b = true ->
  localStorage (snd (saveMessagesToStorage ms ds b)) !! STORAGE_KEY = Some (blob ms ds).
Proof.
  intros H. rewrite (save_writes ms ds b (healthy_writable _ b H)).
  cbn [snd localStorage set_localStorage]. apply lookup_insert_eq.
Qed.

(** What [load] reads from a slot that holds the text of a record. *)
Lemma load_outcome_blob (ms ds : JsVal) (b : Browser) :
  wf ms = true -> wf ds = true -> truthy ms = true -> truthy ds = true ->
  readable b = true ->
  localStorage b !! STORAGE_KEY = Some (blob ms ds) ->
  load_outcome b = {| Storage.messages := ms; Storage.durations := ds |}.
Proof.
  intros Hwf1 Hwf2 Ht1 Ht2 Hr Hslot. unfold load_outcome.
  unfold readable in Hr. apply andb_prop in Hr as [Hw Hd]. apply negb_true_iff in Hd.
  rewrite Hw, Hd, Hslot, (blob_parses ms ds Hwf1 Hwf2). cbn [negb orb].
  unfold field_of. cbn [get_member obj_get].
  change (String.eqb "messages" "messages") with true.
  change (String.eqb "messages" "durations") with false.
  change (String.eqb "durations" "durations") with true. cbv iota.
  rewrite Ht1, Ht2. reflexivity.
Qed.

Section Lifetime.

Variable W : string.
Variable send : string -> JsVal -> JsVal.

(** ** What the page leaves alone *)

Lemma after_save_effect_outside_slot (c : Chat) (b : Browser) :
  same_outside_slot b (after_save_effect c b).
Proof.
  unfold after_save_effect. destruct (save_deps_changed c && isClient c).
  - eapply same_outside_slot_trans; [apply read_stored_outside_slot | apply save_outside_slot].
  - apply read_stored_outside_slot.
Qed.

Lemma step_outside_slot (w : World) (ev : Event) :
  sound w -> same_outside_slot (snd w) (snd (step W send w ev)).
Proof.
  destruct w as [[ |c|e] b]; unfold sound; cbn [fst snd]; intros Hs;
    [ | |rewrite step_crashed; destruct ev; cbn [snd];
         try apply same_outside_slot_refl; unfold same_outside_slot; cbn; repeat split].
  - rewrite step_not_mounted. destruct ev; cbn [snd]; try apply same_outside_slot_refl.
    + apply read_stored_outside_slot.
    + unfold same_outside_slot. cbn. repeat split.
  - destruct ev; cbn [step snd]; try apply same_outside_slot_refl.
    + rewrite commit_mounted by exact Hs. destruct (welcome_fires c b); cbn [settle snd].
      * eapply same_outside_slot_trans;
          [apply after_save_effect_outside_slot | apply save_outside_slot].
      * apply after_save_effect_outside_slot.
    + rewrite clearChat_result. cbn [snd].
      destruct (save_outside_slot (JArr []) (JObj []) b) as (H1 & H2 & H3 & H4).
      unfold same_outside_slot.
      cbn [push_toast has_window storage_denied storage_quota localStorage].
      repeat (split; [assumption|]). exact H4.
    + unfold same_outside_slot. cbn. repeat split.
Qed.

Lemma run_outside_slot (evs : list Event) (w : World) :
  sound w -> same_outside_slot (snd w) (snd (run W send w evs)).
Proof.
  revert w. induction evs as [|ev evs IH]; intros w Hs; [apply same_outside_slot_refl|].
  cbn [run fold_left].
  eapply same_outside_slot_trans; [apply step_outside_slot, Hs|].
  apply IH, step_sound, Hs.
Qed.

(** Of the browser, the page writes the slot under [STORAGE_KEY], the
    console and the toasts, and nothing else: whatever happens, every other
    key of [localStorage] keeps its value. *)
Theorem page_touches_only_chat_key (b0 : Browser) (evs : list Event) (k : string) :
  k <> STORAGE_KEY ->
  localStorage (snd (run W send (NotMounted, b0) evs)) !! k = localStorage b0 !! k.
Proof.
  intros Hk.
  destruct (run_outside_slot evs (NotMounted, b0) I) as (_ & _ & _ & H). exact (H k Hk).
Qed.

(** ** The stages of the page *)

Lemma step_stage (b0 : Browser) (n : nat) (w : World) (ev : Event) :
  stage b0 n w -> stage b0 (commits [ev] + n) (step W send w ev).
Proof.
  destruct w as [[ |c|e] b]; destruct n as [|[|n]]; unfold stage; cbn [fst snd];
    try contradiction.
  - intros H. rewrite step_not_mounted.
    destruct ev; cbn [commits Nat.add fst snd]; try exact H.
    rewrite H. unfold first_commit, iterable.
    destruct (iterate (Storage.messages (load_outcome b0))) as [items|e] eqn:Hit;
      cbn [fst]; [|split; [|reflexivity]; destruct (Storage.messages (load_outcome b0));
                   cbn [iterate] in Hit; congruence].
    cbn [publish mounted_chat isClient committed_isClient welcomeShownRef initialMessages].
    repeat split.
  - intros (Hit & Hi & Hc & Hf & Him).
    assert (Hnn : initialMessages c <> JNull) by (rewrite Him; apply load_outcome_messages).
    destruct ev; cbn [commits Nat.add step fst snd].
    + rewrite commit_mounted by exact Hnn.
      unfold welcome_fires, welcome_deps_changed, welcome_due.
      cbn [render_of r_isClient r_initialMessages commit_deps welcomeShownRef].
      rewrite Hi, Hc, Hf, Him. cbn [xorb andb negb]. rewrite andb_true_r.
      change (match get_member (Storage.messages (load_outcome b0)) "length" with
              | Normal len => strict_eq_zero len
              | Throw _ => false
              end) with (loaded_empty (load_outcome b0)).
      destruct (loaded_empty (load_outcome b0)); cbn [settle fst];
        cbn [set_welcomeShownRef publish commit_deps isClient committed_isClient
               welcomeShownRef initialMessages];
        repeat split; assumption.
    + cbn [set_form_message isClient committed_isClient welcomeShownRef initialMessages].
      repeat split; assumption.
    + unfold handleSubmit, onSubmit. destruct (formSchema (form_message c));
        cbn [set_form_message publish isClient committed_isClient welcomeShownRef
               initialMessages];
        repeat split; assumption.
    + cbn [publish isClient committed_isClient welcomeShownRef initialMessages].
      repeat split; assumption.
    + unfold handleDurationChange.
      cbn [setDurations isClient committed_isClient welcomeShownRef initialMessages].
      repeat split; assumption.
    + rewrite clearChat_result. cbn [fst].
      cbn [setDurations publish isClient committed_isClient welcomeShownRef
             initialMessages].
      repeat split; assumption.
    + repeat split; assumption.
  - intros (Hit & Hi & Hc & Hf & Him).
    assert (Hnn : initialMessages c <> JNull) by (rewrite Him; apply load_outcome_messages).
    destruct ev; cbn [commits Nat.add step fst snd].
    + rewrite commit_mounted by exact Hnn.
      unfold welcome_fires, welcome_deps_changed. rewrite Hi, Hc. cbn [xorb andb settle fst].
      cbn [commit_deps isClient committed_isClient welcomeShownRef initialMessages].
      repeat split; assumption.
    + cbn [set_form_message isClient committed_isClient welcomeShownRef initialMessages].
      repeat split; assumption.
    + unfold handleSubmit, onSubmit. destruct (formSchema (form_message c));
        cbn [set_form_message publish isClient committed_isClient welcomeShownRef
               initialMessages];
        repeat split; assumption.
    + cbn [publish isClient committed_isClient welcomeShownRef initialMessages].
      repeat split; assumption.
    + unfold handleDurationChange.
      cbn [setDurations isClient committed_isClient welcomeShownRef initialMessages].
      repeat split; assumption.
    + rewrite clearChat_result. cbn [fst].
      cbn [setDurations publish isClient committed_isClient welcomeShownRef
             initialMessages].
      repeat split; assumption.
    + repeat split; assumption.
  - intros H. rewrite step_crashed. destruct ev; cbn [commits Nat.add fst]; exact H.
  - intros H. rewrite step_crashed. destruct ev; cbn [commits Nat.add fst]; exact H.
Qed.

Lemma commits_app (evs1 evs2 : list Event) :
  commits (evs1 ++ evs2) = commits evs1 + commits evs2.
Proof.
  induction evs1 as [|ev evs1 IH]; [reflexivity|].
  destruct ev; cbn [app commits]; rewrite IH; reflexivity.
Qed.

Lemma run_stage (b0 : Browser) (evs : list Event) (n : nat) (w : World) :
  stage b0 n w -> stage b0 (commits evs + n) (run W send w evs).
Proof.
  revert n w. induction evs as [|ev evs IH]; intros n w Hst; [exact Hst|].
  cbn [run fold_left]. change (ev :: evs) with ([ev] ++ evs).
  rewrite commits_app.
  replace (commits [ev] + commits evs + n) with (commits evs + (commits [ev] + n)) by lia.
  apply IH, step_stage, Hst.
Qed.

(** The welcome flag, for every course of events: it is up exactly when
    the messages read by the first render can be iterated (so that the
    mount effect does not tear the page down), have a [length] of 0, and the
    component has been committed twice.  Nothing else that happens to the
    page (typing, sending, the engine, durations, resets, the clock, more
    renders) has a say in it.  For messages that are an array this is:
    exactly when the array is empty and two commits are behind. *)
Theorem welcome_exactly_when (b0 : Browser) (d : StorageData) (evs : list Event) :
  fst (loadMessagesFromStorage b0) = Normal d ->
  welcome_shown (run W send (NotMounted, b0) evs)
  = iterable (Storage.messages d) && loaded_empty d && Nat.leb 2 (commits evs)
  /\ (forall items, Storage.messages d = JArr items ->
      welcome_shown (run W send (NotMounted, b0) evs)
      = match items with [] => Nat.leb 2 (commits evs) | _ :: _ => false end).
Proof.
  intros Hload. rewrite load_returns in Hload. injection Hload as <-.
  assert (Hflag : welcome_shown (run W send (NotMounted, b0) evs)
                  = iterable (Storage.messages (load_outcome b0))
                    && loaded_empty (load_outcome b0) && Nat.leb 2 (commits evs)).
  { assert (H0 : stage b0 0 (NotMounted, b0)) by reflexivity.
    pose proof (run_stage b0 evs 0 _ H0) as Hst. rewrite Nat.add_0_r in Hst.
    unfold stage, welcome_shown in *.
    destruct (commits evs) as [|[|n]];
      destruct (fst (run W send (NotMounted, b0) evs)) as [ |c|e]; try contradiction.
    - rewrite andb_false_r. reflexivity.
    - destruct Hst as (_ & _ & _ & -> & _). rewrite andb_false_r. reflexivity.
    - rewrite andb_false_r. reflexivity.
    - destruct Hst as (-> & _ & _ & -> & _). rewrite andb_true_r. reflexivity.
    - destruct Hst as [_ ->]. reflexivity. }
  split; [exact Hflag|]. intros items HM. rewrite Hflag.
  unfold iterable, loaded_empty. rewrite HM. destruct items; reflexivity.
Qed.

(** [initialMessages] is what the first render read, for good: no event
    changes it, a reset of the chat and a new transcript of the engine
    included; and a mounted component has [isClient] set. *)
Theorem initial_messages_fixed
    (b0 : Browser) (d : StorageData) (evs : list Event) (c : Chat) (b : Browser) :
  fst (loadMessagesFromStorage b0) = Normal d ->
  run W send (NotMounted, b0) evs = (Mounted c, b) ->
  initialMessages c = Storage.messages d /\ isClient c = true /\ 1 <= commits evs.
Proof.
  intros Hload Hrun. rewrite load_returns in Hload. injection Hload as <-.
  assert (H0 : stage b0 0 (NotMounted, b0)) by reflexivity.
  pose proof (run_stage b0 evs 0 _ H0) as Hst. rewrite Nat.add_0_r, Hrun in Hst.
  unfold stage in Hst. cbn [fst] in Hst.
  destruct (commits evs) as [|[|n]]; [contradiction| |];
    destruct Hst as (_ & Hi & _ & _ & Him); repeat split; try assumption; lia.
Qed.

(** The page is torn down only by its mount effect, and exactly when the
    messages it read cannot be iterated: [setMessages] copies them with a
    spread, which throws a [TypeError] for a number, a boolean or an object
    (a stored blob such as [{"messages":5}]).  For messages that can be
    iterated (every array, every string) no render, effect or handler ever
    throws; for the others the first commit tears the page down, and it
    stays so. *)
Theorem page_torn_down_only_at_mount (b0 : Browser) (d : StorageData) (evs : list Event) :
  fst (loadMessagesFromStorage b0) = Normal d ->
  (iterable (Storage.messages d) = true ->
   (exists b, run W send (NotMounted, b0) evs = (NotMounted, b) /\ commits evs = 0)
   \/ (exists c b, run W send (NotMounted, b0) evs = (Mounted c, b)
                   /\ initialMessages c <> JNull))
  /\ (iterable (Storage.messages d) = false -> 1 <= commits evs ->
      exists b, run W send (NotMounted, b0) evs = (Crashed TypeError, b))
  /\ (forall e b, run W send (NotMounted, b0) evs = (Crashed e, b) ->
      iterable (Storage.messages d) = false /\ 1 <= commits evs)
  /\ (forall items, Storage.messages d = JArr items ->
      forall e b, run W send (NotMounted, b0) evs <> (Crashed e, b)).
Proof.
  intros Hload. rewrite load_returns in Hload. injection Hload as <-.
  assert (H0 : stage b0 0 (NotMounted, b0)) by reflexivity.
  pose proof (run_stage b0 evs 0 _ H0) as Hst. rewrite Nat.add_0_r in Hst.
  pose proof (run_sound W send evs (NotMounted, b0) I) as Hs.
  unfold stage, sound in *.
  destruct (run W send (NotMounted, b0) evs) as [[ |c|e] b]; cbn [fst] in *.
  - destruct (commits evs) as [|n]; [|destruct n; contradiction].
    split; [intros _; left; exists b; split; reflexivity|].
    split; [intros _ Hn; lia|]. split; discriminate.
  - assert (Hit : iterable (Storage.messages (load_outcome b0)) = true)
      by (destruct (commits evs) as [|[|n]]; [contradiction| |]; apply Hst).
    split; [intros _; right; exists c, b; split; [reflexivity | exact Hs]|].
    split; [intros Hno; congruence|]. split; discriminate.
  - assert (Hcr : e = TypeError
                  /\ iterable (Storage.messages (load_outcome b0)) = false
                  /\ 1 <= commits evs)
      by (destruct (commits evs) as [|[|n]]; [contradiction| |];
          destruct Hst as [-> Hno]; repeat split; try exact Hno; lia).
    destruct Hcr as (-> & Hno & Hn).
    split; [intros Hyes; congruence|].
    split; [intros _ _; exists b; reflexivity|].
    split.
    + intros e' b' _. split; assumption.
    + intros items HM e' b' _. unfold iterable in Hno. rewrite HM in Hno. discriminate Hno.
Qed.


(** ** Autosave *)

Lemma step_healthy (w : World) (ev : Event) :
  sound w -> healthy (snd w) = true -> healthy (snd (step W send w ev)) = true.
Proof.
  intros Hs Hh. rewrite (healthy_outside_slot _ _ (step_outside_slot w ev Hs)). exact Hh.
Qed.

(** The save effect of a commit leaves the slot in step with the
    component. *)
Lemma after_save_effect_slot (c : Chat) (b : Browser) :
  healthy b = true -> isClient c = true ->
  save_deps_changed c = true \/ slot_holds c b ->
  slot_holds c (after_save_effect c b).
Proof.
  intros Hh Hi Hsync. unfold slot_holds, after_save_effect. rewrite Hi, andb_true_r.
  destruct (save_deps_changed c).
  - apply healthy_save_slot.
    rewrite (healthy_outside_slot _ _ (read_stored_outside_slot b)). exact Hh.
  - destruct Hsync as [Hx|Hx]; [discriminate|].
    destruct (read_stored_frame b) as (_ & _ & _ & _ & _ & ->). exact Hx.
Qed.

Lemma step_in_sync (w : World) (ev : Event) : in_sync w -> in_sync (step W send w ev).
Proof.
  destruct w as [[ |c|e] b]; unfold in_sync; cbn [fst snd]; intros [Hh Hm];
    [ | |split; [apply step_healthy; [exact I | exact Hh]|];
         rewrite step_crashed; destruct ev; exact I].
  - split; [apply step_healthy; [exact I | exact Hh]|].
    rewrite step_not_mounted. destruct ev; cbn [fst snd]; try exact I.
    unfold first_commit. destruct (iterate _); cbn [fst]; [|exact I].
    split; [reflexivity|]. split; [apply load_outcome_messages|]. left. reflexivity.
  - destruct Hm as (Hi & Hnn & Hsync).
    split; [apply step_healthy; [exact Hnn | exact Hh]|].
    destruct ev; cbn [step fst snd].
    + rewrite commit_mounted by exact Hnn.
      destruct (welcome_fires c b); cbn [settle fst snd].
      * split; [exact Hi|]. split; [exact Hnn|]. left. reflexivity.
      * split; [exact Hi|]. split; [exact Hnn|]. right.
        apply (after_save_effect_slot c b Hh Hi Hsync).
    + split; [exact Hi|]. split; [exact Hnn|]. exact Hsync.
    + unfold handleSubmit. destruct (formSchema (form_message c)).
      * split; [exact Hi|]. split; [exact Hnn|]. left. reflexivity.
      * split; [exact Hi|]. split; [exact Hnn|]. exact Hsync.
    + split; [exact Hi|]. split; [exact Hnn|]. left. reflexivity.
    + split; [exact Hi|]. split; [exact Hnn|]. left.
      unfold save_deps_changed, handleDurationChange. cbn [setDurations fresh_durations].
      rewrite orb_true_r. reflexivity.
    + rewrite clearChat_result. cbn [fst snd].
      split; [exact Hi|]. split; [exact Hnn|]. left. reflexivity.
    + split; [exact Hi|]. split; [exact Hnn|]. exact Hsync.
Qed.

Lemma run_in_sync (evs : list Event) (w : World) : in_sync w -> in_sync (run W send w evs).
Proof.
  revert w. induction evs as [|ev evs IH]; intros w Hw; [exact Hw|].
  cbn [run fold_left]. apply IH, step_in_sync, Hw.
Qed.

(** The commit of a component in step with its slot: where the welcome
    effect does not fire, the component keeps its transcript and its
    durations and the slot holds their text; where it fires, the slot holds
    the welcome transcript with the empty map. *)
Lemma commit_in_sync (c0 : Chat) (b1 : Browser) :
  in_sync (Mounted c0, b1) ->
  exists c b,
    step W send (Mounted c0, b1) EvRender = (Mounted c, b)
    /\ injects W send (Mounted c0, b1) EvRender = welcome_fires c0 b1
    /\ localStorage b !! STORAGE_KEY
       = Some (blob (messages c) (if welcome_fires c0 b1 then JObj [] else durations c))
    /\ (welcome_fires c0 b1 = false ->
        messages c = messages c0 /\ durations c = durations c0).
Proof.
  intros (Hh & Hi & Hnn & Hsync). cbn [fst snd] in *.
  assert (Hinj : injects W send (Mounted c0, b1) EvRender = welcome_fires c0 b1).
  { pose proof (injects_iff_fires W send c0 b1 EvRender Hnn) as Hiff.
    destruct (welcome_fires c0 b1).
    - apply Hiff. split; reflexivity.
    - destruct (injects W send (Mounted c0, b1) EvRender); [|reflexivity].
      destruct (proj1 Hiff eq_refl) as [_ Hx]. discriminate Hx. }
  cbn [step]. rewrite commit_mounted by exact Hnn.
  destruct (welcome_fires c0 b1) eqn:Hf; cbn [settle]; eexists _, _;
    (split; [reflexivity|]); (split; [exact Hinj|]).
  - split; [|discriminate].
    cbn [set_welcomeShownRef publish messages].
    apply healthy_save_slot.
    rewrite (healthy_outside_slot _ _ (after_save_effect_outside_slot c0 b1)). exact Hh.
  - split; [|intros _; split; reflexivity].
    apply (after_save_effect_slot c0 b1 Hh Hi Hsync).
Qed.

(** Autosave.  With healthy storage, every commit of the mounted
    component leaves in the slot the text of what the component holds: the
    transcript and the durations, in whatever way they changed since the
    last commit (the engine, a message sent, a duration recorded, a reset).
    The one exception is the commit that injects the welcome message: it
    leaves the welcome transcript with the empty map. *)
Theorem autosave_in_sync (b0 : Browser) (evs : list Event) (c0 : Chat) (b1 : Browser) :
  healthy b0 = true ->
  run W send (NotMounted, b0) evs = (Mounted c0, b1) ->
  exists c b,
    step W send (Mounted c0, b1) EvRender = (Mounted c, b)
    /\ localStorage b !! STORAGE_KEY
       = Some (blob (messages c)
                 (if injects W send (Mounted c0, b1) EvRender then JObj [] else durations c))
    /\ (injects W send (Mounted c0, b1) EvRender = false ->
        messages c = messages c0 /\ durations c = durations c0).
Proof.
  intros Hh Hrun.
  assert (Hsync : in_sync (Mounted c0, b1)).
  { rewrite <- Hrun. apply run_in_sync. split; [exact Hh | exact I]. }
  destruct (commit_in_sync c0 b1 Hsync) as (c & b & Hstep & Hinj & Hslot & Hkeep).
  exists c, b. rewrite Hinj. repeat split; try assumption; apply Hkeep; assumption.
Qed.

(** The commit after the welcome writes the durations back: the slot then
    holds the welcome transcript together with the durations that were
    restored, which the save of the welcome effect had left out. *)
Theorem durations_saved_after_welcome (b0 : Browser) (d : StorageData) :
  healthy b0 = true ->
  fst (loadMessagesFromStorage b0) = Normal d ->
  Storage.messages d = JArr [] ->
  localStorage (snd (run W send (NotMounted, b0) [EvRender; EvRender; EvRender]))
  !! STORAGE_KEY
  = Some (blob (JArr [welcomeMessage W (clock b0)]) (Storage.durations d)).
Proof.
  intros Hh Hload HM. rewrite load_returns in Hload. injection Hload as <-.
  assert (Hsync : in_sync (run W send (NotMounted, b0) [EvRender; EvRender]))
    by (apply run_in_sync; split; [exact Hh | exact I]).
  change [EvRender; EvRender; EvRender] with ([EvRender; EvRender] ++ [EvRender]).
  rewrite run_app. rewrite (two_renders_welcome W send b0 HM) in *.
  destruct (commit_in_sync _ _ Hsync) as (c & b & Hstep & _ & Hslot & Hkeep).
  cbn [run fold_left]. rewrite Hstep. cbn [snd]. rewrite Hslot.
  assert (Hf : welcome_fires (welcomed_chat W (load_outcome b0) b0)
                 (snd (saveMessagesToStorage (JArr [welcomeMessage W (clock b0)]) (JObj [])
                         (browser_before_welcome (load_outcome b0) b0))) = false)
    by reflexivity.
  rewrite Hf in *. destruct (Hkeep eq_refl) as [-> ->]. reflexivity.
Qed.

(** ** Reloading the page *)

Lemma healthy_readable (b : Browser) : healthy b = true -> readable b = true.
Proof. unfold healthy. intros H. apply andb_prop in H as [H _]. exact H. Qed.

(** What the session leaves in the slot is what the next page starts
    from.  After a commit that did not inject the welcome message, with the
    component holding a transcript [ms] and a duration map [ds], [load]
    returns that record, and a page mounted on the browser as it is then
    starts with the transcript [ms] and the durations [ds]. *)
Theorem reload_restores_session
    (b0 : Browser) (evs : list Event) (c0 : Chat) (b1 : Browser)
    (ms : list JsVal) (ds : list (string * JsVal)) :
  healthy b0 = true ->
  run W send (NotMounted, b0) evs = (Mounted c0, b1) ->
  injects W send (Mounted c0, b1) EvRender = false ->
  messages c0 = JArr ms -> durations c0 = JObj ds ->
  wf (JArr ms) = true -> wf (JObj ds) = true ->
  fst (loadMessagesFromStorage (snd (step W send (Mounted c0, b1) EvRender)))
  = Normal {| Storage.messages := JArr ms; Storage.durations := JObj ds |}
  /\ exists c' b',
       step W send (NotMounted, snd (step W send (Mounted c0, b1) EvRender)) EvRender
       = (Mounted c', b')
       /\ messages c' = JArr ms /\ durations c' = JObj ds /\ initialMessages c' = JArr ms.
Proof.
  intros Hh Hrun Hinj Hms Hds Hwf1 Hwf2.
  assert (Hsync : in_sync (Mounted c0, b1)).
  { rewrite <- Hrun. apply run_in_sync. split; [exact Hh | exact I]. }
  pose proof (step_healthy (Mounted c0, b1) EvRender (proj1 (proj2 (proj2 Hsync)))
                (proj1 Hsync)) as Hh'.
  destruct (commit_in_sync c0 b1 Hsync) as (c & b & Hstep & Hinj' & Hslot & Hkeep).
  rewrite Hinj in Hinj'. rewrite <- Hinj' in Hslot. destruct (Hkeep (eq_sym Hinj')) as [Hm Hd].
  rewrite Hm, Hd, Hms, Hds in Hslot. rewrite Hstep in *. cbn [snd] in *.
  assert (Hout : load_outcome b
                 = {| Storage.messages := JArr ms; Storage.durations := JObj ds |})
    by (apply load_outcome_blob; try reflexivity; try assumption;
        apply healthy_readable, Hh').
  split; [rewrite load_returns, Hout; reflexivity|].
  rewrite step_not_mounted, Hout. eexists _, _. split; [reflexivity|]. repeat split.
Qed.

(** A page opened on a transcript that is not empty: in every state it
    reaches the welcome effect does nothing, and renders leave the
    transcript in place. *)
Lemma restored_quiet (x : JsVal) (xs : list JsVal) (b : Browser) (evs : list Event) :
  Storage.messages (load_outcome b) = JArr (x :: xs) ->
  (forall c b', run W send (NotMounted, b) evs = (Mounted c, b') ->
     initialMessages c = JArr (x :: xs)
     /\ forall r, r_initialMessages r = initialMessages c ->
                  welcome_effect W r c b' = (Normal c, b'))
  /\ (forall n, exists c b',
        run W send (NotMounted, b) (repeat EvRender (S n)) = (Mounted c, b')
        /\ messages c = JArr (x :: xs)).
Proof.
  intros HM.
  assert (H0 : restored (JArr (x :: xs)) (NotMounted, b)) by exact HM.
  destruct (run_restored W send x xs evs _ H0) as [Hr _]. split.
  - intros c b' Hrun. rewrite Hrun in Hr. destruct Hr as [Hi _].
    split; [exact Hi|]. intros r Hri.
    rewrite welcome_effect_cases by (rewrite Hri, Hi; discriminate).
    rewrite (welcome_due_nonempty r c x xs) by (rewrite Hri; exact Hi).
    reflexivity.
  - intros n. cbn [repeat run fold_left].
    rewrite step_not_mounted, (first_commit_array _ _ HM).
    destruct (renders_keep_restored W send x xs n (mounted_chat (load_outcome b))
                (snd (read_stored b))) as (c & b' & Hrun & _ & Hm); try exact HM.
    exists c, b'. split; assumption.
Qed.

(** The welcome message is shown once per storage, not once per page
    load: the welcome transcript that was saved is what the next page
    loads, and that page never injects a welcome message.  Whatever happens
    to it, its flag stays down, its welcome effect changes neither the
    component nor the browser in any state it reaches, and its renders
    leave the stored welcome transcript in place. *)
Theorem welcome_not_repeated_on_reload (b0 : Browser) (d : StorageData) (evs : list Event) :
  healthy b0 = true ->
  fst (loadMessagesFromStorage b0) = Normal d ->
  Storage.messages d = JArr [] ->
  fst (loadMessagesFromStorage (snd (run W send (NotMounted, b0) [EvRender; EvRender])))
  = Normal {| Storage.messages := JArr [welcomeMessage W (clock b0)];
              Storage.durations := JObj [] |}
  /\ injections W send
       (NotMounted, snd (run W send (NotMounted, b0) [EvRender; EvRender])) evs = 0
  /\ welcome_shown
       (run W send (NotMounted, snd (run W send (NotMounted, b0) [EvRender; EvRender])) evs)
     = false
  /\ (forall c b,
        run W send (NotMounted, snd (run W send (NotMounted, b0) [EvRender; EvRender])) evs
        = (Mounted c, b) ->
        initialMessages c = JArr [welcomeMessage W (clock b0)]
        /\ forall r, r_initialMessages r = initialMessages c ->
                     welcome_effect W r c b = (Normal c, b))
  /\ (forall n, exists c b,
        run W send (NotMounted, snd (run W send (NotMounted, b0) [EvRender; EvRender]))
          (repeat EvRender (S n))
        = (Mounted c, b)
        /\ messages c = JArr [welcomeMessage W (clock b0)]).
Proof.
  intros Hh Hload HM. rewrite load_returns in Hload. injection Hload as <-.
  rewrite (two_renders_welcome W send b0 HM). cbn [snd]. rewrite load_returns.
  assert (Hh' : healthy (browser_before_welcome (load_outcome b0) b0) = true).
  { unfold browser_before_welcome.
    rewrite (healthy_outside_slot _ _ (save_outside_slot _ _ _)).
    rewrite (healthy_outside_slot _ _ (read_stored_outside_slot _)).
    rewrite (healthy_outside_slot _ _ (read_stored_outside_slot _)). exact Hh. }
  destruct (load_after_write (JArr [welcomeMessage W (clock b0)]) (JObj [])
              (browser_before_welcome (load_outcome b0) b0)) as [_ Hout];
    try reflexivity; [apply healthy_writable, Hh'|].
  rewrite Hout. split; [reflexivity|].
  destruct (run_restored W send (welcomeMessage W (clock b0)) [] evs
              (NotMounted,
               snd (saveMessagesToStorage (JArr [welcomeMessage W (clock b0)]) (JObj [])
                      (browser_before_welcome (load_outcome b0) b0))))
    as [Hr Hn].
  { unfold restored. cbn [fst snd]. rewrite Hout. reflexivity. }
  split; [exact Hn|]. split.
  - unfold restored in Hr. unfold welcome_shown.
    destruct (fst (run W send _ evs)) as [ |c|e]; [reflexivity | tauto | reflexivity].
  - apply restored_quiet. rewrite Hout. reflexivity.
Qed.

(** A reset empties the slot; the welcome message, which the reset does
    not bring back in the running page, is injected again by the next page
    that is loaded. *)
Theorem reset_then_reload_welcomes (c : Chat) (b : Browser) :
  healthy b = true ->
  exists c2 b2,
    run W send (NotMounted, snd (clearChat c b)) [EvRender; EvRender] = (Mounted c2, b2)
    /\ welcomeShownRef c2 = true
    /\ messages c2 = JArr [welcomeMessage W (clock b)].
Proof.
  intros Hh.
  assert (Hout : load_outcome (snd (clearChat c b)) = empty_record).
  { rewrite clearChat_result. cbn [snd].
    destruct (load_after_write (JArr []) (JObj []) b) as [_ Hout]; try reflexivity;
      [apply healthy_writable, Hh|].
    transitivity (load_outcome (snd (saveMessagesToStorage (JArr []) (JObj []) b)));
      [apply load_outcome_ext; reflexivity | exact Hout]. }
  assert (HM : Storage.messages (load_outcome (snd (clearChat c b))) = JArr [])
    by (rewrite Hout; reflexivity).
  rewrite (two_renders_welcome W send _ HM). eexists _, _. split; [reflexivity|].
  split; [reflexivity|]. cbn [welcomed_chat messages]. rewrite clearChat_result.
  cbn [snd push_toast clock]. destruct (save_frame (JArr []) (JObj []) b) as (-> & _).
  reflexivity.
Qed.

End Lifetime.

(** ** Sending a message *)

(** [form.handleSubmit(onSubmit)].  A message that is empty or longer than
    2000 UTF-16 units is not sent: the component is left as it is, the text
    still in the form.  A valid message is handed to the engine and the
    form is reset, with the durations, the welcome flag and the initial
    messages untouched; so a second submit right after sends nothing.  The
    handler itself writes nothing to the browser: saving is left to the
    save effect of the next commit. *)
Theorem submit_sends_once
    (W : string) (send : string -> JsVal -> JsVal) (c : Chat) (b : Browser) :
  (utf16_length (form_message c) = 0%N \/ (2000 < utf16_length (form_message c))%N ->
   handleSubmit send c = c)
  /\ ((1 <= utf16_length (form_message c) <= 2000)%N ->
      messages (handleSubmit send c) = send (form_message c) (messages c)
      /\ form_message (handleSubmit send c) = ""
      /\ durations (handleSubmit send c) = durations c
      /\ welcomeShownRef (handleSubmit send c) = welcomeShownRef c
      /\ initialMessages (handleSubmit send c) = initialMessages c)
  /\ handleSubmit send (handleSubmit send c) = handleSubmit send c
  /\ snd (step W send (Mounted c, b) EvSubmit) = b.
Proof.
  split; [|split; [|split]].
  - intros Hbad. unfold handleSubmit, formSchema.
    destruct (N.leb_spec 1 (utf16_length (form_message c))) as [H1|H1];
      destruct (N.leb_spec (utf16_length (form_message c)) 2000) as [H2|H2];
      try reflexivity.
    exfalso. destruct Hbad as [H0|H0]; lia.
  - intros [H1 H2]. unfold handleSubmit, formSchema.
    apply N.leb_le in H1, H2. rewrite H1, H2. cbn [andb]. repeat split.
  - unfold handleSubmit. destruct (formSchema (form_message c)) eqn:Hv.
    + cbn [onSubmit set_form_message form_message]. reflexivity.
    + rewrite Hv. reflexivity.
  - reflexivity.
Qed.

(** ** Concrete lives of the page *)

(** A typed message is sent and the form is emptied; sent again, nothing
    more happens. *)
Lemma submit_sends_once_witness :
  messages
    (handleSubmit appending_engine
       (set_form_message "Show me red sarees" (mounted_chat empty_record)))
  = JArr [JObj [("role", JStr "user");
                ("parts", JArr [JObj [("type", JStr "text");
                                      ("text", JStr "Show me red sarees")]])]]
  /\ form_message
       (handleSubmit appending_engine
          (set_form_message "Show me red sarees" (mounted_chat empty_record)))
     = "".
Proof.
  destruct (submit_sends_once "Hello" appending_engine
              (set_form_message "Show me red sarees" (mounted_chat empty_record))
              fresh_browser) as (_ & Hvalid & _).
  destruct Hvalid as (Hm & Hf & _); [vm_compute; split; discriminate|].
  split; [exact Hm | exact Hf].
Defined.

(** The key of somebody else is still there after a life of the page. *)
Lemma page_touches_only_chat_key_witness :
  localStorage
    (snd (run "Hello" appending_engine (NotMounted, browser_with_theme)
            [EvRender; EvRender; EvClearChat; EvRender]))
  !! "theme"
  = localStorage browser_with_theme !! "theme".
Proof.
  apply (page_touches_only_chat_key "Hello" appending_engine browser_with_theme
           [EvRender; EvRender; EvClearChat; EvRender] "theme").
  discriminate.
Defined.

(** With nothing stored the flag is up after the second commit, a reset
    in between or not.  Messages that are no array but have a [length] of 0
    are not welcomed: the mount effect cannot iterate them. *)
Lemma welcome_exactly_when_witness :
  welcome_shown
    (run "Hello" appending_engine (NotMounted, fresh_browser)
       [EvRender; EvClearChat; EvRender])
  = true
  /\ fst (loadMessagesFromStorage (browser_holding blob_length_zero))
     = Normal {| Storage.messages := JObj [("length", JNum 0 0)];
                 Storage.durations := JObj [] |}
  /\ welcome_shown
       (run "Hello" appending_engine (NotMounted, browser_holding blob_length_zero)
          [EvRender; EvClearChat; EvRender])
     = false.
Proof.
  split; [|split; [vm_compute; reflexivity|]].
  - destruct (welcome_exactly_when "Hello" appending_engine fresh_browser empty_record
                [EvRender; EvClearChat; EvRender]) as [_ Harr];
      [vm_compute; reflexivity|].
    apply (Harr []). reflexivity.
  - destruct (welcome_exactly_when "Hello" appending_engine
                (browser_holding blob_length_zero)
                {| Storage.messages := JObj [("length", JNum 0 0)];
                   Storage.durations := JObj [] |}
                [EvRender; EvClearChat; EvRender]) as [Hflag _];
      [vm_compute; reflexivity|].
    exact Hflag.
Defined.

(** The blob [{"messages":{"length":0}}] tears the page down at its first
    commit; nothing stored does not. *)
Lemma page_torn_down_only_at_mount_witness :
  run "Hello" appending_engine (NotMounted, browser_holding blob_length_zero)
    [EvRender; EvRender]
  = (Crashed TypeError,
     snd (run "Hello" appending_engine (NotMounted, browser_holding blob_length_zero)
            [EvRender; EvRender]))
  /\ iterable (JObj [("length", JNum 0 0)]) = false.
Proof.
  assert (Hrun : run "Hello" appending_engine (NotMounted, browser_holding blob_length_zero)
                   [EvRender; EvRender]
                 = (Crashed TypeError,
                    snd (run "Hello" appending_engine
                           (NotMounted, browser_holding blob_length_zero)
                           [EvRender; EvRender])))
    by (vm_compute; reflexivity).
  split; [exact Hrun|].
  destruct (page_torn_down_only_at_mount "Hello" appending_engine
              (browser_holding blob_length_zero)
              {| Storage.messages := JObj [("length", JNum 0 0)];
                 Storage.durations := JObj [] |}
              [EvRender; EvRender]) as (_ & _ & Hcrashed & _);
    [vm_compute; reflexivity|].
  exact (proj1 (Hcrashed _ _ Hrun)).
Defined.



(** After a reset and a new transcript of the engine, the initial
    messages are still the ones that were restored. *)
Lemma initial_messages_fixed_witness :
  run "Hello" appending_engine (NotMounted, browser_holding blob_messages_only)
    [EvRender; EvRender; EvClearChat; EvEngine (JArr [JNum 8 0])]
  = (Mounted (publish (JArr [JNum 8 0])
                (setDurations (fun _ => JObj [])
                   (publish (JArr [])
                      (commit_deps
                         (mounted_chat {| Storage.messages := JArr [JNum 7 0];
                                          Storage.durations := JObj [] |}))))),
     snd (run "Hello" appending_engine (NotMounted, browser_holding blob_messages_only)
            [EvRender; EvRender; EvClearChat; EvEngine (JArr [JNum 8 0])]))
  /\ initialMessages
       (publish (JArr [JNum 8 0])
          (setDurations (fun _ => JObj [])
             (publish (JArr [])
                (commit_deps
                   (mounted_chat {| Storage.messages := JArr [JNum 7 0];
                                    Storage.durations := JObj [] |})))))
     = JArr [JNum 7 0].
Proof.
  assert (Hrun : run "Hello" appending_engine (NotMounted, browser_holding blob_messages_only)
                   [EvRender; EvRender; EvClearChat; EvEngine (JArr [JNum 8 0])]
                 = (Mounted (publish (JArr [JNum 8 0])
                               (setDurations (fun _ => JObj [])
                                  (publish (JArr [])
                                     (commit_deps
                                        (mounted_chat
                                           {| Storage.messages := JArr [JNum 7 0];
                                              Storage.durations := JObj [] |}))))),
                    snd (run "Hello" appending_engine
                           (NotMounted, browser_holding blob_messages_only)
                           [EvRender; EvRender; EvClearChat; EvEngine (JArr [JNum 8 0])])))
    by (vm_compute; reflexivity).
  split; [exact Hrun|].
  apply (initial_messages_fixed "Hello" appending_engine
           (browser_holding blob_messages_only)
           {| Storage.messages := JArr [JNum 7 0]; Storage.durations := JObj [] |}
           _ _ _ ltac:(vm_compute; reflexivity) Hrun).
Defined.

(** The commit after a message was sent saves the welcome message and the
    user's message. *)
Lemma autosave_in_sync_witness :
  run "Hello" appending_engine (NotMounted, fresh_browser) events_until_submit
  = (Mounted chat_after_submit,
     snd (run "Hello" appending_engine (NotMounted, fresh_browser) events_until_submit))
  /\ exists c b,
       step "Hello" appending_engine
         (Mounted chat_after_submit,
          snd (run "Hello" appending_engine (NotMounted, fresh_browser) events_until_submit))
         EvRender
       = (Mounted c, b)
       /\ localStorage b !! STORAGE_KEY
          = Some (blob (messages c)
                    (if injects "Hello" appending_engine
                          (Mounted chat_after_submit,
                           snd (run "Hello" appending_engine (NotMounted, fresh_browser)
                                  events_until_submit))
                          EvRender
                     then JObj [] else durations c))
       /\ (injects "Hello" appending_engine
             (Mounted chat_after_submit,
              snd (run "Hello" appending_engine (NotMounted, fresh_browser)
                     events_until_submit))
             EvRender
           = false ->
           messages c = messages chat_after_submit
           /\ durations c = durations chat_after_submit).
Proof.
  assert (Hrun : run "Hello" appending_engine (NotMounted, fresh_browser) events_until_submit
                 = (Mounted chat_after_submit,
                    snd (run "Hello" appending_engine (NotMounted, fresh_browser)
                           events_until_submit)))
    by (vm_compute; reflexivity).
  split; [exact Hrun|].
  apply (autosave_in_sync "Hello" appending_engine fresh_browser events_until_submit
           chat_after_submit _ ltac:(reflexivity) Hrun).
Defined.

(** The durations [{a: 10}] restored next to an empty transcript are in
    the slot again after the third commit. *)
Lemma durations_saved_after_welcome_witness :
  localStorage
    (snd (run "Hello" appending_engine (NotMounted, browser_holding blob_durations_only)
            [EvRender; EvRender; EvRender]))
  !! STORAGE_KEY
  = Some (blob (JArr [welcomeMessage "Hello" 0]) (JObj [("a", JNum 10 0)])).
Proof.
  apply (durations_saved_after_welcome "Hello" appending_engine
           (browser_holding blob_durations_only)
           {| Storage.messages := JArr []; Storage.durations := JObj [("a", JNum 10 0)] |});
    vm_compute; reflexivity.
Defined.

(** The page that is loaded after the message was sent and saved starts
    with the welcome message and the user's message. *)
Lemma reload_restores_session_witness :
  run "Hello" appending_engine (NotMounted, fresh_browser) events_until_submit
  = (Mounted chat_after_submit,
     snd (run "Hello" appending_engine (NotMounted, fresh_browser) events_until_submit))
  /\ fst (loadMessagesFromStorage
            (snd (step "Hello" appending_engine
                    (Mounted chat_after_submit,
                     snd (run "Hello" appending_engine (NotMounted, fresh_browser)
                            events_until_submit))
                    EvRender)))
     = Normal {| Storage.messages :=
                   JArr [welcomeMessage "Hello" 1700000000000;
                         JObj [("role", JStr "user");
                               ("parts", JArr [JObj [("type", JStr "text");
                                                     ("text", JStr "Show me red sarees")]])]];
                 Storage.durations := JObj [] |}.
Proof.
  assert (Hrun : run "Hello" appending_engine (NotMounted, fresh_browser) events_until_submit
                 = (Mounted chat_after_submit,
                    snd (run "Hello" appending_engine (NotMounted, fresh_browser)
                           events_until_submit)))
    by (vm_compute; reflexivity).
  split; [exact Hrun|].
  apply (reload_restores_session "Hello" appending_engine fresh_browser events_until_submit
           chat_after_submit _
           [welcomeMessage "Hello" 1700000000000;
            JObj [("role", JStr "user");
                  ("parts", JArr [JObj [("type", JStr "text");
                                        ("text", JStr "Show me red sarees")]])]]
           [] ltac:(reflexivity) Hrun);
    vm_compute; reflexivity.
Defined.

(** A page loaded on the storage the welcome left behind shows the stored
    welcome message and injects none of its own. *)
Lemma welcome_not_repeated_on_reload_witness :
  injections "Hello" appending_engine
    (NotMounted,
     snd (run "Hello" appending_engine (NotMounted, fresh_browser) [EvRender; EvRender]))
    [EvRender; EvRender; EvRender]
  = 0
  /\ exists c b,
       run "Hello" appending_engine
         (NotMounted,
          snd (run "Hello" appending_engine (NotMounted, fresh_browser) [EvRender; EvRender]))
         (repeat EvRender 3)
       = (Mounted c, b)
       /\ messages c = JArr [welcomeMessage "Hello" (clock fresh_browser)].
Proof.
  destruct (welcome_not_repeated_on_reload "Hello" appending_engine fresh_browser
              empty_record [EvRender; EvRender; EvRender])
    as (_ & Hn & _ & _ & Hkept); [vm_compute; reflexivity.. |].
  split; [exact Hn | exact (Hkept 2)].
Defined.

(** A reset of a restored chat, then a new page: the welcome message is
    there again. *)
Lemma reset_then_reload_welcomes_witness :
  exists c2 b2,
    run "Hello" appending_engine
      (NotMounted,
       snd (clearChat
              (mounted_chat {| Storage.messages := JArr [JNum 1 0];
                               Storage.durations := JObj [] |})
              (browser_holding blob_one_message)))
      [EvRender; EvRender]
    = (Mounted c2, b2)
    /\ welcomeShownRef c2 = true
    /\ messages c2 = JArr [welcomeMessage "Hello" (clock (browser_holding blob_one_message))].
Proof.
  apply (reset_then_reload_welcomes "Hello" appending_engine
           (mounted_chat {| Storage.messages := JArr [JNum 1 0];
                            Storage.durations := JObj [] |})
           (browser_holding blob_one_message)).
  reflexivity.
Defined.

(* ===================================================================== *)
(** * Opening the page again *)
(* ===================================================================== *)

Section Reopen.

Variable W : string.
Variable send : string -> JsVal -> JsVal.

(** Renders of a component that holds the restored record [M], [D], with
    the slot holding the text of that record: nothing moves. *)
Lemma renders_in_place (x : JsVal) (xs : list JsVal) (D : JsVal) (n : nat)
    (c : Chat) (b : Browser) :
  in_sync (Mounted c, b) ->
  initialMessages c = JArr (x :: xs) -> messages c = JArr (x :: xs) -> durations c = D ->
  (save_deps_changed c = true ->
   localStorage b !! STORAGE_KEY = Some (blob (JArr (x :: xs)) D)) ->
  exists c' b',
    run W send (Mounted c, b) (repeat EvRender n) = (Mounted c', b')
    /\ messages c' = JArr (x :: xs) /\ durations c' = D
    /\ localStorage b' !! STORAGE_KEY = Some (blob (JArr (x :: xs)) D).
Proof.
  revert c b. induction n as [|n IH]; intros c b Hsync Hi Hm Hd Hslot.
  - exists c, b. split; [reflexivity|]. split; [exact Hm|]. split; [exact Hd|].
    destruct Hsync as (_ & _ & _ & [Hdue | Hholds]); [exact (Hslot Hdue)|].
    unfold slot_holds in Hholds. rewrite Hm, Hd in Hholds. exact Hholds.
  - cbn [repeat run fold_left].
    destruct (commit_in_sync W send c b Hsync) as (c1 & b1 & Hstep & _ & Hs1 & Hkeep).
    rewrite (welcome_fires_nonempty c b x xs Hi) in Hs1, Hkeep.
    destruct (Hkeep eq_refl) as [Hm1 Hd1]. rewrite Hm1, Hd1, Hm, Hd in Hs1.
    pose proof (step_in_sync W send (Mounted c, b) EvRender Hsync) as Hsync1.
    assert (Hnn : initialMessages c <> JNull) by (rewrite Hi; discriminate).
    destruct (step_mounted W send c b EvRender Hnn) as (c2 & b2 & Hstep2 & Hi2 & _).
    rewrite Hstep in Hstep2. injection Hstep2 as <- <-.
    rewrite Hstep in *.
    apply IH; try assumption; try congruence.
Qed.

(** Opening the page on a record it saved itself, with a transcript that
    is not empty, and rendering any number of times, leaves the storage
    exactly as it was: the mount only reads, and what the save effect
    writes afterwards is the text that was there.  From the mount on the
    component holds that transcript and those durations. *)
Theorem reopen_keeps_record
    (b0 : Browser) (x : JsVal) (xs : list JsVal) (ds : list (string * JsVal)) (n : nat) :
  healthy b0 = true ->
  wf (JArr (x :: xs)) = true -> wf (JObj ds) = true ->
  localStorage b0 !! STORAGE_KEY = Some (blob (JArr (x :: xs)) (JObj ds)) ->
  localStorage (snd (run W send (NotMounted, b0) (repeat EvRender n))) = localStorage b0
  /\ (1 <= n ->
      exists c b, run W send (NotMounted, b0) (repeat EvRender n) = (Mounted c, b)
                  /\ messages c = JArr (x :: xs) /\ durations c = JObj ds).
Proof.
  intros Hh Hwf1 Hwf2 Hslot.
  assert (Hout : load_outcome b0
                 = {| Storage.messages := JArr (x :: xs); Storage.durations := JObj ds |})
    by (apply load_outcome_blob; try reflexivity; try assumption;
        apply healthy_readable, Hh).
  destruct n as [|n]; [split; [reflexivity | lia]|].
  assert (Hkey : exists c b,
             run W send (NotMounted, b0) (repeat EvRender (S n)) = (Mounted c, b)
             /\ messages c = JArr (x :: xs) /\ durations c = JObj ds
             /\ localStorage b !! STORAGE_KEY = Some (blob (JArr (x :: xs)) (JObj ds))).
  { cbn [repeat run fold_left]. rewrite step_not_mounted, Hout.
    apply renders_in_place; try reflexivity.
    - split; [|split; [reflexivity|split; [discriminate|left; reflexivity]]].
      cbn [snd]. rewrite (healthy_outside_slot _ _ (read_stored_outside_slot b0)). exact Hh.
    - intros _. destruct (read_stored_frame b0) as (_ & _ & _ & _ & _ & ->). exact Hslot. }
  destruct Hkey as (c & b & Hrun & Hm & Hd & Hs).
  split; [|intros _; exists c, b; repeat split; assumption].
  apply map_eq. intros k. destruct (String.eqb_spec k STORAGE_KEY) as [->|Hne].
  - rewrite Hrun. cbn [snd]. rewrite Hs, Hslot. reflexivity.
  - destruct (run_outside_slot W send (repeat EvRender (S n)) (NotMounted, b0) I)
      as (_ & _ & _ & H).
    exact (H k Hne).
Qed.

End Reopen.

(** The page opened three times on the record [[7]], [{}] it saved. *)
Lemma reopen_keeps_record_witness :
  localStorage
    (snd (run "Hello" appending_engine
            (NotMounted, browser_holding (blob (JArr [JNum 7 0]) (JObj [])))
            (repeat EvRender 3)))
  = localStorage (browser_holding (blob (JArr [JNum 7 0]) (JObj []))).
Proof.
  apply (reopen_keeps_record "Hello" appending_engine
           (browser_holding (blob (JArr [JNum 7 0]) (JObj []))) (JNum 7 0) [] [] 3);
    vm_compute; reflexivity.
Defined.

(* ===================================================================== *)
(** * Durations recorded one after the other *)
(* ===================================================================== *)

Lemma precedes_asym (k k' : string) : precedes k k' = true -> precedes k' k = false.
Proof.
  unfold precedes. destruct (array_index k) as [i|], (array_index k') as [i'|];
    try discriminate; try reflexivity.
  intros H. apply N.ltb_lt in H. apply N.ltb_ge. lia.
Qed.

Lemma precedes_trans (k1 k2 k3 : string) :
  precedes k1 k2 = true -> precedes k2 k3 = true -> precedes k1 k3 = true.
Proof.
  unfold precedes.
  destruct (array_index k1) as [i1|], (array_index k2) as [i2|], (array_index k3) as [i3|];
    try discriminate; try reflexivity.
  intros H1 H2. apply N.ltb_lt in H1, H2. apply N.ltb_lt. lia.
Qed.

Lemma obj_replace_keys (k : string) (v : JsVal) (o : list (string * JsVal)) :
  map fst (obj_replace k v o) = map fst o.
Proof.
  induction o as [|[k0 v0] o IH]; [reflexivity|]. cbn [obj_replace].
  destruct (String.eqb k0 k); cbn [map fst]; [reflexivity | rewrite IH; reflexivity].
Qed.

Lemma obj_insert_In (k : string) (v : JsVal) (o : list (string * JsVal)) (p : string * JsVal) :
  In p (obj_insert k v o) <-> p = (k, v) \/ In p o.
Proof.
  induction o as [|[k0 v0] o IH]; cbn [obj_insert In]; [intuition congruence|].
  destruct (precedes k k0); cbn [In]; [intuition congruence|].
  rewrite IH. intuition congruence.
Qed.

Lemma obj_replace_In (k : string) (v : JsVal) (o : list (string * JsVal)) (p : string * JsVal) :
  In p (obj_replace k v o) -> snd p = v \/ In p o.
Proof.
  induction o as [|[k0 v0] o IH]; cbn [obj_replace In]; [tauto|].
  destruct (String.eqb k0 k); cbn [In]; [|tauto].
  intros [<-|H]; [left; reflexivity | right; right; exact H].
Qed.

Lemma obj_get_None_keys (k : string) (o : list (string * JsVal)) (p : string * JsVal) :
  obj_get k o = None -> In p o -> String.eqb (fst p) k = false.
Proof.
  induction o as [|[k0 v0] o IH]; cbn [obj_get In]; [tauto|].
  destruct (String.eqb k0 k) eqn:He; [discriminate|].
  intros Hn [<-|Hin]; [exact He | apply IH; assumption].
Qed.

Lemma obj_insert_canonical (k : string) (v : JsVal) (o : list (string * JsVal)) :
  obj_get k o = None ->
  keys_canonical (map fst o) = true ->
  keys_canonical (map fst (obj_insert k v o)) = true.
Proof.
  induction o as [|[k0 v0] o IH]; intros Hget Hc; [reflexivity|].
  cbn [obj_get] in Hget. destruct (String.eqb k0 k) eqn:He; [discriminate|].
  cbn [map fst keys_canonical] in Hc. apply andb_prop in Hc as [Hall Hc].
  rewrite forallb_forall in Hall.
  cbn [obj_insert]. destruct (precedes k k0) eqn:Hp.
  - cbn [map fst keys_canonical]. apply andb_true_intro. split.
    + cbn [forallb]. rewrite He, (precedes_asym k k0 Hp). cbn [negb andb].
      apply forallb_forall. intros k2 Hin.
      apply in_map_iff in Hin as (p & <- & Hin).
      rewrite (obj_get_None_keys k o p Hget Hin). cbn [negb andb].
      apply negb_true_iff. destruct (precedes (fst p) k) eqn:Hp2; [|reflexivity].
      pose proof (precedes_trans _ _ _ Hp2 Hp) as Hp3.
      assert (Hin' : In (fst p) (map fst o)) by (apply in_map; exact Hin).
      apply Hall, andb_prop in Hin' as [_ Hn]. rewrite Hp3 in Hn. discriminate Hn.
    + apply andb_true_intro. split; [apply forallb_forall; exact Hall | exact Hc].
  - cbn [map fst keys_canonical]. apply andb_true_intro. split; [|apply IH; assumption].
    apply forallb_forall. intros k2 Hin. apply in_map_iff in Hin as (p & <- & Hin).
    apply obj_insert_In in Hin as [-> | Hin].
    + cbn [fst]. rewrite String.eqb_sym, He, Hp. reflexivity.
    + apply Hall, in_map, Hin.
Qed.

(** An object keeps its shape when a property is set: no key twice, array
    indices first and ascending. *)
Lemma obj_set_canonical (k : string) (v : JsVal) (o : list (string * JsVal)) :
  keys_canonical (map fst o) = true -> keys_canonical (map fst (obj_set k v o)) = true.
Proof.
  intros Hc. unfold obj_set, obj_has. destruct (obj_get k o) eqn:Hget.
  - rewrite obj_replace_keys. exact Hc.
  - apply obj_insert_canonical; assumption.
Qed.

Lemma obj_set_wf (k : string) (v : JsVal) (o : list (string * JsVal)) :
  wf (JObj o) = true -> wf v = true -> wf (JObj (obj_set k v o)) = true.
Proof.
  cbn [wf]. intros Ho Hv. apply andb_prop in Ho as [Hc Hall].
  apply andb_true_intro. split; [apply obj_set_canonical, Hc|].
  rewrite forallb_forall in *. intros p Hin. unfold obj_set in Hin.
  destruct (obj_has k o).
  - apply obj_replace_In in Hin as [-> | Hin]; [exact Hv | apply Hall, Hin].
  - apply obj_insert_In in Hin as [-> | Hin]; [exact Hv | apply Hall, Hin].
Qed.

Lemma obj_replace_twice (k : string) (v1 v2 : JsVal) (o : list (string * JsVal)) :
  obj_replace k v2 (obj_replace k v1 o) = obj_replace k v2 o.
Proof.
  induction o as [|[k0 v0] o IH]; [reflexivity|]. cbn [obj_replace].
  destruct (String.eqb k0 k) eqn:He; cbn [obj_replace]; rewrite He;
    [reflexivity | rewrite IH; reflexivity].
Qed.

Lemma obj_replace_insert (k : string) (v1 v2 : JsVal) (o : list (string * JsVal)) :
  obj_get k o = None -> obj_replace k v2 (obj_insert k v1 o) = obj_insert k v2 o.
Proof.
  induction o as [|[k0 v0] o IH]; cbn [obj_get obj_insert obj_replace]; intros Hget.
  - rewrite String.eqb_refl. reflexivity.
  - destruct (String.eqb k0 k) eqn:He; [discriminate|].
    destruct (precedes k k0); cbn [obj_replace].
    + rewrite String.eqb_refl. reflexivity.
    + rewrite He, (IH Hget). reflexivity.
Qed.

(** Setting a property twice is setting it once, to the last value. *)
Lemma obj_set_twice (k : string) (v1 v2 : JsVal) (o : list (string * JsVal)) :
  obj_set k v2 (obj_set k v1 o) = obj_set k v2 o.
Proof.
  assert (Hhas : obj_has k (obj_set k v1 o) = true)
    by (unfold obj_has; rewrite obj_get_set, String.eqb_refl; reflexivity).
  unfold obj_set at 1. rewrite Hhas. unfold obj_set, obj_has.
  destruct (obj_get k o) eqn:Hget.
  - apply obj_replace_twice.
  - apply obj_replace_insert, Hget.
Qed.

(** Durations recorded one after the other.  Recording twice under the
    same key leaves the component as recording the last value once: the
    map does not grow.  Recordings under different keys can be made in
    either order as far as reading the map goes (the order of enumeration
    may differ).  And the map stays an object as JavaScript has them (no
    key twice, array indices first), so that it is written and read back as
    it is. *)
Theorem duration_upsert_composes
    (c : Chat) (k k' : string) (v1 v2 v' : JsVal) :
  handleDurationChange k v2 (handleDurationChange k v1 c) = handleDurationChange k v2 c
  /\ (k <> k' ->
      forall q,
        obj_get q (spread (durations (handleDurationChange k' v' (handleDurationChange k v1 c))))
        = obj_get q
            (spread (durations (handleDurationChange k v1 (handleDurationChange k' v' c)))))
  /\ (forall D, durations c = JObj D -> wf (JObj D) = true -> wf v1 = true ->
      wf (durations (handleDurationChange k v1 c)) = true).
Proof.
  split; [|split].
  - unfold handleDurationChange, setDurations. cbn [durations isClient welcomeShownRef
      initialMessages messages form_message committed_isClient fresh_messages spread].
    rewrite obj_set_twice. reflexivity.
  - intros Hne q. unfold handleDurationChange. cbn [setDurations durations spread].
    rewrite !obj_get_set.
    destruct (String.eqb_spec k' q) as [->|H1], (String.eqb_spec k q) as [->|H2];
      try reflexivity.
    contradiction.
  - intros D HD HwfD Hwfv. unfold handleDurationChange. cbn [setDurations durations].
    rewrite HD. cbn [spread]. apply obj_set_wf; assumption.
Qed.

(** Recording 20 and then 30 under [b] in [{a: 10}] gives [{a: 10, b: 30}],
    which is an object as JavaScript has them. *)
Lemma duration_upsert_composes_witness :
  durations
    (handleDurationChange "b" (JNum 30 0)
       (handleDurationChange "b" (JNum 20 0)
          (mounted_chat {| Storage.messages := JArr [];
                           Storage.durations := JObj [("a", JNum 10 0)] |})))
  = JObj [("a", JNum 10 0); ("b", JNum 30 0)]
  /\ wf (durations
           (handleDurationChange "b" (JNum 20 0)
              (mounted_chat {| Storage.messages := JArr [];
                               Storage.durations := JObj [("a", JNum 10 0)] |})))
     = true.
Proof.
  destruct (duration_upsert_composes
              (mounted_chat {| Storage.messages := JArr [];
                               Storage.durations := JObj [("a", JNum 10 0)] |})
              "b" "a" (JNum 20 0) (JNum 30 0) (JNum 10 0)) as (Htwice & _ & Hwf).
  split.
  - rewrite Htwice. reflexivity.
  - apply (Hwf [("a", JNum 10 0)]); reflexivity.
Defined.
